(** * Job orchestration of ai_diffusion/model.py: a shallow embedding

    The development follows [src/ai_diffusion/model.py].  Python objects
    that are shared and mutated (jobs) live in an explicit heap keyed by
    object identity; methods that mutate the model or can raise are
    written in a small state-and-exception monad.  Collaborators that
    are outside the file (document, backend client, file system) are
    reduced to the facts the orchestrator reads back, and every call
    made to them is recorded in a log.

    Qt signals are calls of the slots that model.py connects to them
    ([job_finished], [selection_changed]), in the order of connection;
    an exception raised in a slot ends the handler that sent the
    signal.  Signals whose slots are outside the file (the user
    interface) are left out, and so is [_update_target_image], a slot
    that only reads the document and notifies the interface.  An
    [await] is taken to be answered at once. *)

From Stdlib Require Import ZArith List String Bool Lia Floats.
From Stdlib Require DecimalString DecimalZ DecimalPos.
From stdpp Require Import gmap strings list.

Set Warnings "-inexact-float".
Local Open Scope Z_scope.

(** ** Values *)

(** [image.py] is outside the file: an image is a token, and a crop of
    an image is remembered as such. *)
Inductive Image : Type :=
| Img (tag : nat)
| Crop (i : Image) (x y w h : Z).

Record Extent : Type := mkExtent { width : Z; height : Z }.

Record Bounds : Type := mkBounds { bx : Z; by_ : Z; bw : Z; bh : Z }.

Definition bounds_extent (b : Bounds) : Extent := mkExtent (bw b) (bh b).

Definition Bounds_of_extent (e : Extent) : Bounds :=
  mkBounds 0 0 (width e) (height e).

#[global] Instance Extent_eq_dec : EqDecision Extent.
Proof. solve_decision. Defined.

#[global] Instance Bounds_eq_dec : EqDecision Bounds.
Proof. solve_decision. Defined.

#[global] Instance Image_eq_dec : EqDecision Image.
Proof. solve_decision. Defined.

(** Modelled from the spec: [Bounds.expand] of image.py, "the bounds of
    a designated reference layer expanded to include the mask": the
    smallest rectangle that covers both. *)
Definition Bounds_expand (b include : Bounds) : Bounds :=
  let x0 := Z.min (bx b) (bx include) in
  let y0 := Z.min (by_ b) (by_ include) in
  let x1 := Z.max (bx b + bw b) (bx include + bw include) in
  let y1 := Z.max (by_ b + bh b) (by_ include + bh include) in
  mkBounds x0 y0 (x1 - x0) (y1 - y0).

Record Mask : Type := mkMask { mask_bounds : Bounds }.

Definition Path : Type := string.

(** [str(n)] of a Python int. *)
Definition str_of_Z (z : Z) : string :=
  DecimalString.NilZero.string_of_int (Z.to_int z).

(** [folder / name] of pathlib for a relative [name]. *)
Definition path_join (folder : Path) (name : string) : Path :=
  folder +:+ "/" +:+ name.

(** ** Enumerations of api.py, jobs.py, client.py *)

Inductive InpaintMode : Type :=
| automatic | fill | expand | add_object | remove_object
| replace_background | custom.

Inductive InpaintContext : Type :=
| ctx_automatic | ctx_mask_bounds | ctx_entire_image | ctx_layer_bounds.

Inductive JobKind : Type :=
| diffusion | control_layer | upscaling | live_preview
| animation_batch | animation_frame.

Inductive JobState : Type := queued | running | finished | cancelled.

Inductive ClientEvent : Type :=
| ev_progress | ev_finished | ev_interrupted | ev_error.

Inductive ControlMode : Type := pose | other_mode.

#[global] Instance InpaintMode_eq_dec : EqDecision InpaintMode.
Proof. solve_decision. Defined.
#[global] Instance InpaintContext_eq_dec : EqDecision InpaintContext.
Proof. solve_decision. Defined.
#[global] Instance JobKind_eq_dec : EqDecision JobKind.
Proof. solve_decision. Defined.
#[global] Instance JobState_eq_dec : EqDecision JobState.
Proof. solve_decision. Defined.
#[global] Instance ClientEvent_eq_dec : EqDecision ClientEvent.
Proof. solve_decision. Defined.
#[global] Instance ControlMode_eq_dec : EqDecision ControlMode.
Proof. solve_decision. Defined.

(** ** Settings

    The global [settings] object of settings.py, read as an injected
    record.  The percentages and the batch size are Python ints. *)
Record Settings : Type := mkSettings {
  selection_grow : Z;
  selection_feather : Z;
  selection_padding : Z;
  batch_size : Z;
  auto_preview : bool;
}.

(** ** Selection modifiers (model.py, get_selection_modifiers)

    Python floats are IEEE binary64, as Rocq's primitive floats, and
    Python ints are unbounded.  [a / b] on two ints is the quotient of
    the two integers rounded once to the nearest float, ties to even,
    whatever the size of [a] and [b]; it raises ZeroDivisionError for
    [b = 0] and OverflowError when the rounded quotient is beyond the
    largest float.  [SFdiv] of the Standard Library is this rounded
    quotient when it is given the two integers as they are. *)
Definition int_to_spec (z : Z) : spec_float :=
  match z with
  | Z0 => S754_zero false
  | Zpos p => S754_finite false p 0
  | Zneg p => S754_finite true p 0
  end.

(** [a / b]; [None] when the division raises. *)
Definition int_truediv (a b : Z) : option float :=
  match b with
  | Z0 => None
  | _ =>
      match SFdiv prec emax (int_to_spec a) (int_to_spec b) with
      | S754_infinity _ | S754_nan => None
      | q => Some (SF2Prim q)
      end
  end.

(** [min(a, b)] of two Python numbers: the first argument stays unless
    the second is strictly smaller. *)
Definition py_min (a b : float) : float :=
  if PrimFloat.ltb b a then b else a.

Record SelectionModifiers : Type := mkModifiers {
  grow : float;
  feather : float;
  padding : float;
  invert : bool;
}.

(** [None] when one of the three divisions raises OverflowError. *)
Definition get_selection_modifiers (settings : Settings) (inpaint_mode : InpaintMode)
  : option SelectionModifiers :=
  grow ← int_truediv (selection_grow settings) 100;
  feather ← int_truediv (selection_feather settings) 100;
  padding ← int_truediv (selection_padding settings) 100;
  let invert := false in
  let feather :=
    if decide (inpaint_mode = remove_object)
    then py_min feather (PrimFloat.mul grow 0.5%float)
    else feather in
  let '(grow, feather, invert) :=
    if decide (inpaint_mode = replace_background)
    then (py_min grow 0.01%float, py_min feather 0.01%float, true)
    else (grow, feather, invert) in
  Some (mkModifiers grow feather padding invert).

(** ** Jobs (jobs.py) and the other records of the model state *)

Record JobParams : Type := mkParams {
  prompt : string;
  negative_prompt : string;
  bounds : Bounds;
  strength : float;
  seed : Z;
  frame : Z * Z * Z;
  animation_id : string;
}.

Record ControlLayer : Type := mkControl {
  mode : ControlMode;
  layer_id : option nat;
}.

Record Job : Type := mkJob {
  job_id : option string;
  kind : JobKind;
  state : JobState;
  params : JobParams;
  results : list Image;
  control : option ControlLayer;
}.

Definition with_job_id (v : option string) (j : Job) : Job :=
  mkJob v (kind j) (state j) (params j) (results j) (control j).
Definition with_state (v : JobState) (j : Job) : Job :=
  mkJob (job_id j) (kind j) v (params j) (results j) (control j).
Definition with_results (v : list Image) (j : Job) : Job :=
  mkJob (job_id j) (kind j) (state j) (params j) v (control j).
Definition with_control (v : option ControlLayer) (j : Job) : Job :=
  mkJob (job_id j) (kind j) (state j) (params j) (results j) v.

Record Layer : Type := mkLayer { uid : nat; layer_bounds : Bounds }.

(** The host document, an external collaborator: the facts the
    orchestrator reads back from it. *)
Record Document : Type := mkDocument {
  extent : Extent;
  filename : string;
  doc_is_active : bool;
  current_time : Z;
  active_layer : Layer;
  layers : list Layer;
  next_uid : nat;
}.

Inductive QueueCall : Type :=
| q_add (r : nat)
| q_set_results (r : nat) (images : list Image)
| q_notify_started (r : nat)
| q_notify_finished (r : nat)
| q_notify_cancelled (r : nat)
| q_remove (r : nat)
| q_select (id : string) (index : nat).

Inductive DocCall : Type :=
| insert_layer (name : string) (img : Image) (b : Bounds) (make_active : bool)
| insert_vector_layer (name : string) (svg_of : string)
| set_layer_content (l : nat) (img : Image) (b : Bounds)
| move_to_top (l : nat)
| hide_layer (l : nat)
| resize (e : Extent)
| import_animation (files : list Path) (start : Z)
| setName (l : nat) (name : string)
| setLocked (l : nat) (locked : bool)
| remove_layer (l : nat).

Inductive Coroutine : Type :=
| co_generate_live.

(** What the model did to the outside, in order. *)
Inductive Event : Type :=
| LogError (msg : string)
| JobsCall (c : QueueCall)
| JobFinishedSignal (r : nat) (seen : Job)
| DocumentCall (c : DocCall)
| ImageSave (img : Image) (file : Path)
| Mkdir (folder : Path)
| ClientEnqueue (work_seed : option Z) (front : bool)
| EventloopRun (co : Coroutine).

Record JobQueue : Type := mkQueue {
  entries : list nat;
  selection : option (string * nat);
  next_ref : nat;
}.

Record LiveWorkspace : Type := mkLive {
  is_active : bool;
  is_recording : bool;
  has_result : bool;
  live_result : option Image;
  live_result_bounds : option Bounds;
  live_keyframes_folder : option Path;
  keyframe_start : Z;
  keyframe_index : Z;
  live_keyframes : list Path;
}.

Record AnimationWorkspace : Type := mkAnimation {
  anim_keyframes_folder : option Path;
  anim_keyframes : gmap string (list Path);
  target_layer : nat;
}.

(** What the modelled methods only read: the settings, the prompt, the
    queue_front flag, the backend's answer to the n-th enqueue call
    ([None]: the call fails with a NetworkError), and pathlib's
    [path.parent / str(path.with_suffix(suffix))]. *)
Record Config : Type := mkConfig {
  settings : Settings;
  model_prompt : string;
  queue_front : bool;
  enqueue_reply : nat -> option string;
  frames_folder : string -> string -> Path;
}.

Record Model : Type := mkModel {
  config : Config;
  doc : Document;
  sent : nat;
  layer : option Layer;
  progress : float;
  error : string;
  jobs : JobQueue;
  objects : gmap nat Job;
  live : LiveWorkspace;
  animation : AnimationWorkspace;
  files : list Path;
  log : list Event;
}.

Definition set_doc v (m : Model) : Model :=
  mkModel (config m) v (sent m) (layer m) (progress m) (error m) (jobs m) (objects m) (live m) (animation m) (files m) (log m).
Definition set_sent v (m : Model) : Model :=
  mkModel (config m) (doc m) v (layer m) (progress m) (error m) (jobs m) (objects m) (live m) (animation m) (files m) (log m).
Definition set_layer v (m : Model) : Model :=
  mkModel (config m) (doc m) (sent m) v (progress m) (error m) (jobs m) (objects m) (live m) (animation m) (files m) (log m).
Definition set_progress v (m : Model) : Model :=
  mkModel (config m) (doc m) (sent m) (layer m) v (error m) (jobs m) (objects m) (live m) (animation m) (files m) (log m).
Definition set_error v (m : Model) : Model :=
  mkModel (config m) (doc m) (sent m) (layer m) (progress m) v (jobs m) (objects m) (live m) (animation m) (files m) (log m).
Definition set_jobs v (m : Model) : Model :=
  mkModel (config m) (doc m) (sent m) (layer m) (progress m) (error m) v (objects m) (live m) (animation m) (files m) (log m).
Definition set_objects v (m : Model) : Model :=
  mkModel (config m) (doc m) (sent m) (layer m) (progress m) (error m) (jobs m) v (live m) (animation m) (files m) (log m).
Definition set_live v (m : Model) : Model :=
  mkModel (config m) (doc m) (sent m) (layer m) (progress m) (error m) (jobs m) (objects m) v (animation m) (files m) (log m).
Definition set_animation v (m : Model) : Model :=
  mkModel (config m) (doc m) (sent m) (layer m) (progress m) (error m) (jobs m) (objects m) (live m) v (files m) (log m).
Definition set_files v (m : Model) : Model :=
  mkModel (config m) (doc m) (sent m) (layer m) (progress m) (error m) (jobs m) (objects m) (live m) (animation m) v (log m).
Definition set_log v (m : Model) : Model :=
  mkModel (config m) (doc m) (sent m) (layer m) (progress m) (error m) (jobs m) (objects m) (live m) (animation m) (files m) v.

Definition set_is_active v (l : LiveWorkspace) : LiveWorkspace :=
  mkLive v (is_recording l) (has_result l) (live_result l) (live_result_bounds l) (live_keyframes_folder l) (keyframe_start l) (keyframe_index l) (live_keyframes l).
Definition set_is_recording v (l : LiveWorkspace) : LiveWorkspace :=
  mkLive (is_active l) v (has_result l) (live_result l) (live_result_bounds l) (live_keyframes_folder l) (keyframe_start l) (keyframe_index l) (live_keyframes l).
Definition set_has_result v (l : LiveWorkspace) : LiveWorkspace :=
  mkLive (is_active l) (is_recording l) v (live_result l) (live_result_bounds l) (live_keyframes_folder l) (keyframe_start l) (keyframe_index l) (live_keyframes l).
Definition set_live_result v (l : LiveWorkspace) : LiveWorkspace :=
  mkLive (is_active l) (is_recording l) (has_result l) v (live_result_bounds l) (live_keyframes_folder l) (keyframe_start l) (keyframe_index l) (live_keyframes l).
Definition set_live_result_bounds v (l : LiveWorkspace) : LiveWorkspace :=
  mkLive (is_active l) (is_recording l) (has_result l) (live_result l) v (live_keyframes_folder l) (keyframe_start l) (keyframe_index l) (live_keyframes l).
Definition set_live_keyframes_folder v (l : LiveWorkspace) : LiveWorkspace :=
  mkLive (is_active l) (is_recording l) (has_result l) (live_result l) (live_result_bounds l) v (keyframe_start l) (keyframe_index l) (live_keyframes l).
Definition set_keyframe_start v (l : LiveWorkspace) : LiveWorkspace :=
  mkLive (is_active l) (is_recording l) (has_result l) (live_result l) (live_result_bounds l) (live_keyframes_folder l) v (keyframe_index l) (live_keyframes l).
Definition set_keyframe_index v (l : LiveWorkspace) : LiveWorkspace :=
  mkLive (is_active l) (is_recording l) (has_result l) (live_result l) (live_result_bounds l) (live_keyframes_folder l) (keyframe_start l) v (live_keyframes l).
Definition set_live_keyframes v (l : LiveWorkspace) : LiveWorkspace :=
  mkLive (is_active l) (is_recording l) (has_result l) (live_result l) (live_result_bounds l) (live_keyframes_folder l) (keyframe_start l) (keyframe_index l) v.

(** ** The monad of model methods

    A method takes the model to an outcome and the model it leaves
    behind: it returns a value, raises a Python exception, or is
    [Stuck].  [Stuck] is not a behaviour of the program: it is the
    model running out of fuel or following a reference that is not in
    the heap. *)

Inductive Exn : Type :=
| AssertionError (msg : string)
| IndexError
| KeyError
| NetworkError.

Inductive Outcome (A : Type) : Type :=
| Returned (a : A)
| Raised (e : Exn)
| Stuck.
Arguments Returned {A} a.
Arguments Raised {A} e.
Arguments Stuck {A}.

Definition M (A : Type) : Type := Model -> Outcome A * Model.

#[global] Instance M_ret : MRet M := fun A a m => (Returned a, m).

#[global] Instance M_bind : MBind M := fun A B k c m =>
  match c m with
  | (Returned a, m') => k a m'
  | (Raised e, m') => (Raised e, m')
  | (Stuck, m') => (Stuck, m')
  end.

Definition raise {A} (e : Exn) : M A := fun m => (Raised e, m).
Definition stuck {A} : M A := fun m => (Stuck, m).
Definition get : M Model := fun m => (Returned m, m).
Definition modify (f : Model -> Model) : M unit := fun m => (Returned tt, f m).

Definition emit (e : Event) : M unit :=
  modify (fun m => set_log (log m ++ [e]) m).

(** [assert cond, msg] *)
Definition assert (cond : bool) (msg : string) : M unit :=
  if cond then mret tt else raise (AssertionError msg).

(** Reading a job object through its reference. *)
Definition deref (r : nat) : M Job := fun m =>
  match objects m !! r with
  | Some j => (Returned j, m)
  | None => (Stuck, m)
  end.

(** An attribute assignment on a job object. *)
Definition assign (r : nat) (f : Job -> Job) : M unit :=
  modify (fun m => set_objects (alter f r (objects m)) m).

Definition modify_live (f : LiveWorkspace -> LiveWorkspace) : M unit :=
  modify (fun m => set_live (f (live m)) m).

(** ** The document collaborator *)

Definition doc_call (c : DocCall) : M unit := emit (DocumentCall c).

Definition set_doc_layers (ls : list Layer) (active : Layer) (next : nat)
  (d : Document) : Document :=
  mkDocument (extent d) (filename d) (doc_is_active d) (current_time d)
    active ls next.

(** A layer the document creates gets a fresh id. *)
Definition doc_new_layer (b : Bounds) (make_active : bool) : M Layer :=
  m ← get;
  let d := doc m in
  let l := mkLayer (next_uid d) b in
  modify (set_doc (set_doc_layers (layers d ++ [l])
                     (if make_active then l else active_layer d)
                     (S (next_uid d)) d));;
  mret l.

Definition doc_insert_layer (name : string) (img : Image) (b : Bounds)
  (make_active : bool) : M Layer :=
  doc_call (insert_layer name img b make_active);;
  doc_new_layer b make_active.

Definition doc_insert_vector_layer (name : string) (svg_of : string) : M Layer :=
  m ← get;
  doc_call (insert_vector_layer name svg_of);;
  doc_new_layer (Bounds_of_extent (extent (doc m))) true.

Definition doc_import_animation (fs : list Path) (start : Z) : M unit :=
  m ← get;
  doc_call (import_animation fs start);;
  _ ← doc_new_layer (Bounds_of_extent (extent (doc m))) true;
  mret tt.

Definition doc_resize (e : Extent) : M unit :=
  doc_call (resize e);;
  modify (fun m =>
    let d := doc m in
    set_doc (mkDocument e (filename d) (doc_is_active d) (current_time d)
               (active_layer d) (layers d) (next_uid d)) m).

Definition doc_remove_layer (l : Layer) : M unit :=
  doc_call (remove_layer (uid l));;
  modify (fun m =>
    let d := doc m in
    set_doc (set_doc_layers
               (filter (fun l' => uid l' ≠ uid l) (layers d))
               (active_layer d) (next_uid d) d) m).

(** [model.layers.find(id)] *)
Definition layers_find (m : Model) (id : nat) : option Layer :=
  List.find (fun l => bool_decide (uid l = id)) (layers (doc m)).

(** [layer in model.layers] *)
Definition layers_contain (m : Model) (l : Layer) : bool :=
  bool_decide (is_Some (layers_find m (uid l))).

(** [image.save(file)] *)
Definition image_save (img : Image) (file : Path) : M unit :=
  emit (ImageSave img file);;
  modify (fun m => set_files (files m ++ [file]) m).

(** ** Model: errors and the live workspace (model.py, 200-281, 511-619) *)

Definition clear_error : M unit :=
  m ← get;
  if bool_decide (error m ≠ "") then modify (set_error "") else mret tt.

(** [Model.generate_live]: the mask, the image and the workflow input
    come from collaborators that only read the document; what the
    method does to the model is to clear the error and to hand the
    coroutine [_generate(input, bounds, 1, is_live=True)] to the event
    loop, which runs it later. *)
Definition generate_live : M unit :=
  clear_error;;
  emit (EventloopRun co_generate_live).

Definition live_frame_file (folder : Path) (index : Z) : Path :=
  path_join folder ("frame-" +:+ str_of_Z index +:+ ".webp").

(** The loop [while (folder / f"frame-{index}.webp").exists(): index += 1]
    of [_start_recording]. *)
Fixpoint skip_existing_frames (fuel : nat) (folder : Path) : M unit :=
  match fuel with
  | O => stuck
  | S fuel =>
      m ← get;
      if bool_decide (live_frame_file folder (keyframe_index (live m)) ∈ files m)
      then modify_live (fun l => set_keyframe_index (keyframe_index l + 1) l);;
           skip_existing_frames fuel folder
      else mret tt
  end.

Definition _start_recording : M (option Path) :=
  m ← get;
  let doc_filename := filename (doc m) in
  if bool_decide (doc_filename ≠ "") then
    let folder := frames_folder (config m) doc_filename ".live-frames" in
    emit (Mkdir folder);;
    modify_live (set_live_keyframes_folder (Some folder));;
    skip_existing_frames (S (length (files m))) folder;;
    modify_live (fun l => set_keyframe_start (keyframe_index l) l);;
    mret (Some folder)
  else
    modify_live (set_live_keyframes_folder None);;
    mret None.

Definition _save_frame (image : Image) (b : Bounds) : M unit :=
  m ← get;
  match live_keyframes_folder (live m) with
  | None => raise (AssertionError "")
  | Some folder =>
      let file := live_frame_file folder (keyframe_index (live m)) in
      modify_live (fun l => set_keyframe_index (keyframe_index l + 1) l);;
      let image :=
        if bool_decide (bounds_extent b ≠ extent (doc m))
        then Crop image (bx b) (by_ b) (bw b) (bh b) else image in
      image_save image file;;
      modify_live (fun l => set_live_keyframes (live_keyframes l ++ [file]) l)
  end.

Definition live_set_result (value : Image) (b : Bounds) : M unit :=
  modify_live (set_live_result (Some value));;
  modify_live (set_live_result_bounds (Some b));;
  modify_live (set_has_result true);;
  m ← get;
  if is_recording (live m) then _save_frame value b else mret tt.

Definition live_import_animation : M unit :=
  m ← get;
  let l := live m in
  doc_import_animation (live_keyframes l) (keyframe_start l);;
  let start := keyframe_start l in
  let end_ := keyframe_start l + Z.of_nat (length (live_keyframes l)) in
  m' ← get;
  doc_call (setName (uid (active_layer (doc m')))
    ("[Rec] " +:+ str_of_Z start +:+ "-" +:+ str_of_Z end_ +:+ ": "
       +:+ model_prompt (config m)));;
  modify_live (set_live_keyframes []).

(** [Model.report_error], and the setters [LiveWorkspace.toggle] of
    [is_active] and [LiveWorkspace.toggle_record] of [is_recording]:
    an assignment to either property is a call of its setter.  The
    three call each other; [fuel] bounds the depth of the calls. *)
Fixpoint report_error (fuel : nat) (message : string) : M unit :=
  match fuel with
  | O => stuck
  | S fuel =>
      modify (set_error message);;
      toggle fuel false
  end
with toggle (fuel : nat) (active : bool) : M unit :=
  match fuel with
  | O => stuck
  | S fuel =>
      m ← get;
      if bool_decide (is_active (live m) ≠ active) then
        modify_live (set_is_active active);;
        if active then generate_live else toggle_record fuel false
      else mret tt
  end
with toggle_record (fuel : nat) (active : bool) : M unit :=
  match fuel with
  | O => stuck
  | S fuel =>
      m ← get;
      if bool_decide (is_recording (live m) ≠ active) then
        refused ← (if active
                   then folder ← _start_recording;
                        mret (bool_decide (folder = None))
                   else mret false);
        if (refused : bool) then
          report_error fuel
            "Cannot save recorded frames, document must be saved first!"
        else
          modify_live (set_is_recording active);;
          toggle fuel active;;
          if active then mret tt else live_import_animation
      else mret tt
  end.

Definition live_handle_job_finished (fuel : nat) (r : nat) : M unit :=
  job ← deref r;
  if bool_decide (kind job = live_preview) then
    match results job with
    | image :: _ => live_set_result image (bounds (params job))
    | [] => mret tt
    end;;
    m ← get;
    toggle fuel (is_active (live m) && doc_is_active (doc m));;
    m ← get;
    if is_active (live m) then generate_live else mret tt
  else mret tt.

(** ** The animation workspace (model.py, 718-754) *)

Definition modify_animation (f : AnimationWorkspace -> AnimationWorkspace) : M unit :=
  modify (fun m => set_animation (f (animation m)) m).

Definition set_anim_keyframes (v : gmap string (list Path))
  (a : AnimationWorkspace) : AnimationWorkspace :=
  mkAnimation (anim_keyframes_folder a) v (target_layer a).

Definition set_target_layer (v : nat) (a : AnimationWorkspace) : AnimationWorkspace :=
  mkAnimation (anim_keyframes_folder a) (anim_keyframes a) v.

Definition anim_frame_file (folder : Path) (index : Z) : Path :=
  path_join folder ("frame-" +:+ str_of_Z index +:+ ".png").

(** [keyframes.append(file)] on the list stored under [id]. *)
Definition keyframes_append (id : string) (file : Path) : M unit :=
  modify_animation (fun a =>
    set_anim_keyframes (alter (fun ks => ks ++ [file]) id (anim_keyframes a)) a).

Definition animation_import_animation (job : Job) : M unit :=
  m ← get;
  match anim_keyframes (animation m) !! animation_id (params job) with
  | None => raise KeyError
  | Some keyframes =>
      modify_animation (fun a =>
        set_anim_keyframes (delete (animation_id (params job)) (anim_keyframes a)) a);;
      let '(_, start, end_) := frame (params job) in
      doc_import_animation keyframes start;;
      m' ← get;
      doc_call (setName (uid (active_layer (doc m')))
        ("[Generated] " +:+ str_of_Z start +:+ "-" +:+ str_of_Z end_ +:+ ": "
           +:+ prompt (params job)));;
      modify_animation (set_target_layer (uid (active_layer (doc m'))))
  end.

Definition animation_handle_job_finished (fuel : nat) (r : nat) : M unit :=
  job ← deref r;
  if bool_decide (kind job = animation_batch) then
    m ← get;
    match anim_keyframes_folder (animation m) with
    | None => raise (AssertionError "")
    | Some folder =>
        let '(frame, _, end_) := frame (params job) in
        let id := animation_id (params job) in
        (* keyframes = self._keyframes.setdefault(id, []) *)
        let keyframes := default [] (anim_keyframes (animation m) !! id) in
        modify_animation (set_anim_keyframes (<[id := keyframes]> (anim_keyframes (animation m))));;
        match results job with
        | image :: _ =>
            let file := anim_frame_file folder frame in
            image_save image file;;
            keyframes_append id file
        | [] =>
            match last keyframes with
            | Some previous => keyframes_append id previous
            | None => mret tt
            end
        end;;
        if bool_decide (frame = end_) then animation_import_animation job else mret tt
    end
  else if bool_decide (kind job = animation_frame) then
    match results job with
    | image :: _ =>
        m ← get;
        if bool_decide ((frame (params job)).1.1 ≠ current_time (doc m)) then
          report_error fuel "Generated frame does not match current time"
        else
          match layers_find m (target_layer (animation m)) with
          | Some l => doc_call (set_layer_content (uid l) image (bounds (params job)))
          | None => report_error fuel "Target layer not found"
          end
    | [] => mret tt
    end
  else mret tt.

(** ** The job queue (jobs.py)

    jobs.py is not among the sources.  The queue holds references to
    job objects in submission order; the objects themselves are in
    [objects], so a job that left the queue is still the same
    object. *)

Definition modify_jobs (f : JobQueue -> JobQueue) : M unit :=
  modify (fun m => set_jobs (f (jobs m)) m).

Definition queue_call (c : QueueCall) : M unit := emit (JobsCall c).

(** The job objects in the queue, in queue order. *)
Definition queued_jobs (m : Model) : list (nat * Job) :=
  omap (fun r => (fun j => (r, j)) <$> objects m !! r) (entries (jobs m)).

(** Modelled from the spec: [JobQueue.add] of jobs.py, "Job Queue
    records a new Job (state queued)", "id: absent until enqueue
    acknowledged", "insertion order = submission order".  The
    mode-specific fields [frame] and [animation_id] start empty; the
    animation workspace fills them in. *)
Definition jobs_add (k : JobKind) (pos neg : string) (b : Bounds)
  (strength : float) (seed : Z) : M nat :=
  m ← get;
  let r := next_ref (jobs m) in
  let job := mkJob None k queued (mkParams pos neg b strength seed (0, 0, 0) "") [] None in
  queue_call (q_add r);;
  modify (fun m => set_objects (<[r := job]> (objects m)) m);;
  modify_jobs (fun q => mkQueue (entries q ++ [r]) (selection q) (S (next_ref q)));;
  mret r.

(** Modelled from the spec: [JobQueue.find] of jobs.py, the job of the
    queue with the given id, if any ("look up job by id"). *)
Definition jobs_find (m : Model) (id : string) : option nat :=
  fst <$> List.find (fun rj => bool_decide (job_id rj.2 = Some id)) (queued_jobs m).

Definition is_executing (j : Job) : bool :=
  bool_decide (state j = queued) || bool_decide (state j = running).

(** Modelled from the spec: [JobQueue.any_executing] of jobs.py,
    "any_executing() is true iff at least one Job has state queued or
    running". *)
Definition any_executing (m : Model) : bool :=
  existsb (fun rj => is_executing rj.2) (queued_jobs m).

(** Modelled from the spec: [JobQueue.notify_started] of jobs.py,
    "queued → running.  Idempotent if already running"; finished and
    cancelled are terminal. *)
Definition notify_started (r : nat) : M unit :=
  queue_call (q_notify_started r);;
  job ← deref r;
  if bool_decide (state job = queued) then assign r (with_state running)
  else mret tt.

(** Modelled from the spec: [JobQueue.set_results] of jobs.py,
    "set_results(job, images)": the job's results become the images. *)
Definition set_results (r : nat) (images : list Image) : M unit :=
  queue_call (q_set_results r images);;
  _ ← deref r;
  assign r (with_results images).

(** Modelled from the spec: [JobQueue.notify_finished] of jobs.py,
    "{queued, running} → finished", after which "observers react to the
    finished transition": the signal [job_finished] reaches its slots
    in the order [Model.__init__] connected them (model.py 88-89, 537,
    647), the live workspace first.  For a finished or cancelled job
    the spec only says that no transition is permitted: here the call
    does nothing, and what is proved about the finished state is
    proved for jobs that are queued or running. *)
Definition notify_finished (fuel : nat) (r : nat) : M unit :=
  queue_call (q_notify_finished r);;
  job ← deref r;
  if is_executing job then
    assign r (with_state finished);;
    seen ← deref r;
    emit (JobFinishedSignal r seen);;
    live_handle_job_finished fuel r;;
    animation_handle_job_finished fuel r
  else mret tt.

(** Modelled from the spec: [JobQueue.notify_cancelled] of jobs.py,
    "{queued, running} → cancelled". *)
Definition notify_cancelled (r : nat) : M unit :=
  queue_call (q_notify_cancelled r);;
  job ← deref r;
  if is_executing job then assign r (with_state cancelled)
  else mret tt.

(** Modelled from the spec: [JobQueue.remove] of jobs.py, "deletes the
    Job from the queue regardless of state". *)
Definition jobs_remove (r : nat) : M unit :=
  queue_call (q_remove r);;
  modify_jobs (fun q =>
    mkQueue (filter (fun r' => r' ≠ r) (entries q)) (selection q) (next_ref q)).

(** ** Preview layer (model.py, 312-336) *)

Definition show_preview (id : string) (index : nat) : M unit :=
  m ← get;
  match jobs_find m id with
  | None => raise (AssertionError "Cannot show preview, invalid job id")
  | Some r =>
      job ← deref r;
      let name := "[Preview] " +:+ prompt (params job) in
      (match layer m with
       | Some l => if layers_contain m l then mret tt else modify (set_layer None)
       | None => mret tt
       end);;
      m ← get;
      match layer m with
      | Some l =>
          doc_call (setName (uid l) name);;
          match results job !! index with
          | None => raise IndexError
          | Some image =>
              doc_call (set_layer_content (uid l) image (bounds (params job)));;
              doc_call (move_to_top (uid l))
          end
      | None =>
          match results job !! index with
          | None => raise IndexError
          | Some image =>
              l ← doc_insert_layer name image (bounds (params job)) false;
              modify (set_layer (Some l));;
              doc_call (setLocked (uid l) true)
          end
      end
  end.

Definition hide_preview : M unit :=
  m ← get;
  match layer m with
  | Some l => doc_call (hide_layer (uid l))
  | None => mret tt
  end.

Definition update_preview : M unit :=
  m ← get;
  match selection (jobs m) with
  | Some (job, image) => show_preview job image
  | None => hide_preview
  end.

(** Modelled from the spec: [JobQueue.select] of jobs.py, "sets the
    single active selection; fires a selection-changed notification
    exactly once per net change (selecting the same pair twice is a
    no-op)".  [Model.__init__] connects [selection_changed] to
    [update_preview] (model.py 91). *)
Definition jobs_select (id : string) (index : nat) : M unit :=
  queue_call (q_select id index);;
  m ← get;
  if bool_decide (selection (jobs m) = Some (id, index)) then mret tt
  else
    modify_jobs (fun q => mkQueue (entries q) (Some (id, index)) (next_ref q));;
    update_preview.

(** ** Messages of the backend (model.py, 271-310, 348-366) *)

Record ClientMessage : Type := mkMessage {
  event : ClientEvent;
  msg_job_id : string;
  msg_progress : float;
  images : list Image;
  result : option string;
  msg_error : string;
}.

Definition report_progress (value : float) : M unit :=
  modify (set_progress value).

Definition add_control_layer (r : nat) (result : option string) : M Layer :=
  job ← deref r;
  match control job with
  | Some c =>
      assert (bool_decide (kind job = control_layer)) "";;
      match mode c, result with
      | pose, Some payload =>
          doc_insert_vector_layer (prompt (params job)) payload
      | _, _ =>
          match results job with
          | image :: _ =>
              doc_insert_layer (prompt (params job)) image (bounds (params job)) true
          | [] =>
              (* Execution was cached and no image was produced *)
              m ← get; mret (active_layer (doc m))
          end
      end
  | None => raise (AssertionError "")
  end.

Definition add_upscale_layer (r : nat) : M unit :=
  job ← deref r;
  assert (bool_decide (kind job = upscaling)) "";;
  match results job with
  | [] => raise (AssertionError "Upscaling job did not produce an image")
  | image :: _ =>
      m ← get;
      match layer m with
      | Some l => doc_remove_layer l;; modify (set_layer None)
      | None => mret tt
      end;;
      doc_resize (bounds_extent (bounds (params job)));;
      _ ← doc_insert_layer (prompt (params job)) image (bounds (params job)) true;
      mret tt
  end.

(** Truth value of [job.id]: a non-empty string. *)
Definition has_id (j : Job) : bool :=
  match job_id j with
  | Some id => bool_decide (id ≠ "")
  | None => false
  end.

(** The [finished] branch of [handle_message], in its three parts:
    lines 292-299 (results, layers, progress), line 300
    ([notify_finished]) and lines 301-304 (removal or preview). *)
Definition finished_prepare (r : nat) (message : ClientMessage) : M unit :=
  match images message with
  | [] => mret tt
  | _ :: _ => set_results r (images message)
  end;;
  job ← deref r;
  (if bool_decide (kind job = control_layer) then
     match control job with
     | None => raise (AssertionError "")
     | Some _ =>
         l ← add_control_layer r (result message);
         assign r (fun j =>
           with_control ((fun c => mkControl (mode c) (Some (uid l))) <$> control j) j)
     end
   else if bool_decide (kind job = upscaling) then add_upscale_layer r
   else mret tt);;
  modify (set_progress 1%float).

Definition finished_cleanup (r : nat) : M unit :=
  job ← deref r;
  m ← get;
  if bool_decide (kind job ≠ diffusion) then jobs_remove r
  else if auto_preview (settings (config m)) && bool_decide (layer m = None) && has_id job
  then jobs_select (default "" (job_id job)) 0
  else mret tt.

Definition handle_finished (fuel : nat) (r : nat) (message : ClientMessage) : M unit :=
  finished_prepare r message;;
  notify_finished fuel r;;
  finished_cleanup r.

Definition handle_message (fuel : nat) (message : ClientMessage) : M unit :=
  m ← get;
  match jobs_find m (msg_job_id message) with
  | None =>
      (* util.client_logger.error(f"Received message {message} for unknown job.") *)
      emit (LogError "Received message for unknown job.")
  | Some r =>
      match event message with
      | ev_progress =>
          notify_started r;;
          report_progress (msg_progress message)
      | ev_finished => handle_finished fuel r message
      | ev_interrupted =>
          notify_cancelled r;;
          report_progress 0%float
      | ev_error =>
          notify_cancelled r;;
          report_error fuel ("Server execution error: " +:+ msg_error message)
      end
  end.

(** ** Submitting jobs (model.py, 151-175) *)

Record TextInput : Type := mkText { positive : string; negative : string }.
Record SamplingInput : Type := mkSampling { s_strength : float; s_seed : Z }.
Record InpaintParams : Type := mkInpaint { target_bounds : Bounds }.

Record WorkflowInput : Type := mkInput {
  text : option TextInput;
  sampling : option SamplingInput;
  inpaint : option InpaintParams;
}.

(** [util.ensure] *)
Definition ensure {A} (value : option A) : M A :=
  match value with
  | Some v => mret v
  | None => raise (AssertionError "")
  end.

(** The backend answers the call at once: [await client.enqueue(...)]
    returns the id or raises. *)
Definition _enqueue_job (r : nat) (inputs : WorkflowInput) : M unit :=
  m ← get;
  (if negb (any_executing m) then modify (set_progress 0%float) else mret tt);;
  emit (ClientEnqueue (s_seed <$> sampling inputs) (queue_front (config m)));;
  modify (set_sent (S (sent m)));;
  match enqueue_reply (config m) (sent m) with
  | Some id => assign r (with_job_id (Some id))
  | None => raise NetworkError
  end.

(** The body of [for i in range(count)], from index [i] on.  The local
    [sampling] is the object [input.sampling], so the input that is
    enqueued carries the seed of the moment. *)
Fixpoint generate_loop (todo : nat) (i : Z) (job_kind : JobKind)
  (pos neg : string) (b : Bounds) (input : WorkflowInput)
  (sampling : SamplingInput) (result : list nat) : M (list nat) :=
  match todo with
  | O => mret result
  | S todo =>
      job ← jobs_add job_kind pos neg b (s_strength sampling) (s_seed sampling);
      _enqueue_job job (mkInput (text input) (Some sampling) (inpaint input));;
      m ← get;
      let sampling :=
        mkSampling (s_strength sampling)
          (s_seed sampling + (i + 1) * batch_size (settings (config m))) in
      generate_loop todo (i + 1) job_kind pos neg b input sampling (result ++ [job])
  end.

Definition _generate (input : WorkflowInput) (b : Bounds) (count : Z)
  (is_live : bool) : M (list nat) :=
  let '(input, b) :=
    match inpaint input with
    | Some ip =>
        let tb := target_bounds ip in
        (mkInput (text input) (sampling input)
           (Some (mkInpaint (mkBounds (bx tb - bx b) (by_ tb - by_ b) (bw tb) (bh tb)))),
         tb)
    | None => (input, b)
    end in
  let job_kind := if is_live then live_preview else diffusion in
  t ← ensure (text input);
  let pos := positive t in
  let neg := negative t in
  sampling ← ensure (sampling input);
  generate_loop (Z.to_nat count) 0 job_kind pos neg b input sampling [].

(** ** Custom inpaint context (model.py, 416-456) *)

Record CustomInpaint : Type := mkCustomInpaint {
  ci_mode : InpaintMode;
  ci_context : InpaintContext;
  context_layer_id : nat;
}.

Definition get_context (self : CustomInpaint) (mask : option Mask) : M (option Bounds) :=
  m ← get;
  match mask with
  | None => mret None
  | Some mask =>
      if bool_decide (ci_mode self ≠ custom) then mret None
      else if bool_decide (ci_context self = ctx_mask_bounds) then
        mret (Some (mask_bounds mask))
      else if bool_decide (ci_context self = ctx_entire_image) then
        mret (Some (Bounds_of_extent (extent (doc m))))
      else if bool_decide (ci_context self = ctx_layer_bounds) then
        match layers_find m (context_layer_id self) with
        | Some l => mret (Some (Bounds_expand (layer_bounds l) (mask_bounds mask)))
        | None => mret None
        end
      else mret None
  end.

(** ** Reading the log and the queue *)

(** The calls on the job queue among some events, in order. *)
Definition queue_calls (evs : list Event) : list QueueCall :=
  omap (fun e => match e with JobsCall c => Some c | _ => None end) evs.

(** Events that are neither a call on the job queue nor the
    [job_finished] signal. *)
Definition observer_event (e : Event) : Prop :=
  match e with
  | JobsCall _ | JobFinishedSignal _ _ => False
  | _ => True
  end.

(** [c] takes every model to one related to it by [R], whatever the
    outcome. *)
Definition preserves {A} (R : Model -> Model -> Prop) (c : M A) : Prop :=
  forall m, R m (c m).2.

(** What the slots of [job_finished], the preview and the layer
    insertions may do: jobs, queue and configuration stay, the log
    grows by events that are not queue calls. *)
Definition observer_step (m m' : Model) : Prop :=
  jobs m' = jobs m /\ objects m' = objects m /\ config m' = config m /\
  exists evs, log m' = log m ++ evs /\ Forall observer_event evs.

(** The seeds of the jobs that [_generate] adds to the queue. *)
Definition added_seeds (m m' : Model) : list Z :=
  (fun rj => seed (params rj.2)) <$>
    drop (length (entries (jobs m))) (queued_jobs m').

(** The i-th triangular number, i * (i + 1) / 2. *)
Definition triangle (i : Z) : Z := i * (i + 1) / 2.

(** What the slots of [job_finished], the preview and the layer
    insertions may do to a model, as conditions on a relation [R]
    between the model before and after: [R] is a preorder that
    tolerates a change of the live workspace, the animation workspace,
    the document, the files, the error field and the preview layer,
    and a new log entry that is not a queue call. *)
Class ObserverFrame (R : Model -> Model -> Prop) : Prop := {
  frame_refl : forall m, R m m;
  frame_trans : forall m1 m2 m3, R m1 m2 -> R m2 m3 -> R m1 m3;
  frame_log : forall m e, observer_event e -> R m (set_log (log m ++ [e]) m);
  frame_live : forall m v, R m (set_live v m);
  frame_animation : forall m v, R m (set_animation v m);
  frame_doc : forall m v, R m (set_doc v m);
  frame_files : forall m v, R m (set_files v m);
  frame_error : forall m v, R m (set_error v m);
  frame_layer : forall m v, R m (set_layer v m);
}.

(** Events the removal or the preview of a finished job may add. *)
Definition cleanup_event (e : Event) : Prop :=
  (forall r, e <> JobsCall (q_remove r)) /\
  (forall r, e <> JobsCall (q_notify_finished r)) /\
  (forall r imgs, e <> JobsCall (q_set_results r imgs)) /\
  (forall r j, e <> JobFinishedSignal r j).

(** None of the assertions on the way of a [finished] message fails:
    a control job has its control layer, an upscaling job has an
    image, a live workspace that records has its folder, and an
    animation batch has its folder. *)
Definition no_failed_assertion (job : Job) (message : ClientMessage) (m : Model) : Prop :=
  let delivered := match images message with
                   | [] => results job
                   | _ :: _ => images message
                   end in
  (kind job = control_layer -> control job <> None) /\
  (kind job = upscaling -> delivered <> []) /\
  (kind job = live_preview -> delivered <> [] -> is_recording (live m) = true ->
   is_Some (live_keyframes_folder (live m))) /\
  (kind job = animation_batch -> is_Some (anim_keyframes_folder (animation m))).

(** ** Sample data *)

(** pathlib's [with_suffix] on the text of a path, for the samples.
    The suffix of the last component starts at its last dot, unless
    that dot is its first or its last character; [stem_rev] reads the
    text backwards and gives what is before the suffix, if there is
    one. *)
Definition is_char (text : string) (c : Ascii.ascii) : bool :=
  match text with
  | String c' EmptyString => Ascii.eqb c c'
  | _ => false
  end.

Fixpoint stem_rev (rev_chars : list Ascii.ascii) (at_end : bool)
  : option (list Ascii.ascii) :=
  match rev_chars with
  | [] => None
  | c :: rest =>
      if is_char "/" c then None
      else if is_char "." c then
        match rest with
        | [] => None
        | d :: _ => if at_end || is_char "/" d then None else Some rest
        end
      else stem_rev rest false
  end.

Definition with_suffix (file suffix : string) : Path :=
  match stem_rev (rev (list_ascii_of_string file)) true with
  | Some stem => string_of_list_ascii (rev stem) +:+ suffix
  | None => file +:+ suffix
  end.

Definition config0 : Config :=
  mkConfig (mkSettings 5 5 7 1 true) "a cat" false
    (fun n => Some ("job-" +:+ str_of_Z (Z.of_nat n)))
    with_suffix.

Definition canvas : Bounds := mkBounds 0 0 512 512.

Definition document0 : Document :=
  mkDocument (mkExtent 512 512) "/tmp/cat.kra" true 0
    (mkLayer 0 canvas) [mkLayer 0 canvas] 1.

Definition live0 : LiveWorkspace := mkLive false false false None None None 0 0 [].

Definition model0 : Model :=
  mkModel config0 document0 0 None 0%float "" (mkQueue [] None 0) ∅ live0
    (mkAnimation None ∅ 0) [] [].

Definition input0 (seed : Z) : WorkflowInput :=
  mkInput (Some (mkText "a cat" "")) (Some (mkSampling 1%float seed)) None.

(** The same with a batch size of zero. *)
Definition model_batch_zero : Model :=
  mkModel (mkConfig (mkSettings 5 5 7 0 true) "a cat" false
             (enqueue_reply config0) (frames_folder config0))
    document0 0 None 0%float "" (mkQueue [] None 0) ∅ live0
    (mkAnimation None ∅ 0) [] [].

(** No job in the queue, and the progress value left at 1 by the job
    that finished last. *)
Definition idle_model : Model := set_progress 1%float model0.

(** A model with one job in the queue. *)
Definition with_job (j : Job) (m : Model) : Model :=
  set_jobs (mkQueue [0%nat] None 1) (set_objects {[ 0%nat := j ]} m).

Definition job0 (k : JobKind) (rs : list Image) : Job :=
  mkJob (Some "job-0") k running (mkParams "a cat" "" canvas 1%float 7 (0, 0, 0) "") rs None.

Definition finished_message (imgs : list Image) : ClientMessage :=
  mkMessage ev_finished "job-0" 1%float imgs None "".

(** Frame [i] of an animation over the frames 0..[last]. *)
Definition frame_job (i last : Z) (rs : list Image) : Job :=
  mkJob (Some "f") animation_batch finished
    (mkParams "a cat" "" canvas 1%float 7 (i, 0, last) "anim") rs None.

Definition animation_model : Model :=
  set_animation (mkAnimation (Some "/tmp/cat.animation") ∅ 0) model0.

(** The animation workspace handling, one after the other, the finish
    of the given frame jobs. *)
Fixpoint finish_frames (fuel : nat) (js : list Job) (m : Model) : Model :=
  match js with
  | [] => m
  | j :: js =>
      finish_frames fuel js
        (animation_handle_job_finished fuel 0 (set_objects {[ 0%nat := j ]} m)).2
  end.

(** The model when frame 2 of the frames 0..3 finishes without an
    image, frames 0 and 1 having produced one each. *)
Definition animation_model_at_frame_2 : Model :=
  set_objects {[ 0%nat := frame_job 2 3 [] ]}
    (finish_frames 4 [frame_job 0 3 [Img 0]; frame_job 1 3 [Img 1]] animation_model).

(** A live workspace that is active, with one live job in flight. *)
Definition live_model (rs : list Image) : Model :=
  with_job (job0 live_preview rs)
    (set_live (mkLive true false false None None None 0 0 []) model0).

(** Sample runs of the [finished] handler. *)
Definition upscale_model : Model := with_job (job0 upscaling []) model0.
Definition upscale_done : Outcome unit * Model :=
  handle_message 4 (finished_message [Img 1]) upscale_model.
Definition diffusion_model : Model := with_job (job0 diffusion []) model0.
Definition diffusion_done : Outcome unit * Model :=
  handle_message 4 (finished_message [Img 1]) diffusion_model.

Definition imported (m : Model) : list (list Path * Z) :=
  omap (fun e => match e with
                 | DocumentCall (import_animation fs start) => Some (fs, start)
                 | _ => None
                 end) (log m).

(** ** Recording in the live workspace

    What the live workspace keeps true between calls: it records only
    while it is active, and then it has a folder to record into. *)
Definition live_wf (l : LiveWorkspace) : Prop :=
  is_recording l = true ->
  is_active l = true /\ is_Some (live_keyframes_folder l).

(** The folder [_start_recording] records into. *)
Definition recording_folder (m : Model) : Path :=
  frames_folder (config m) (filename (doc m)) ".live-frames".

(** A live workspace with both flags off. *)
Definition stopped (l : LiveWorkspace) : LiveWorkspace :=
  set_is_recording false (set_is_active false l).

(** The model after [toggle_record(True)] on a saved document, when
    the recording starts [k] frames after the current index. *)
Definition recording_started (k : nat) (m : Model) : Model :=
  let folder := recording_folder m in
  let i := keyframe_index (live m) + Z.of_nat k in
  let l := set_is_active true (set_is_recording true
             (set_keyframe_start i (set_keyframe_index i
                (set_live_keyframes_folder (Some folder) (live m))))) in
  let m1 := set_live l (set_log (log m ++ [Mkdir folder]) m) in
  if is_active (live m) then m1
  else set_log (log m1 ++ [EventloopRun co_generate_live]) (set_error "" m1).

(** What [_save_frame] writes for a result: the image, cropped to the
    bounds when these are not the whole canvas. *)
Definition recorded_image (m : Model) (image : Image) (b : Bounds) : Image :=
  if bool_decide (bounds_extent b ≠ extent (doc m))
  then Crop image (bx b) (by_ b) (bw b) (bh b) else image.

(** The live workspace receiving results one after the other
    ([set_result] for each). *)
Fixpoint set_result_each (rs : list (Image * Bounds)) : M unit :=
  match rs with
  | [] => mret tt
  | (image, b) :: rs => live_set_result image b;; set_result_each rs
  end.

(** The files of [n] frames recorded from index [i] on. *)
Definition recorded_files (folder : Path) (i : Z) (n : nat) : list Path :=
  (fun j : nat => live_frame_file folder (i + Z.of_nat j)) <$> seq 0 n.

(** The sample model with a document that was never saved. *)
Definition unsaved_model : Model :=
  set_doc (mkDocument (mkExtent 512 512) "" true 0 (mkLayer 0 canvas) [mkLayer 0 canvas] 1)
    model0.

(** ** Reading the log, continued *)

(** Events that [report_error] may add: the import of a recording that
    it stops. *)
Definition stop_event (e : Event) : Prop :=
  match e with
  | DocumentCall (import_animation _ _) | DocumentCall (setName _ _) => True
  | _ => False
  end.

(** Events that do not add a layer to the document. *)
Definition no_insertion (e : Event) : Prop :=
  match e with
  | DocumentCall (insert_layer _ _ _ _) | DocumentCall (insert_vector_layer _ _)
  | DocumentCall (import_animation _ _) => False
  | _ => True
  end.

(** [outer] covers the rectangle [inner]. *)
Definition covers (outer inner : Bounds) : Prop :=
  bx outer <= bx inner /\ by_ outer <= by_ inner /\
  bx inner + bw inner <= bx outer + bw outer /\
  by_ inner + bh inner <= by_ outer + bh outer.

(** A frame generated for time 3 that arrives when the document shows
    time 0. *)
Definition stale_frame_model : Model :=
  with_job (mkJob (Some "job-0") animation_frame finished
              (mkParams "a cat" "" canvas 1%float 7 (3, 0, 0) "") [Img 1] None)
    model0.

(** ** Cancelling (model.py, 261-269) *)

(** The calls [cancel] makes on the connection. *)
Inductive ConnectionCall : Type := clear_queue | interrupt.

#[global] Instance ConnectionCall_eq_dec : EqDecision ConnectionCall.
Proof. solve_decision. Defined.

(** [for job in to_remove: self.jobs.remove(job)] *)
Fixpoint remove_each (rs : list nat) : M unit :=
  match rs with
  | [] => mret tt
  | r :: rs => jobs_remove r;; remove_each rs
  end.

(** [Model.cancel(active, queued)]; the second argument is written
    [queued_jobs_too] here, [queued] being the job state.  The calls
    on the connection are the value of the method, in the order they
    are made; the calls on the job queue are in the log. *)
Definition cancel (active queued_jobs_too : bool) : M (list ConnectionCall) :=
  cleared ← (if queued_jobs_too then
               m ← get;
               let to_remove :=
                 (filter (fun rj => state rj.2 = queued) (queued_jobs m)).*1 in
               if bool_decide (0 < length to_remove)%nat
               then remove_each to_remove;; mret [clear_queue]
               else mret []
             else mret []);
  m ← get;
  if active && any_executing m then mret (cleared ++ [interrupt]) else mret cleared.

(** A running job followed by two queued ones. *)
Definition busy_model : Model :=
  set_jobs (mkQueue [0; 1; 2]%nat None 3)
    (set_objects
       (<[0%nat := job0 diffusion []]>
          (<[1%nat := with_state queued (with_job_id (Some "job-1") (job0 diffusion []))]>
             {[ 2%nat := with_state queued (with_job_id (Some "job-2") (job0 diffusion [])) ]}))
       model0).

(** ** Errors of coroutines (model.py, 786-792) *)

(** [_report_errors(parent, coro)]: the coroutine is awaited, and an
    exception it raises is reported through [report_error].
    [util.log_error] and the [url] and [code] of a NetworkError are
    outside the file: [describe e] is the message reported for [e].
    The wrapper returns the value of the coroutine, or [None] after an
    exception. *)
Definition _report_errors {A} (fuel : nat) (describe : Exn -> string) (coro : M A)
  : M (option A) := fun m =>
  match coro m with
  | (Returned a, m') => (Returned (Some a), m')
  | (Raised e, m') => (report_error fuel (describe e);; mret None) m'
  | (Stuck, m') => (Stuck, m')
  end.

(** A backend that accepts one call and refuses the next ones. *)
Definition flaky_model : Model :=
  mkModel (mkConfig (settings config0) "a cat" false
             (fun n => if bool_decide (n < 1)%nat then Some "job-0" else None)
             (frames_folder config0))
    document0 0 None 0%float "" (mkQueue [] None 0) ∅ live0
    (mkAnimation None ∅ 0) [] [].

(** ** The plugin updater of ai_diffusion/updates.py

    [AutoUpdate] asks a server for the latest version of the plugin,
    downloads the package and installs it.  The server, the file
    system and [hashlib] are collaborators: their answers are given by
    an environment, and every call made to them is recorded.  An
    exception is its message, [str(e)].  An [await] is taken to be
    answered at once. *)
Module Updates.

Inductive UpdateState : Type :=
| disabled | unknown | checking | available | latest
| downloading | installing | failed | restart_required.

#[export] Instance UpdateState_eq_dec : EqDecision UpdateState.
Proof. solve_decision. Defined.

Record UpdatePackage : Type := mkPackage {
  version : string;
  url : string;
  sha256 : string;
}.

(** The attributes of an [AutoUpdate] object.  [latest_version] is
    [None] when the attribute is Python's [None]. *)
Record AutoUpdate : Type := mkAutoUpdate {
  state : UpdateState;
  latest_version : option string;
  error : string;
  _is_enabled : bool;
  plugin_dir : Path;
  current_version : string;
  api_url : string;
  _package : option UpdatePackage;
  _temp_dir : option Path;
}.

(** The calls made to the outside, in order. *)
Inductive Effect : Type :=
| NetGet (request : string)
| NetDownload (from : string)
| MakeTempDir (dir : Path)
| WriteBytes (file : Path) (data : string)
| ExtractAll (archive : Path) (target : Path)
| CopyTree (source : Path) (target : Path).

(** The answers of the outside: the JSON object the server sends or
    the exception of the request, the data of a download or its
    exception, the digest of [hashlib.sha256], the name of the
    temporary directory, and the exceptions, if any, of unpacking and
    of copying. *)
Record Env : Type := mkEnv {
  get_reply : string -> string + gmap string string;
  download_reply : string -> string + string;
  sha256_hexdigest : string -> string;
  temp_name : Path;
  extract_error : option string;
  copytree_error : option string;
}.

Record World : Type := mkWorld {
  self : AutoUpdate;
  effects : list Effect;
}.

Inductive Result (A : Type) : Type :=
| Ok (a : A)
| Exception (message : string).
Arguments Ok {A} a.
Arguments Exception {A} message.

(** A method of the updater: it returns or raises, and leaves a
    world behind. *)
Definition U (A : Type) : Type := World -> Result A * World.

#[export] Instance U_ret : MRet U := fun A a w => (Ok a, w).

#[export] Instance U_bind : MBind U := fun A B k c w =>
  match c w with
  | (Ok a, w') => k a w'
  | (Exception e, w') => (Exception e, w')
  end.

Definition raise {A} (message : string) : U A := fun w => (Exception message, w).
Definition this : U AutoUpdate := fun w => (Ok (self w), w).
Definition update (f : AutoUpdate -> AutoUpdate) : U unit :=
  fun w => (Ok tt, mkWorld (f (self w)) (effects w)).
Definition perform (e : Effect) : U unit :=
  fun w => (Ok tt, mkWorld (self w) (effects w ++ [e])).

(** A call that raises when the outside says so. *)
Definition answer {A} (reply : string + A) : U A :=
  match reply with
  | inl message => raise message
  | inr a => mret a
  end.

Definition failing (err : option string) : U unit :=
  match err with
  | Some message => raise message
  | None => mret tt
  end.

Definition set_state (v : UpdateState) (a : AutoUpdate) : AutoUpdate :=
  mkAutoUpdate v (latest_version a) (error a) (_is_enabled a) (plugin_dir a)
    (current_version a) (api_url a) (_package a) (_temp_dir a).
Definition set_latest_version (v : option string) (a : AutoUpdate) : AutoUpdate :=
  mkAutoUpdate (state a) v (error a) (_is_enabled a) (plugin_dir a)
    (current_version a) (api_url a) (_package a) (_temp_dir a).
Definition set_error (v : string) (a : AutoUpdate) : AutoUpdate :=
  mkAutoUpdate (state a) (latest_version a) v (_is_enabled a) (plugin_dir a)
    (current_version a) (api_url a) (_package a) (_temp_dir a).
Definition set__is_enabled (v : bool) (a : AutoUpdate) : AutoUpdate :=
  mkAutoUpdate (state a) (latest_version a) (error a) v (plugin_dir a)
    (current_version a) (api_url a) (_package a) (_temp_dir a).
Definition set_current_version (v : string) (a : AutoUpdate) : AutoUpdate :=
  mkAutoUpdate (state a) (latest_version a) (error a) (_is_enabled a) (plugin_dir a)
    v (api_url a) (_package a) (_temp_dir a).
Definition set__package (v : option UpdatePackage) (a : AutoUpdate) : AutoUpdate :=
  mkAutoUpdate (state a) (latest_version a) (error a) (_is_enabled a) (plugin_dir a)
    (current_version a) (api_url a) v (_temp_dir a).
Definition set__temp_dir (v : option Path) (a : AutoUpdate) : AutoUpdate :=
  mkAutoUpdate (state a) (latest_version a) (error a) (_is_enabled a) (plugin_dir a)
    (current_version a) (api_url a) (_package a) v.

(** Truth value of a string or [None]. *)
Definition truthy (s : option string) : bool :=
  match s with
  | Some s => bool_decide (s ≠ "")
  | None => false
  end.

(** The request of [_check]:
    [f"{self.api_url}/plugin/latest?version={self.current_version}"]. *)
Definition check_request (a : AutoUpdate) : string :=
  api_url a +:+ "/plugin/latest?version=" +:+ current_version a.

Definition _check (env : Env) : U unit :=
  a ← this;
  if bool_decide (state a ∈ [disabled; restart_required]) then mret tt
  else
    update (set_state checking);;
    let request := check_request a in
    perform (NetGet request);;
    result ← answer (get_reply env request);
    update (set_latest_version (result !! "version"));;
    a ← this;
    if negb (truthy (latest_version a)) then
      update (set_state failed);;
      update (set_error "Failed to retrieve plugin update information")
    else if bool_decide (latest_version a = Some (current_version a)) then
      update (set_state latest)
    else
      match result !! "url", result !! "sha256" with
      | Some u, Some h =>
          update (set__package
                    (Some (mkPackage (default "" (latest_version a)) u h)));;
          update (set_state available)
      | _, _ =>
          update (set_state failed);;
          update (set_error "Plugin update package is incomplete")
      end.

Definition _run (env : Env) : U unit :=
  a ← this;
  match (if truthy (latest_version a) then _package a else None) with
  | None => raise ""     (* assert self.latest_version and self._package *)
  | Some package =>
      let latest := default "" (latest_version a) in
      perform (MakeTempDir (temp_name env));;
      update (set__temp_dir (Some (temp_name env)));;
      let archive_path :=
        path_join (temp_name env) ("krita_ai_diffusion-" +:+ latest +:+ ".zip") in
      update (set_state downloading);;
      perform (NetDownload (url package));;
      archive_data ← answer (download_reply env (url package));
      if bool_decide (sha256_hexdigest env archive_data ≠ sha256 package) then
        raise "Downloaded plugin package is corrupted or incomplete"
      else
        perform (WriteBytes archive_path archive_data);;
        let source_dir :=
          path_join (temp_name env) ("krita_ai_diffusion-" +:+ latest) in
        update (set_state installing);;
        perform (ExtractAll archive_path source_dir);;
        failing (extract_error env);;
        a ← this;
        perform (CopyTree source_dir (plugin_dir a));;
        failing (copytree_error env);;
        a ← this;
        update (set_current_version (default "" (latest_version a)));;
        update (set_state restart_required)
  end.

(** [_handle_errors(func, message)] *)
Definition _handle_errors (func : U unit) (message : string) : U unit := fun w =>
  match func w with
  | (Ok tt, w') => (Ok tt, w')
  | (Exception e, w') =>
      (update (set_error (message +:+ ": " +:+ e));;
       update (set_state failed)) w'
  end.

Definition check (env : Env) : U unit :=
  _handle_errors (_check env) "Failed to check for new plugin version".

Definition run (env : Env) : U unit :=
  _handle_errors (_run env) "Failed to update plugin".

(** The setter of [is_enabled]. *)
Definition set_is_enabled (value : bool) : U unit :=
  update (set__is_enabled value);;
  if value then update (set_state unknown) else update (set_state disabled).

Definition is_available (a : AutoUpdate) : bool :=
  match latest_version a with
  | Some v => bool_decide (v ≠ current_version a)
  | None => false
  end.

(** Python's [value or other] on an optional string: [None] and the
    empty string are falsy. *)
Definition or_else (value : option string) (other : string) : string :=
  if truthy value then default other value else other.

(** What the constructor takes from outside the class for a missing
    argument: the folder [Path(__file__).parent.parent], [__version__]
    of the package, and the class attribute [default_api_url], which
    is read from the environment when the class is defined. *)
Record Defaults : Type := mkDefaults {
  package_dir : Path;
  __version__ : string;
  default_api_url : string;
}.

(** [AutoUpdate.__init__].  A [Path] is truthy whatever it holds, so
    [plugin_dir or ...] takes the default for [None] only.  [state],
    [latest_version] and [error] are properties that read as their
    default until they are assigned; [_is_enabled] is assigned
    directly, not through the setter of [is_enabled]. *)
Definition __init__ (env : Env) (defaults : Defaults) (enabled : bool)
  (plugin_dir : option Path) (current_version api_url : option string)
  : Result unit * World :=
  let a := mkAutoUpdate disabled (Some "") "" enabled
             (default (package_dir defaults) plugin_dir)
             (or_else current_version (__version__ defaults))
             (or_else api_url (default_api_url defaults))
             None None in
  (if _is_enabled a then check env else mret tt) (mkWorld a []).

(** The calls of a [_run] that goes through. *)
Definition install_effects (env : Env) (a : AutoUpdate) (p : UpdatePackage)
  (data : string) : list Effect :=
  let latest := default "" (latest_version a) in
  let archive_path :=
    path_join (temp_name env) ("krita_ai_diffusion-" +:+ latest +:+ ".zip") in
  let source_dir := path_join (temp_name env) ("krita_ai_diffusion-" +:+ latest) in
  [MakeTempDir (temp_name env); NetDownload (url p); WriteBytes archive_path data;
   ExtractAll archive_path source_dir; CopyTree source_dir (plugin_dir a)].

(** Sample data: a server that offers version 1.16.0 to a plugin of
    version 1.15.0. *)
Definition offer : gmap string string :=
  {[ "version" := "1.16.0"; "url" := "https://dl/1.16.0.zip"; "sha256" := "abc" ]}.

Definition env0 : Env :=
  mkEnv (fun _ => inr offer) (fun _ => inr "zip-data") (fun _ => "abc") "/tmp/u"
    None None.

Definition updater0 : World :=
  mkWorld (mkAutoUpdate unknown (Some "") "" true "/plugin" "1.15.0" "https://api"
             None None) [].

End Updates.

(** * Properties *)

(** Running a method on a model whose shape is known. *)
Ltac decide_bools :=
  repeat match goal with
    | |- context [bool_decide ?P] =>
        first [ rewrite (bool_decide_eq_true_2 P) by congruence
              | rewrite (bool_decide_eq_false_2 P) by congruence ]
    end.

Ltac mrun :=
  repeat (progress (unfold mbind, M_bind, mret, M_ret, get, modify, modify_live,
                      modify_animation, modify_jobs, emit, deref, assign, raise,
                      stuck, doc_call, queue_call;
                    cbn; decide_bools)).

Ltac split_decide P :=
  let H := fresh "Hdec" in
  destruct (decide P) as [H|H];
  [ rewrite (bool_decide_eq_true_2 P H) | rewrite (bool_decide_eq_false_2 P H) ].

(** ** Selection modifiers *)

Example int_truediv_samples :
  int_truediv 5 100 = Some 0.05%float /\
  int_truediv 0 100 = Some 0%float /\
  int_truediv (-5) 100 = Some (-0.05)%float /\
  int_truediv (2 ^ 63) 100 = Some 92233720368547760%float /\
  int_truediv 9007199254740993 100 = Some 90071992547409.94%float /\
  int_truediv (10 ^ 310) 100 = Some 1e308%float /\
  int_truediv (10 ^ 311) 100 = None.
Proof. repeat split; vm_compute; reflexivity. Qed.

Example modifiers_default :
  get_selection_modifiers (mkSettings 5 5 7 1 true) fill
  = Some (mkModifiers 0.05%float 0.05%float 0.07%float false).
Proof. vm_compute. reflexivity. Qed.

Example modifiers_remove :
  get_selection_modifiers (mkSettings 5 5 7 1 true) remove_object
  = Some (mkModifiers 0.05%float 0.025%float 0.07%float false).
Proof. vm_compute. reflexivity. Qed.

Example modifiers_background :
  get_selection_modifiers (mkSettings 5 5 7 1 true) replace_background
  = Some (mkModifiers 0.01%float 0.01%float 0.07%float true).
Proof. vm_compute. reflexivity. Qed.

Example modifiers_overflow :
  get_selection_modifiers (mkSettings (10 ^ 311) 5 7 1 true) fill = None.
Proof. vm_compute. reflexivity. Qed.


(** *** The quotient of an int that a float holds exactly

    For [0 <= z < 2^53] the float of [z] is [z] itself, and [z / 100]
    is the IEEE quotient of the floats of [z] and of 100. *)





















(** ** Custom inpaint context *)

(** C7.  With mode [custom] and context [layer_bounds], when no layer
    of the document has the referenced id, [get_context] returns
    [None]: it raises nothing and leaves the model, hence its error
    field, as it was. *)
Theorem get_context_missing_layer (self : CustomInpaint) (mask : option Mask) (m : Model) :
  ci_mode self = custom ->
  ci_context self = ctx_layer_bounds ->
  layers_find m (context_layer_id self) = None ->
  get_context self mask m = (Returned None, m).
Proof.
  intros Hm Hc Hl. unfold get_context, mbind, M_bind, get.
  destruct mask as [mask|]; [|reflexivity].
  rewrite Hm, Hc, Hl. reflexivity.
Qed.

Lemma get_context_missing_layer_witness :
  get_context (mkCustomInpaint custom ctx_layer_bounds 42) (Some (mkMask canvas)) model0
  = (Returned None, model0).
Proof.
  apply (get_context_missing_layer (mkCustomInpaint custom ctx_layer_bounds 42)
           (Some (mkMask canvas)) model0); reflexivity.
Defined.

(** With a layer of that id the context is the layer's bounds grown to
    cover the mask. *)
Example get_context_with_layer :
  get_context (mkCustomInpaint custom ctx_layer_bounds 0)
    (Some (mkMask (mkBounds 500 500 100 100))) model0
  = (Returned (Some (mkBounds 0 0 600 600)), model0).
Proof. reflexivity. Qed.

(** ** Messages for unknown jobs *)

(** C3.  A message whose job id is not in the queue is logged and
    dropped: the handler returns, and the queue, the job objects, the
    progress value, the error field and the workspaces are what they
    were. *)
Theorem handle_message_unknown_job (fuel : nat) (message : ClientMessage) (m : Model) :
  jobs_find m (msg_job_id message) = None ->
  exists m',
    handle_message fuel message m = (Returned tt, m') /\
    log m' = log m ++ [LogError "Received message for unknown job."] /\
    jobs m' = jobs m /\ objects m' = objects m /\
    progress m' = progress m /\ error m' = error m /\
    live m' = live m /\ animation m' = animation m /\
    doc m' = doc m /\ layer m' = layer m.
Proof.
  intros H. eexists. unfold handle_message, mbind, M_bind, get. rewrite H.
  split; [reflexivity|]. cbn. repeat split; reflexivity.
Qed.

Lemma handle_message_unknown_job_witness :
  exists m',
    handle_message 0 (finished_message [Img 1]) model0 = (Returned tt, m') /\
    log m' = log model0 ++ [LogError "Received message for unknown job."] /\
    jobs m' = jobs model0 /\ objects m' = objects model0 /\
    progress m' = progress model0 /\ error m' = error model0 /\
    live m' = live model0 /\ animation m' = animation model0 /\
    doc m' = doc model0 /\ layer m' = layer model0.
Proof.
  apply (handle_message_unknown_job 0 (finished_message [Img 1]) model0).
  reflexivity.
Defined.

(** ** Errors stop the live loop *)

(** C9.  In a model whose live workspace records only while active,
    [report_error] returns with the error field set to the message
    and with both [is_active] and [is_recording] off; a job that
    finishes afterwards makes the live workspace submit nothing. *)
Theorem report_error_stops_live (fuel : nat) (message : string) (m : Model) :
  (4 <= fuel)%nat ->
  (is_recording (live m) = true -> is_active (live m) = true) ->
  exists m',
    report_error fuel message m = (Returned tt, m') /\
    error m' = message /\
    is_active (live m') = false /\
    is_recording (live m') = false /\
    forall fuel' r, log (live_handle_job_finished fuel' r m').2 = log m'.
Proof.
  intros Hf Hinv.
  do 4 (destruct fuel as [|fuel]; [lia|]).
  destruct m as [c d s l p e j o [a rec hr lr lrb kf ks ki kfs] an fs lg].
  simpl in Hinv.
  assert (Hlater : forall m' : Model,
    is_active (live m') = false -> is_recording (live m') = false ->
    forall fuel' r, log (live_handle_job_finished fuel' r m').2 = log m').
  { intros [c' d' s' l' p' e' j' o' [a' rec' hr' lr' lrb' kf' ks' ki' kfs'] an' fs' lg'].
    simpl. intros -> -> fuel' r.
    unfold live_handle_job_finished, mbind, M_bind, deref. simpl.
    destruct (o' !! r) as [job|]; [|reflexivity].
    destruct (bool_decide (kind job = live_preview)); [|reflexivity].
    destruct (results job) as [|img rs]; destruct fuel'; reflexivity. }
  destruct a, rec; try (discriminate Hinv; reflexivity);
    eexists; (split; [vm_compute; reflexivity|]); cbn;
    (repeat split; apply Hlater; reflexivity).
Qed.

Lemma report_error_stops_live_witness :
  exists m',
    report_error 4 "Server execution error: out of memory"
      (set_live (mkLive true true false None None (Some "/tmp/frames") 0 0 []) model0)
    = (Returned tt, m') /\
    error m' = "Server execution error: out of memory" /\
    is_active (live m') = false /\
    is_recording (live m') = false /\
    forall fuel' r, log (live_handle_job_finished fuel' r m').2 = log m'.
Proof.
  apply (report_error_stops_live 4 "Server execution error: out of memory"
           (set_live (mkLive true true false None None (Some "/tmp/frames") 0 0 []) model0)).
  - lia.
  - reflexivity.
Defined.

(** ** The live loop *)

(** C10.  When the slot of the live workspace runs for a
    [live_preview] job while the workspace is active and the document
    is the active one, it hands one more live generation to the event
    loop, whether or not the job has results; with no result the
    stored result and the recorded frames stay as they are.  (A
    workspace that records has a folder to record into.) *)
Theorem live_loop_resubmits (fuel r : nat) (job : Job) (m : Model) :
  (1 <= fuel)%nat ->
  objects m !! r = Some job ->
  kind job = live_preview ->
  is_active (live m) = true ->
  doc_is_active (doc m) = true ->
  (results job <> [] -> is_recording (live m) = true ->
   is_Some (live_keyframes_folder (live m))) ->
  exists m' saved,
    live_handle_job_finished fuel r m = (Returned tt, m') /\
    log m' = log m ++ saved ++ [EventloopRun co_generate_live] /\
    (forall e, e ∈ saved -> exists i f, e = ImageSave i f) /\
    is_active (live m') = true /\
    (results job = [] -> saved = [] /\ live m' = live m /\ files m' = files m).
Proof.
  intros Hf Hobj Hk Ha Hd Hrec.
  destruct fuel as [|fuel]; [lia|].
  destruct m as [c d s l p e j o [a rec hr lr lrb kf ks ki kfs] an fs lg].
  destruct job as [jid k st pa rs ctl].
  destruct d as [ex fn da ct al ls nu].
  simpl in *. subst.
  assert (Hnil : forall e0 : Event, e0 ∈ @nil Event -> exists i f, e0 = ImageSave i f).
  { intros e0 H. by apply elem_of_nil in H. }
  assert (Hone : forall i f (e0 : Event),
             e0 ∈ [ImageSave i f] -> exists i f, e0 = ImageSave i f).
  { intros i f e0 H. apply list_elem_of_singleton in H. eauto. }
  unfold live_handle_job_finished, live_set_result, _save_frame, image_save,
    generate_live, clear_error.
  mrun. rewrite Hobj. mrun.
  destruct rs as [|img rs]; [|destruct rec].
  - mrun. split_decide (e ≠ ""); mrun; eexists _, [];
      (split; [reflexivity|]); cbn; repeat split; try reflexivity; eauto.
  - destruct (Hrec ltac:(discriminate) eq_refl) as [folder ->]. mrun.
    split_decide (e ≠ ""); mrun; eexists _, [ImageSave _ _];
      (split; [reflexivity|]); cbn; rewrite <- ?app_assoc;
      repeat split; try reflexivity; try discriminate; eauto.
  - mrun. split_decide (e ≠ ""); mrun; eexists _, [];
      (split; [reflexivity|]); cbn;
      repeat split; try reflexivity; try discriminate; eauto.
Qed.

Lemma live_loop_resubmits_witness :
  exists m' saved,
    live_handle_job_finished 1 0 (live_model []) = (Returned tt, m') /\
    log m' = log (live_model []) ++ saved ++ [EventloopRun co_generate_live] /\
    (forall e, e ∈ saved -> exists i f, e = ImageSave i f) /\
    is_active (live m') = true /\
    (results (job0 live_preview []) = [] ->
     saved = [] /\ live m' = live (live_model []) /\ files m' = files (live_model [])).
Proof.
  apply (live_loop_resubmits 1 0 (job0 live_preview []) (live_model [])).
  - lia.
  - reflexivity.
  - reflexivity.
  - reflexivity.
  - reflexivity.
  - intros H. exfalso. apply H. reflexivity.
Defined.

(** With a result and a recording in progress the frame is saved
    first, then the loop goes on. *)
Example live_loop_records :
  log (live_handle_job_finished 1 0
         (set_live (mkLive true true false None None (Some "/tmp/cat.live-frames") 0 0 [])
            (live_model [Img 5]))).2
  = [ImageSave (Img 5) "/tmp/cat.live-frames/frame-0.webp";
     EventloopRun co_generate_live].
Proof. vm_compute. reflexivity. Qed.

(** ** Animation batches *)

Lemma imported_app (m m' : Model) (evs : list Event) :
  log m' = log m ++ evs ->
  imported m' =
  imported m ++
  omap (fun e => match e with
                 | DocumentCall (import_animation fs start) => Some (fs, start)
                 | _ => None
                 end) evs.
Proof. intros H. unfold imported. rewrite H. apply omap_app. Qed.

(** The scenario of the spec: over the frames 0..3 with frame 2 a
    cache hit, four files are imported and the entry of frame 2 is the
    file of frame 1. *)
Example animation_batch_scenario :
  imported (finish_frames 4
              [frame_job 0 3 [Img 0]; frame_job 1 3 [Img 1];
               frame_job 2 3 []; frame_job 3 3 [Img 3]] animation_model)
  = [(["/tmp/cat.animation/frame-0.png"; "/tmp/cat.animation/frame-1.png";
       "/tmp/cat.animation/frame-1.png"; "/tmp/cat.animation/frame-3.png"], 0)].
Proof. vm_compute. reflexivity. Qed.

(** C5, as stated, fails: when the first frame of a batch finishes
    without an image there is no previous file, nothing is collated
    for it, and the clip imported for the two frames 0..1 has one
    entry. *)
Lemma animation_first_frame_cached :
  anim_keyframes (animation (finish_frames 4 [frame_job 0 1 []] animation_model))
    !! "anim" = Some [] /\
  imported (finish_frames 4 [frame_job 0 1 []; frame_job 1 1 [Img 1]] animation_model)
  = [(["/tmp/cat.animation/frame-1.png"], 0)].
Proof. split; vm_compute; reflexivity. Qed.

(** The slot of the animation workspace returns for an
    [animation_batch] job once the folder of the frames is there. *)
Lemma animation_batch_returns (fuel r : nat) (job : Job) (m : Model) (folder : Path) :
  objects m !! r = Some job ->
  kind job = animation_batch ->
  anim_keyframes_folder (animation m) = Some folder ->
  exists m', animation_handle_job_finished fuel r m = (Returned tt, m').
Proof.
  intros Hobj Hk Hfolder.
  destruct m as [c d s l p e j o lv [af ak tl] fs lg].
  destruct job as [jid k stt [pr np bd sg sd [[fr st] en] aid] rs ctl].
  simpl in *. subst k af.
  unfold animation_handle_job_finished, keyframes_append, image_save,
    animation_import_animation, doc_import_animation, doc_new_layer,
    set_anim_keyframes.
  mrun. rewrite Hobj. mrun.
  destruct rs as [|img rs]; [destruct (last _) as [prev|]|]; mrun;
    split_decide (fr = en);
    mrun; rewrite ?lookup_alter_eq, ?lookup_insert_eq; mrun;
    eexists; reflexivity.
Qed.

(** C5, amended.  The slot of the animation workspace, for an
    [animation_batch] job, as a step on the record of paths kept for
    the animation ([before], empty when there is none): with a
    result, the file of the frame is collated; with no result and a
    record that is not empty, its last path is collated again; with
    no result and an empty record, nothing is collated.  So one run
    of the slot adds exactly one entry to the record unless the job
    has no result and the record is empty.  At the last frame of the
    range the record is imported and dropped, so a frame that
    finishes later starts from an empty record. *)
Theorem animation_batch_collates (fuel r : nat) (job : Job) (m : Model)
  (folder : Path) (fr st en : Z) :
  objects m !! r = Some job ->
  kind job = animation_batch ->
  anim_keyframes_folder (animation m) = Some folder ->
  frame (params job) = (fr, st, en) ->
  let id := animation_id (params job) in
  let before := default [] (anim_keyframes (animation m) !! id) in
  let after :=
    match results job with
    | _ :: _ => before ++ [anim_frame_file folder fr]
    | [] => match last before with
            | Some previous => before ++ [previous]
            | None => before
            end
    end in
  exists m',
    animation_handle_job_finished fuel r m = (Returned tt, m') /\
    (fr <> en ->
       anim_keyframes (animation m') !! id = Some after /\ imported m' = imported m) /\
    (fr = en ->
       anim_keyframes (animation m') !! id = None /\
       imported m' = imported m ++ [(after, st)]) /\
    (results job <> [] \/ before <> [] -> length after = S (length before)) /\
    (results job = [] -> before = [] -> after = []).
Proof.
  intros Hobj Hk Hfolder Hframe id before after.
  destruct m as [c d s l p e j o lv [af ak tl] fs lg].
  destruct job as [jid k stt [pr np bd sg sd fm aid] rs ctl].
  simpl in *. subst k fm af.
  assert (Hlen :
    (rs <> [] \/ before <> [] -> length after = S (length before)) /\
    (rs = [] -> before = [] -> after = [])).
  { subst after. split.
    - intros [H|H].
      + destruct rs; [done|]. rewrite length_app. simpl. lia.
      + destruct rs; [|rewrite length_app; simpl; lia].
        destruct (last before) eqn:E.
        * rewrite length_app. simpl. lia.
        * apply last_None in E. done.
    - intros -> ->. reflexivity. }
  unfold animation_handle_job_finished, keyframes_append, image_save,
    animation_import_animation, doc_import_animation, doc_new_layer,
    set_anim_keyframes.
  mrun. rewrite Hobj. mrun.
  fold id. fold before.
  destruct rs as [|img rs]; [destruct (last before) as [prev|] eqn:Elast|]; mrun;
    split_decide (fr = en);
    mrun; rewrite ?lookup_alter_eq, ?lookup_insert_eq; mrun;
    eexists; (split; [reflexivity|]).
  all: (split; [|split; [|exact Hlen]]); intros Hx; try congruence.
  all: subst after; cbn; rewrite ?Elast;
    rewrite ?lookup_delete_eq, ?lookup_alter_eq, ?lookup_insert_eq; cbn.
  all: unfold imported; cbn; rewrite ?omap_app; cbn;
    rewrite ?app_nil_r, <- ?app_assoc.
  all: split; reflexivity.
Qed.

Lemma animation_batch_collates_witness :
  exists m',
    animation_handle_job_finished 4 0 animation_model_at_frame_2 = (Returned tt, m') /\
    anim_keyframes (animation m') !! "anim"
    = Some ["/tmp/cat.animation/frame-0.png"; "/tmp/cat.animation/frame-1.png";
            "/tmp/cat.animation/frame-1.png"].
Proof.
  destruct (animation_batch_collates 4 0 (frame_job 2 3 []) animation_model_at_frame_2
              "/tmp/cat.animation" 2 0 3) as (m' & Hrun & Hmid & _);
    [vm_compute; reflexivity ..|].
  exists m'. split; [exact Hrun|].
  destruct Hmid as [Hkeys _]; [lia|]. exact Hkeys.
Defined.

(** ** Batches of jobs *)

Lemma triangle_succ (n : nat) :
  triangle (Z.of_nat (S n)) = triangle (Z.of_nat n) + Z.of_nat (S n).
Proof.
  unfold triangle.
  replace (Z.of_nat (S n) * (Z.of_nat (S n) + 1))
    with (Z.of_nat n * (Z.of_nat n + 1) + Z.of_nat (S n) * 2) by lia.
  rewrite Z.div_add by lia. reflexivity.
Qed.

Lemma triangle_lt (i j : nat) : (i < j)%nat -> triangle (Z.of_nat i) < triangle (Z.of_nat j).
Proof.
  induction 1.
  - rewrite triangle_succ. lia.
  - rewrite triangle_succ. lia.
Qed.

Lemma any_executing_after_add (m : Model) (r : nat) (j : Job) (q : JobQueue) :
  state j = queued ->
  any_executing (set_jobs (mkQueue (entries (jobs m) ++ [r]) (selection q) (next_ref q))
                   (set_objects (<[r := j]> (objects m)) m)) = true.
Proof.
  intros Hq. unfold any_executing, queued_jobs. cbn.
  rewrite omap_app. cbn. rewrite lookup_insert_eq. cbn.
  rewrite existsb_app. cbn. unfold is_executing. rewrite Hq. cbn.
  apply orb_true_r.
Qed.

(** One turn of the loop of [_generate]: a job is added and enqueued.
    The job just added is queued, so [any_executing] holds and the
    progress value is not reset. *)
Lemma generate_turn (k : JobKind) (pos neg : string) (b : Bounds)
  (input : WorkflowInput) (s : SamplingInput) (m : Model) :
  let r := next_ref (jobs m) in
  let job id := mkJob id k queued
                  (mkParams pos neg b (s_strength s) (s_seed s) (0, 0, 0) "") [] None in
  exists m1,
    (forall B (K : nat -> M B),
       (jobs_add k pos neg b (s_strength s) (s_seed s) ≫= fun job =>
          _enqueue_job job input ≫= fun _ => K job) m
       = match enqueue_reply (config m) (sent m) with
         | Some _ => K r m1
         | None => (Raised NetworkError, m1)
         end) /\
    config m1 = config m /\ progress m1 = progress m /\
    sent m1 = S (sent m) /\
    jobs m1 = mkQueue (entries (jobs m) ++ [r]) (selection (jobs m)) (S r) /\
    objects m1 = <[r := job (enqueue_reply (config m) (sent m))]> (objects m) /\
    log m1 = log m ++ [JobsCall (q_add r);
                       ClientEnqueue (s_seed <$> sampling input) (queue_front (config m))].
Proof.
  intros r job.
  destruct m as [c d sn l p e [en sel nr] o lv an fs lg].
  exists (mkModel c d (S sn) l p e (mkQueue (en ++ [nr]) sel (S nr))
            (<[nr := job (enqueue_reply c sn)]> o) lv an fs
            ((lg ++ [JobsCall (q_add nr)]) ++
             [ClientEnqueue (s_seed <$> sampling input) (queue_front c)])).
  split.
  - intros B K. unfold jobs_add, _enqueue_job. mrun.
    rewrite omap_app. cbn. rewrite lookup_insert_eq. cbn.
    rewrite existsb_app. cbn. rewrite orb_true_r. mrun.
    subst job. cbn.
    destruct (enqueue_reply c sn) as [id|]; mrun; rewrite ?alter_insert_eq; reflexivity.
  - cbn. repeat split; try reflexivity.
    rewrite <- app_assoc. reflexivity.
Qed.




(** The loop when the backend accepts every call: job n of the loop
    started at index i has the seed advanced by (i + 1) + ... + (i + n)
    batch sizes. *)
Lemma generate_loop_run (todo : nat) :
  forall (i : nat) k pos neg b input s result m,
    (forall n, (n < todo)%nat -> is_Some (enqueue_reply (config m) (sent m + n)%nat)) ->
    exists m',
      generate_loop todo (Z.of_nat i) k pos neg b input s result m
      = (Returned (result ++ seq (next_ref (jobs m)) todo), m') /\
      config m' = config m /\
      entries (jobs m') = entries (jobs m) ++ seq (next_ref (jobs m)) todo /\
      (forall r, (r < next_ref (jobs m))%nat -> objects m' !! r = objects m !! r) /\
      (forall n, (n < todo)%nat ->
         exists job,
           objects m' !! (next_ref (jobs m) + n)%nat = Some job /\
           seed (params job)
           = s_seed s + (Z.of_nat n * Z.of_nat i + triangle (Z.of_nat n))
                        * batch_size (settings (config m)) /\
           kind job = k /\ state job = queued /\
           job_id job = enqueue_reply (config m) (sent m + n)%nat).
Proof.
  induction todo as [|todo IH]; intros i k pos neg b input s result m Hrep.
  - exists m. cbn. rewrite app_nil_r. repeat split; try reflexivity; try (by rewrite app_nil_r).
    intros n Hn. lia.
  - cbn [generate_loop].
    destruct (generate_turn k pos neg b (mkInput (text input) (Some s) (inpaint input)) s m)
      as (m1 & Hrun & Hc & _ & Hs & Hj & Ho & _).
    rewrite Hrun.
    destruct (Hrep 0%nat ltac:(lia)) as [id Hid]. rewrite Nat.add_0_r in Hid. rewrite Hid.
    unfold mbind, M_bind, get.
    replace (Z.of_nat i + 1) with (Z.of_nat (S i)) by lia.
    destruct (IH (S i) k pos neg b input
                (mkSampling (s_strength s)
                   (s_seed s + Z.of_nat (S i) * batch_size (settings (config m1))))
                (result ++ [next_ref (jobs m)]) m1) as (m' & Hrun' & Hc' & He' & Hold' & Hnew').
    { intros n Hn. rewrite Hc, Hs. replace (S (sent m) + n)%nat with (sent m + S n)%nat by lia.
      apply Hrep. lia. }
    exists m'. rewrite Hrun'. rewrite Hj in *. cbn [next_ref entries] in *.
    split; [|split; [|split; [|split]]].
    + f_equal. rewrite <- app_assoc. reflexivity.
    + congruence.
    + rewrite He'. rewrite <- app_assoc. reflexivity.
    + intros r Hr. rewrite Hold' by lia. rewrite Ho. apply lookup_insert_ne. lia.
    + intros [|n] Hn.
      * rewrite Nat.add_0_r. rewrite Hold' by lia. rewrite Ho, lookup_insert_eq.
        eexists. split; [reflexivity|]. cbn. rewrite Hid.
        repeat split; try reflexivity.
        -- change (Z.of_nat 0) with 0. change (triangle 0) with 0. lia.
        -- rewrite Nat.add_0_r. congruence.
      * destruct (Hnew' n ltac:(lia)) as (job & Hl & Hseed & Hk & Hst & Hjid).
        exists job. replace (next_ref (jobs m) + S n)%nat with (S (next_ref (jobs m)) + n)%nat by lia.
        split; [exact Hl|]. split; [|split; [assumption|split; [assumption|]]].
        -- rewrite Hseed. cbn [s_seed]. rewrite Hc.
           rewrite triangle_succ, !Nat2Z.inj_succ. ring.
        -- rewrite Hjid, Hc, Hs. f_equal. lia.
Qed.

(** C1, amended.  With a text and a sampling input and a backend that
    accepts the calls, [_generate] adds [count] jobs to the queue; job
    i of them has seed S + (i * (i + 1) / 2) * B, where S is the seed
    of the input and B the batch size setting, and when B is not zero
    no two of them share a seed. *)
Theorem generate_batch_seeds (input : WorkflowInput) (b : Bounds) (count : Z)
  (is_live : bool) (m : Model) (t : TextInput) (s : SamplingInput) :
  text input = Some t ->
  sampling input = Some s ->
  (forall n, (n < Z.to_nat count)%nat ->
     is_Some (enqueue_reply (config m) (sent m + n)%nat)) ->
  let B := batch_size (settings (config m)) in
  exists refs m',
    _generate input b count is_live m = (Returned refs, m') /\
    length refs = Z.to_nat count /\
    entries (jobs m') = entries (jobs m) ++ refs /\
    (forall i : nat, (i < Z.to_nat count)%nat ->
       exists r job,
         refs !! i = Some r /\ objects m' !! r = Some job /\
         kind job = (if is_live then live_preview else diffusion) /\
         seed (params job) = s_seed s + triangle (Z.of_nat i) * B) /\
    (B <> 0 ->
     forall i j ri rj ji jj,
       refs !! i = Some ri -> refs !! j = Some rj ->
       objects m' !! ri = Some ji -> objects m' !! rj = Some jj ->
       i <> j -> seed (params ji) <> seed (params jj)).
Proof.
  intros Ht Hs Hrep B.
  unfold _generate.
  match goal with |- context [let '(_, _) := ?x in _] =>
    destruct x as [input' b'] eqn:Hprep end.
  assert (Ht' : text input' = Some t) by (destruct (inpaint input); simplify_eq/=; done).
  assert (Hs' : sampling input' = Some s) by (destruct (inpaint input); simplify_eq/=; done).
  unfold mbind, M_bind, ensure. rewrite Ht'. cbn. rewrite Hs'. cbn.
  destruct (generate_loop_run (Z.to_nat count) 0
              (if is_live then live_preview else diffusion)
              (positive t) (negative t) b' input' s [] m Hrep)
    as (m' & Hrun & Hc & He & Hold & Hnew).
  change (Z.of_nat 0) with 0 in Hrun. rewrite Hrun. cbn [app].
  exists (seq (next_ref (jobs m)) (Z.to_nat count)), m'.
  assert (Hjob : forall i : nat, (i < Z.to_nat count)%nat ->
    exists r job,
      seq (next_ref (jobs m)) (Z.to_nat count) !! i = Some r /\
      r = (next_ref (jobs m) + i)%nat /\
      objects m' !! r = Some job /\
      kind job = (if is_live then live_preview else diffusion) /\
      seed (params job) = s_seed s + triangle (Z.of_nat i) * B).
  { intros i Hi. destruct (Hnew i Hi) as (job & Hl & Hseed & Hk & _).
    exists (next_ref (jobs m) + i)%nat, job.
    split; [apply lookup_seq; split; [reflexivity|exact Hi]|].
    repeat split; try assumption. rewrite Hseed. subst B. lia. }
  split; [reflexivity|]. split; [apply length_seq|]. split; [exact He|]. split.
  - intros i Hi. destruct (Hjob i Hi) as (r & job & H1 & _ & H2 & H3 & H4). eauto 10.
  - intros HB i j ri rj ji jj Hi Hj Hoi Hoj Hne.
    apply lookup_seq in Hi as [-> Hi]. apply lookup_seq in Hj as [-> Hj].
    destruct (Hjob i Hi) as (r1 & job1 & _ & -> & H2 & _ & H4).
    destruct (Hjob j Hj) as (r2 & job2 & _ & -> & H2' & _ & H4').
    simplify_eq. rewrite H4, H4'.
    assert (triangle (Z.of_nat i) <> triangle (Z.of_nat j)).
    { destruct (Nat.lt_total i j) as [H|[H|H]]; [|done|];
        apply triangle_lt in H; lia. }
    nia.
Qed.

Lemma generate_batch_seeds_witness :
  exists refs m',
    _generate (input0 10) canvas 3 false model0 = (Returned refs, m') /\
    length refs = 3%nat.
Proof.
  destruct (generate_batch_seeds (input0 10) canvas 3 false model0
              (mkText "a cat" "") (mkSampling 1%float 10) eq_refl eq_refl)
    as (refs & m' & Hrun & Hlen & _).
  - intros n _. eexists. reflexivity.
  - exists refs, m'. split; [exact Hrun | exact Hlen].
Defined.

(** C1, as stated, fails: with S = 10 and B = 1 the third job of a
    batch has seed 13, not S + 2 * B = 12; and with B = 0 all jobs of
    the batch have the seed S. *)
Lemma batch_seeds_not_linear :
  added_seeds model0 (_generate (input0 10) canvas 3 false model0).2 = [10; 11; 13] /\
  10 + 2 * batch_size (settings (config model0)) <> 13 /\
  added_seeds model_batch_zero
    (_generate (input0 10) canvas 3 false model_batch_zero).2 = [10; 10; 10].
Proof. repeat split; vm_compute; congruence. Qed.


(** ** The finished branch of handle_message *)

Section Frames.
Context (R : Model -> Model -> Prop) `{!ObserverFrame R}.

Lemma preserves_ret {A} (a : A) : preserves R (mret a).
Proof. intros m. apply frame_refl. Qed.

Lemma preserves_raise {A} e : preserves R (@raise A e).
Proof. intros m. apply frame_refl. Qed.

Lemma preserves_stuck {A} : preserves R (@stuck A).
Proof. intros m. apply frame_refl. Qed.

Lemma preserves_get : preserves R get.
Proof. intros m. apply frame_refl. Qed.

Lemma preserves_deref r : preserves R (deref r).
Proof. intros m. unfold deref. destruct (objects m !! r); apply frame_refl. Qed.

Lemma preserves_bind {A B} (c : M A) (k : A -> M B) :
  preserves R c -> (forall a, preserves R (k a)) -> preserves R (c ≫= k).
Proof.
  intros Hc Hk m. unfold mbind, M_bind.
  specialize (Hc m). destruct (c m) as [[a|e|] m1]; simpl in *; auto.
  eapply frame_trans; [exact Hc|apply Hk].
Qed.

Lemma preserves_modify f : (forall m, R m (f m)) -> preserves R (modify f).
Proof. intros H m. apply H. Qed.

Lemma preserves_emit e : observer_event e -> preserves R (emit e).
Proof. intros H. apply preserves_modify. intros m. by apply frame_log. Qed.

Lemma preserves_modify_live f : preserves R (modify_live f).
Proof. apply preserves_modify. intros m. apply frame_live. Qed.

Lemma preserves_modify_animation f : preserves R (modify_animation f).
Proof. apply preserves_modify. intros m. apply frame_animation. Qed.

Ltac pres_step :=
  first
    [ apply preserves_ret | apply preserves_raise | apply preserves_stuck
    | apply preserves_get | apply preserves_deref
    | apply preserves_modify_live | apply preserves_modify_animation
    | apply preserves_emit; exact I
    | apply preserves_modify; intros ?;
      first [ apply frame_doc | apply frame_files | apply frame_error | apply frame_layer
            | apply frame_live | apply frame_animation ]
    | assumption
    | progress cbv zeta
    | apply preserves_bind; [ | intros ? ]
    | match goal with
      | |- preserves _ (match ?s with _ => _ end) => destruct s
      | |- preserves _ (let (_, _) := ?s in _) => destruct s
      end ].

Ltac pres := repeat pres_step.

Lemma preserves_doc_call c : preserves R (doc_call c).
Proof. unfold doc_call. pres. Qed.

Lemma preserves_doc_new_layer b a : preserves R (doc_new_layer b a).
Proof. unfold doc_new_layer. pres. Qed.

Lemma preserves_doc_import_animation fs start : preserves R (doc_import_animation fs start).
Proof. unfold doc_import_animation. pres; auto using preserves_doc_call, preserves_doc_new_layer. Qed.

Lemma preserves_image_save i f : preserves R (image_save i f).
Proof. unfold image_save. pres. Qed.

Lemma preserves_clear_error : preserves R clear_error.
Proof. unfold clear_error. pres. Qed.

Lemma preserves_generate_live : preserves R generate_live.
Proof. unfold generate_live. pres. Qed.

Lemma preserves_skip_existing_frames fuel folder : preserves R (skip_existing_frames fuel folder).
Proof. induction fuel; simpl; pres. Qed.

Lemma preserves_start_recording : preserves R _start_recording.
Proof. unfold _start_recording. pres; apply preserves_skip_existing_frames. Qed.

Lemma preserves_save_frame i b : preserves R (_save_frame i b).
Proof. unfold _save_frame. pres. Qed.

Lemma preserves_live_set_result i b : preserves R (live_set_result i b).
Proof. unfold live_set_result. pres. Qed.

Lemma preserves_live_import_animation : preserves R live_import_animation.
Proof.
  unfold live_import_animation. pres;
    auto using preserves_doc_call, preserves_doc_import_animation.
Qed.

Lemma preserves_toggles fuel :
  (forall msg, preserves R (report_error fuel msg)) /\
  (forall a, preserves R (toggle fuel a)) /\
  (forall a, preserves R (toggle_record fuel a)).
Proof.
  induction fuel as [|fuel (IH1 & IH2 & IH3)]; simpl.
  - repeat split; intros; apply preserves_stuck.
  - repeat split; intros; pres;
      auto using preserves_generate_live, preserves_start_recording,
        preserves_live_import_animation, preserves_skip_existing_frames.
Qed.

Lemma preserves_live_handle_job_finished fuel r :
  preserves R (live_handle_job_finished fuel r).
Proof.
  unfold live_handle_job_finished. pres;
    auto using preserves_generate_live, preserves_live_set_result.
  all: try apply preserves_toggles.
Qed.

Lemma preserves_animation_import_animation j : preserves R (animation_import_animation j).
Proof.
  unfold animation_import_animation. pres;
    auto using preserves_doc_call, preserves_doc_import_animation.
Qed.

Lemma preserves_animation_handle_job_finished fuel r :
  preserves R (animation_handle_job_finished fuel r).
Proof.
  unfold animation_handle_job_finished, keyframes_append. pres;
    auto using preserves_doc_call, preserves_image_save,
      preserves_animation_import_animation.
  all: try apply preserves_toggles.
Qed.

Lemma preserves_show_preview id index : preserves R (show_preview id index).
Proof. unfold show_preview. pres. Qed.

Lemma preserves_update_preview : preserves R update_preview.
Proof. unfold update_preview, hide_preview. pres; apply preserves_show_preview. Qed.

Lemma preserves_add_control_layer r result : preserves R (add_control_layer r result).
Proof. unfold add_control_layer, assert. pres. Qed.

Lemma preserves_add_upscale_layer r : preserves R (add_upscale_layer r).
Proof. unfold add_upscale_layer, assert. pres. Qed.
End Frames.

Lemma observer_step_frame : ObserverFrame observer_step.
Proof.
  split.
  - intros m. repeat split. exists []. by rewrite app_nil_r.
  - intros m1 m2 m3 (Hj & Ho & Hc & evs & Hl & Hq) (Hj' & Ho' & Hc' & evs' & Hl' & Hq').
    repeat split; try congruence.
    exists (evs ++ evs'). split.
    + rewrite Hl', Hl, app_assoc. reflexivity.
    + by apply Forall_app.
  - intros m e He. repeat split. exists [e]. split; [reflexivity|]. by constructor.
  - intros m v. repeat split. exists []. by rewrite app_nil_r.
  - intros m v. repeat split. exists []. by rewrite app_nil_r.
  - intros m v. repeat split. exists []. by rewrite app_nil_r.
  - intros m v. repeat split. exists []. by rewrite app_nil_r.
  - intros m v. repeat split. exists []. by rewrite app_nil_r.
  - intros m v. repeat split. exists []. by rewrite app_nil_r.
Qed.

#[local] Existing Instance observer_step_frame.

Lemma bind_run {A B} (c : M A) (k : A -> M B) (m : Model) :
  (c ≫= k) m =
  match c m with
  | (Returned a, m') => k a m'
  | (Raised e, m') => (Raised e, m')
  | (Stuck, m') => (Stuck, m')
  end.
Proof. reflexivity. Qed.

Lemma queue_calls_app (evs evs' : list Event) :
  queue_calls (evs ++ evs') = queue_calls evs ++ queue_calls evs'.
Proof. apply omap_app. Qed.

Lemma queue_calls_observer (evs : list Event) :
  Forall observer_event evs -> queue_calls evs = [].
Proof.
  induction 1 as [|e evs He _ IH]; [reflexivity|].
  unfold queue_calls in *. cbn. destruct e; cbn in *; try done.
Qed.

Lemma no_signal_observer (evs : list Event) (r : nat) (j : Job) :
  Forall observer_event evs -> JobFinishedSignal r j ∉ evs.
Proof.
  intros H Hin. rewrite Forall_forall in H. apply H in Hin. exact Hin.
Qed.

(** A job found by id is a job object of the queue with that id. *)
Lemma jobs_find_Some (m : Model) (id : string) (r : nat) :
  jobs_find m id = Some r ->
  r ∈ entries (jobs m) /\ exists job, objects m !! r = Some job /\ job_id job = Some id.
Proof.
  unfold jobs_find, queued_jobs. intros H.
  destruct (List.find _ _) as [[r' j]|] eqn:E; [|discriminate].
  cbn in H. simplify_eq.
  apply find_some in E as [Hin Hid].
  apply list_elem_of_In in Hin. apply list_elem_of_omap in Hin as (r0 & Hr0 & Hl).
  destruct (objects m !! r0) as [j0|] eqn:Ho; [|discriminate].
  cbn in Hl. simplify_eq. split; [exact Hr0|].
  exists j. split; [exact Ho|]. cbn in Hid. by apply bool_decide_eq_true_1 in Hid.
Qed.

(** Lines 292-299: the results are set first, then layers are
    inserted; the job keeps its id, kind and state, and has the
    delivered images as results. *)
Lemma finished_prepare_run (r : nat) (message : ClientMessage) (m : Model) (job : Job)
  (o : Outcome unit) (m1 : Model) :
  objects m !! r = Some job ->
  finished_prepare r message m = (o, m1) ->
  let job1 := match images message with
              | [] => job
              | _ :: _ => with_results (images message) job
              end in
  jobs m1 = jobs m /\ config m1 = config m /\
  (exists evs,
     log m1 = log m ++
              match images message with
              | [] => []
              | _ :: _ => [JobsCall (q_set_results r (images message))]
              end ++ evs /\
     Forall observer_event evs) /\
  (exists job',
     objects m1 !! r = Some job' /\ job_id job' = job_id job1 /\
     kind job' = kind job1 /\ state job' = state job1 /\
     results job' = results job1) /\
  (forall r', r' <> r -> objects m1 !! r' = objects m !! r').
Proof.
  intros Hobj Hrun job1.
  unfold finished_prepare in Hrun.
  (* the state after set_results *)
  set (sr := match images message with
             | [] => []
             | _ :: _ => [JobsCall (q_set_results r (images message))]
             end).
  set (m0 := match images message with
             | [] => m
             | _ :: _ =>
                 set_objects (alter (with_results (images message)) r (objects m))
                   (set_log (log m ++ sr) m)
             end).
  assert (H0 : (match images message with
                | [] => mret tt
                | _ :: _ => set_results r (images message)
                end) m = (Returned tt, m0)).
  { subst m0 sr. destruct (images message); [reflexivity|].
    unfold set_results. mrun. rewrite Hobj. reflexivity. }
  assert (Hm0 : jobs m0 = jobs m /\ config m0 = config m /\ log m0 = log m ++ sr /\
                objects m0 !! r = Some job1 /\
                (forall r', r' <> r -> objects m0 !! r' = objects m !! r')).
  { subst m0 sr job1. destruct (images message); cbn.
    - rewrite app_nil_r. done.
    - repeat split; try done.
      + rewrite lookup_alter_eq, Hobj. reflexivity.
      + intros r' Hr'. by apply lookup_alter_ne. }
  destruct Hm0 as (Hj0 & Hc0 & Hl0 & Ho0 & Hother0).
  rewrite bind_run, H0 in Hrun.
  rewrite bind_run in Hrun. unfold deref at 1 in Hrun. rewrite Ho0 in Hrun.
  rewrite bind_run in Hrun.
  (* the layers *)
  assert (Hlayers : forall (o2 : Outcome unit) m2,
    observer_step m0 m2 \/
    (exists m2' f, observer_step m0 m2' /\ o2 = Returned tt /\
       m2 = set_objects (alter (fun j => with_control (f j) j) r (objects m2')) m2') ->
    forall o m1,
    (match o2 with
     | Returned _ => modify (set_progress 1%float) m2
     | Raised e => (Raised e, m2)
     | Stuck => (Stuck, m2)
     end) = (o, m1) ->
    jobs m1 = jobs m /\ config m1 = config m /\
    (exists evs, log m1 = log m ++ sr ++ evs /\ Forall observer_event evs) /\
    (exists job',
       objects m1 !! r = Some job' /\ job_id job' = job_id job1 /\
       kind job' = kind job1 /\ state job' = state job1 /\
       results job' = results job1) /\
    (forall r', r' <> r -> objects m1 !! r' = objects m !! r')).
  { intros o2 m2 Hstep o' m1' Hfin.
    assert (Hm2 : jobs m2 = jobs m /\ config m2 = config m /\
      (exists evs, log m2 = log m ++ sr ++ evs /\ Forall observer_event evs) /\
      (exists job',
         objects m2 !! r = Some job' /\ job_id job' = job_id job1 /\
         kind job' = kind job1 /\ state job' = state job1 /\
         results job' = results job1) /\
      (forall r', r' <> r -> objects m2 !! r' = objects m !! r')).
    { destruct Hstep as [(Hj & Ho & Hc & evs & Hl & Hq)
                        |(m2' & f & (Hj & Ho & Hc & evs & Hl & Hq) & _ & ->)]; cbn.
      - rewrite Hj, Hc, Ho, Hl, Hl0, <- app_assoc. repeat split; eauto 10.
      - rewrite Hj, Hc, Ho, Hl, Hl0, <- app_assoc. repeat split; eauto.
        + rewrite lookup_alter_eq, Ho0. cbn. eauto 10.
        + intros r' Hr'. rewrite lookup_alter_ne by done. by apply Hother0. }
    destruct o2; unfold modify in Hfin; cbn in Hfin; simplify_eq; exact Hm2. }
  destruct (bool_decide (kind job1 = control_layer)).
  - destruct (control job1) as [ctl|].
    + rewrite bind_run in Hrun.
      pose proof (preserves_add_control_layer observer_step r (result message) m0) as Hadd.
      destruct (add_control_layer r (result message) m0) as [[l|e|] m2] eqn:Eadd;
        cbn in Hadd.
      * refine (Hlayers (Returned tt) _ _ _ _ Hrun).
        right. eexists m2, _. split; [exact Hadd|]. split; reflexivity.
      * refine (Hlayers (Raised e) m2 _ _ _ Hrun). by left.
      * refine (Hlayers Stuck m2 _ _ _ Hrun). by left.
    + refine (Hlayers (Raised (AssertionError "")) m0 _ _ _ Hrun).
      left. apply frame_refl.
  - destruct (bool_decide (kind job1 = upscaling)).
    + pose proof (preserves_add_upscale_layer observer_step r m0) as Hadd.
      destruct (add_upscale_layer r m0) as [o2 m2] eqn:Eadd; cbn in Hadd.
      refine (Hlayers o2 m2 _ _ _ Hrun). by left.
    + refine (Hlayers (Returned tt) m0 _ _ _ Hrun).
      left. apply frame_refl.
Qed.

(** Line 300: the job becomes finished, the signal carries the job as
    it is then, and the slots add no queue call. *)
Lemma notify_finished_run (fuel r : nat) (m : Model) (job : Job)
  (o : Outcome unit) (m' : Model) :
  objects m !! r = Some job ->
  notify_finished fuel r m = (o, m') ->
  jobs m' = jobs m /\ config m' = config m /\
  objects m' = (if is_executing job
                then alter (with_state finished) r (objects m)
                else objects m) /\
  exists evs,
    log m' = log m ++
             JobsCall (q_notify_finished r) ::
             (if is_executing job
              then [JobFinishedSignal r (with_state finished job)]
              else []) ++ evs /\
    Forall observer_event evs.
Proof.
  intros Hobj Hrun. unfold notify_finished in Hrun.
  rewrite bind_run in Hrun. unfold queue_call, emit, modify in Hrun. cbn in Hrun.
  rewrite bind_run in Hrun. unfold deref at 1 in Hrun. cbn in Hrun. rewrite Hobj in Hrun.
  destruct (is_executing job).
  - rewrite bind_run in Hrun. unfold assign, modify in Hrun. cbn in Hrun.
    rewrite bind_run in Hrun. unfold deref at 1 in Hrun. cbn in Hrun.
    rewrite lookup_alter_eq, Hobj in Hrun. cbn in Hrun.
    rewrite bind_run in Hrun. unfold emit, modify in Hrun. cbn in Hrun.
    match type of Hrun with (_ ≫= _) ?m2 = _ => set (ms := m2) in * end.
    assert (Hstep : observer_step ms m').
    { pose proof (preserves_bind observer_step
                    (live_handle_job_finished fuel r)
                    (fun _ => animation_handle_job_finished fuel r)
                    (preserves_live_handle_job_finished observer_step fuel r)
                    (fun _ => preserves_animation_handle_job_finished observer_step fuel r)
                    ms) as H.
      rewrite Hrun in H. exact H. }
    destruct Hstep as (Hj & Ho & Hc & evs & Hl & Hq).
    rewrite Hj, Ho, Hc, Hl. subst ms. cbn.
    repeat split. exists evs. split; [|exact Hq].
    rewrite <- !app_assoc. reflexivity.
  - unfold mret, M_ret in Hrun. simplify_eq. cbn.
    repeat split. exists []. split; [|constructor]. reflexivity.
Qed.

Lemma observer_cleanup_event (evs : list Event) :
  Forall observer_event evs -> Forall cleanup_event evs.
Proof.
  intros H. eapply Forall_impl; [exact H|].
  intros e He. destruct e; cbn in He; try done;
    repeat split; intros; discriminate.
Qed.

(** Lines 301-304: every job but a diffusion job is removed; for a
    diffusion job the first result may be selected for preview. *)
Lemma finished_cleanup_run (r : nat) (m : Model) (job : Job)
  (o : Outcome unit) (m' : Model) :
  objects m !! r = Some job ->
  finished_cleanup r m = (o, m') ->
  objects m' = objects m /\ config m' = config m /\
  (kind job <> diffusion ->
     o = Returned tt /\
     entries (jobs m') = filter (fun r' => r' ≠ r) (entries (jobs m)) /\
     log m' = log m ++ [JobsCall (q_remove r)]) /\
  (kind job = diffusion ->
     entries (jobs m') = entries (jobs m) /\
     exists evs, log m' = log m ++ evs /\ Forall cleanup_event evs).
Proof.
  intros Hobj Hrun. unfold finished_cleanup in Hrun.
  rewrite bind_run in Hrun. unfold deref at 1 in Hrun. rewrite Hobj in Hrun.
  rewrite bind_run in Hrun. unfold get at 1 in Hrun.
  destruct (decide (kind job = diffusion)) as [Hk|Hk].
  - rewrite (bool_decide_eq_false_2 (kind job ≠ diffusion)) in Hrun by (intros H; done).
    assert (Hnil : objects m' = objects m /\ config m' = config m /\
                   entries (jobs m') = entries (jobs m) /\
                   exists evs, log m' = log m ++ evs /\ Forall cleanup_event evs);
      [|destruct Hnil as (? & ? & ? & ?); repeat split; try done].
    destruct (auto_preview (settings (config m)) && bool_decide (layer m = None) && has_id job).
    + unfold jobs_select in Hrun.
      rewrite bind_run in Hrun. unfold queue_call, emit, modify in Hrun. cbn in Hrun.
      rewrite bind_run in Hrun. unfold get at 1 in Hrun. cbn in Hrun.
      destruct (bool_decide (selection (jobs m) = Some (default "" (job_id job), 0%nat))).
      * unfold mret, M_ret in Hrun. simplify_eq. cbn. repeat split.
        eexists [_]. split; [reflexivity|]. constructor; [|constructor].
        repeat split; intros; discriminate.
      * rewrite bind_run in Hrun. unfold modify_jobs, modify in Hrun. cbn in Hrun.
        match type of Hrun with update_preview ?m2 = _ => set (ms := m2) in * end.
        pose proof (preserves_update_preview observer_step ms) as H.
        rewrite Hrun in H. cbn in H.
        destruct H as (Hj & Ho & Hc & evs & Hl & Hq).
        rewrite Hj, Ho, Hc, Hl. subst ms. cbn. repeat split.
        exists (JobsCall (q_select (default "" (job_id job)) 0) :: evs).
        split; [rewrite <- app_assoc; reflexivity|].
        constructor; [repeat split; intros; discriminate|].
        by apply observer_cleanup_event.
    + unfold mret, M_ret in Hrun. simplify_eq. repeat split.
      exists []. split; [by rewrite app_nil_r|constructor].
  - rewrite (bool_decide_eq_true_2 (kind job ≠ diffusion)) in Hrun by done.
    unfold jobs_remove in Hrun.
    rewrite bind_run in Hrun. unfold queue_call, emit, modify_jobs, modify in Hrun.
    cbn in Hrun. simplify_eq. cbn. repeat split; done.
Qed.

Lemma queue_calls_elem (evs : list Event) (c : QueueCall) :
  c ∈ queue_calls evs <-> JobsCall c ∈ evs.
Proof.
  unfold queue_calls. rewrite list_elem_of_omap. split.
  - intros (e & He & Hc). destruct e; simplify_eq. exact He.
  - intros H. exists (JobsCall c). done.
Qed.

(** The [finished] branch as a whole.  [sent_results] is the call
    that sets the results, made first when the message has images;
    [evs] is what follows. *)
Lemma handle_finished_run (fuel r : nat) (message : ClientMessage) (m : Model)
  (job : Job) (o : Outcome unit) (m' : Model) :
  objects m !! r = Some job ->
  handle_finished fuel r message m = (o, m') ->
  let delivered := match images message with
                   | [] => results job
                   | _ :: _ => images message
                   end in
  let sent_results := match images message with
                      | [] => []
                      | _ :: _ => [JobsCall (q_set_results r (images message))]
                      end in
  exists evs,
    log m' = log m ++ sent_results ++ evs /\
    (forall r' seen, JobFinishedSignal r' seen ∈ evs ->
       r' = r /\ state seen = finished /\ results seen = delivered) /\
    (forall r' imgs, JobsCall (q_set_results r' imgs) ∉ evs) /\
    (kind job = diffusion ->
       entries (jobs m') = entries (jobs m) /\
       forall r', JobsCall (q_remove r') ∉ evs) /\
    (kind job <> diffusion -> o = Returned tt ->
       entries (jobs m') = filter (fun r' => r' ≠ r) (entries (jobs m)) /\
       queue_calls evs = [q_notify_finished r; q_remove r]) /\
    (o = Returned tt ->
       JobsCall (q_notify_finished r) ∈ evs /\
       (is_executing job = true ->
        exists seen job',
          JobFinishedSignal r seen ∈ evs /\
          objects m' !! r = Some job' /\
          state job' = finished /\ results job' = delivered)).
Proof.
  intros Hobj Hrun delivered sent_results.
  unfold handle_finished in Hrun. rewrite bind_run in Hrun.
  destruct (finished_prepare r message m) as [o1 m1] eqn:E1.
  destruct (finished_prepare_run r message m job o1 m1 Hobj E1)
    as (Hj1 & Hc1 & (evs1 & Hl1 & Hq1) & (j1 & Ho1 & _ & Hk1 & Hs1 & Hr1) & _).
  assert (Hdel : results j1 = delivered).
  { rewrite Hr1. subst delivered. destruct (images message); reflexivity. }
  assert (Hkind : kind j1 = kind job).
  { rewrite Hk1. destruct (images message); reflexivity. }
  assert (Hstate : is_executing j1 = is_executing job).
  { unfold is_executing. rewrite Hs1. destruct (images message); reflexivity. }
  clear Hk1 Hs1 Hr1.
  fold sent_results in Hl1.
  assert (Hsig1 : forall r' seen, JobFinishedSignal r' seen ∉ evs1)
    by (intros; by apply no_signal_observer).
  assert (Hcall1 : forall c, JobsCall c ∉ evs1).
  { intros c Hin. rewrite Forall_forall in Hq1. by apply Hq1 in Hin. }
  assert (Hquiet1 : queue_calls evs1 = []) by (by apply queue_calls_observer).
  destruct o1 as [[]|e|]; try (injection Hrun as <- <-).
  2,3: exists evs1; split; [exact Hl1|]; split; [intros ? ? H; by apply Hsig1 in H|];
       split; [intros ? ?; apply Hcall1|];
       split; [intros _; split; [by rewrite Hj1|intros ?; apply Hcall1]|];
       split; intros; discriminate.
  rewrite bind_run in Hrun.
  destruct (notify_finished fuel r m1) as [o2 m2] eqn:E2.
  destruct (notify_finished_run fuel r m1 j1 o2 m2 Ho1 E2)
    as (Hj2 & Hc2 & Ho2 & evs2 & Hl2 & Hq2).
  set (sig := if is_executing j1 then [JobFinishedSignal r (with_state finished j1)] else [])
    in *.
  assert (Hsig2 : forall r' seen, JobFinishedSignal r' seen ∉ evs2)
    by (intros; by apply no_signal_observer).
  assert (Hcall2 : forall c, JobsCall c ∉ evs2).
  { intros c Hin. rewrite Forall_forall in Hq2. by apply Hq2 in Hin. }
  assert (Hquiet2 : queue_calls evs2 = []) by (by apply queue_calls_observer).
  assert (Hsig : forall r' seen, JobFinishedSignal r' seen ∈ sig ->
            r' = r /\ state seen = finished /\ results seen = delivered).
  { subst sig. intros r' seen Hin. destruct (is_executing j1).
    - apply list_elem_of_singleton in Hin. simplify_eq. done.
    - by apply elem_of_nil in Hin. }
  assert (Hsigcall : forall c, JobsCall c ∉ sig).
  { subst sig. intros c Hin. destruct (is_executing j1).
    - apply list_elem_of_singleton in Hin. discriminate.
    - by apply elem_of_nil in Hin. }
  assert (Hsigq : queue_calls sig = []).
  { subst sig. destruct (is_executing j1); reflexivity. }
  assert (Hobj2 : exists j2, objects m2 !! r = Some j2 /\ kind j2 = kind job /\
            results j2 = delivered /\ (is_executing job = true -> state j2 = finished)).
  { rewrite Ho2. rewrite <- Hstate. destruct (is_executing j1).
    - rewrite lookup_alter_eq, Ho1. cbn. eauto.
    - exists j1. repeat split; try done. }
  destruct Hobj2 as (j2 & Hobj2 & Hk2 & Hr2 & Hs2).
  assert (Hmid : forall evs3,
    (forall r' seen, JobFinishedSignal r' seen ∉ evs3) ->
    (forall r' imgs, JobsCall (q_set_results r' imgs) ∉ evs3) ->
    let evs := evs1 ++ JobsCall (q_notify_finished r) :: sig ++ evs2 ++ evs3 in
    (forall r' seen, JobFinishedSignal r' seen ∈ evs ->
       r' = r /\ state seen = finished /\ results seen = delivered) /\
    (forall r' imgs, JobsCall (q_set_results r' imgs) ∉ evs) /\
    JobsCall (q_notify_finished r) ∈ evs /\
    (is_executing job = true -> exists seen, JobFinishedSignal r seen ∈ evs) /\
    queue_calls evs = q_notify_finished r :: queue_calls evs3 /\
    ((forall r', JobsCall (q_remove r') ∉ evs3) -> forall r', JobsCall (q_remove r') ∉ evs)).
  { intros evs3 Hsig3 Hres3 evs. subst evs.
    split; [|split; [|split; [|split; [|split]]]].
    - intros r' seen Hin. apply elem_of_app in Hin as [Hin|Hin]; [by apply Hsig1 in Hin|].
      apply elem_of_cons in Hin as [Hin|Hin]; [discriminate|].
      apply elem_of_app in Hin as [Hin|Hin]; [by apply Hsig in Hin|].
      apply elem_of_app in Hin as [Hin|Hin]; [by apply Hsig2 in Hin|by apply Hsig3 in Hin].
    - intros r' imgs Hin. apply elem_of_app in Hin as [Hin|Hin]; [by apply Hcall1 in Hin|].
      apply elem_of_cons in Hin as [Hin|Hin]; [discriminate|].
      apply elem_of_app in Hin as [Hin|Hin]; [by apply Hsigcall in Hin|].
      apply elem_of_app in Hin as [Hin|Hin]; [by apply Hcall2 in Hin|by apply Hres3 in Hin].
    - apply elem_of_app. right. apply elem_of_cons. by left.
    - intros Hex. exists (with_state finished j1).
      apply elem_of_app. right. apply elem_of_cons. right. apply elem_of_app. left.
      subst sig. rewrite Hstate, Hex. apply list_elem_of_singleton. reflexivity.
    - rewrite queue_calls_app, Hquiet1. cbn.
      change (JobsCall (q_notify_finished r) :: sig ++ evs2 ++ evs3)
        with ([JobsCall (q_notify_finished r)] ++ sig ++ evs2 ++ evs3).
      rewrite !queue_calls_app, Hsigq, Hquiet2. reflexivity.
    - intros H3 r' Hin. apply elem_of_app in Hin as [Hin|Hin]; [by apply Hcall1 in Hin|].
      apply elem_of_cons in Hin as [Hin|Hin]; [discriminate|].
      apply elem_of_app in Hin as [Hin|Hin]; [by apply Hsigcall in Hin|].
      apply elem_of_app in Hin as [Hin|Hin]; [by apply Hcall2 in Hin|by apply H3 in Hin]. }
  assert (Hlog2 : forall evs3 (m3 : Model), log m3 = log m2 ++ evs3 ->
            log m3 = log m ++ sent_results ++
                     (evs1 ++ JobsCall (q_notify_finished r) :: sig ++ evs2 ++ evs3)).
  { intros evs3 m3 H3. rewrite H3, Hl2, Hl1. rewrite <- !app_assoc. cbn.
    rewrite <- !app_assoc. reflexivity. }
  destruct o2 as [[]|e|]; try (injection Hrun as <- <-).
  2,3: destruct (Hmid [] ltac:(intros ? ? H; by apply elem_of_nil in H)
                   ltac:(intros ? ? H; by apply elem_of_nil in H))
         as (H1 & H2 & H3 & H4 & H5 & H6);
       eexists; split; [apply (Hlog2 []); by rewrite app_nil_r|];
       split; [exact H1|]; split; [exact H2|];
       split; [intros _; split; [by rewrite Hj2, Hj1|];
               apply H6; intros ? H; by apply elem_of_nil in H|];
       split; intros; discriminate.
  destruct (finished_cleanup_run r m2 j2 o m' Hobj2 Hrun) as (Ho3 & Hc3 & Hrem & Hsel).
  destruct (decide (kind job = diffusion)) as [Hk|Hk].
  - destruct Hsel as (He3 & evs3 & Hl3 & Hq3); [congruence|].
    assert (Hs3 : forall r' seen, JobFinishedSignal r' seen ∉ evs3).
    { intros r' seen Hin. rewrite Forall_forall in Hq3. apply Hq3 in Hin.
      destruct Hin as (_ & _ & _ & H). by eapply H. }
    assert (Hr3 : forall r' imgs, JobsCall (q_set_results r' imgs) ∉ evs3).
    { intros r' imgs Hin. rewrite Forall_forall in Hq3. apply Hq3 in Hin.
      destruct Hin as (_ & _ & H & _). by eapply H. }
    assert (Hd3 : forall r', JobsCall (q_remove r') ∉ evs3).
    { intros r' Hin. rewrite Forall_forall in Hq3. apply Hq3 in Hin.
      destruct Hin as (H & _). by eapply H. }
    destruct (Hmid evs3 Hs3 Hr3) as (H1 & H2 & H3 & H4 & H5 & H6).
    eexists. split; [apply (Hlog2 evs3); exact Hl3|].
    split; [exact H1|]. split; [exact H2|].
    split; [intros _; split; [by rewrite He3, Hj2, Hj1|by apply H6]|].
    split; [intros; done|].
    intros _. split; [exact H3|]. intros Hex.
    destruct (H4 Hex) as [seen Hseen]. exists seen, j2.
    rewrite Ho3. repeat split; auto.
  - destruct Hrem as (-> & He3 & Hl3); [congruence|].
    destruct (Hmid [JobsCall (q_remove r)]) as (H1 & H2 & H3 & H4 & H5 & H6).
    { intros ? ? H. apply list_elem_of_singleton in H. discriminate. }
    { intros ? ? H. apply list_elem_of_singleton in H. discriminate. }
    eexists. split; [apply (Hlog2 [JobsCall (q_remove r)]); exact Hl3|].
    split; [exact H1|]. split; [exact H2|].
    split; [intros; done|].
    split; [intros _ _; split; [by rewrite He3, Hj2, Hj1|exact H5]|].
    intros _. split; [exact H3|]. intros Hex.
    destruct (H4 Hex) as [seen Hseen]. exists seen, j2.
    rewrite Ho3. repeat split; auto.
Qed.

Lemma keeps_results_alter_state (st : JobState) (r : nat) (o : gmap nat Job) :
  forall r' j, o !! r' = Some j ->
    exists j', alter (with_state st) r o !! r' = Some j' /\ results j' = results j.
Proof.
  intros r' j H. destruct (decide (r = r')) as [->|Hne].
  - rewrite lookup_alter_eq, H. cbn. eauto.
  - rewrite lookup_alter_ne by done. eauto.
Qed.

(** The messages other than [finished] leave the results of every job
    as they are. *)
Lemma other_messages_keep_results (fuel : nat) (message : ClientMessage) (m : Model)
  (r : nat) (job : Job) (o : Outcome unit) (m' : Model) :
  jobs_find m (msg_job_id message) = Some r ->
  objects m !! r = Some job ->
  handle_message fuel message m = (o, m') ->
  event message <> ev_finished ->
  forall r' j, objects m !! r' = Some j ->
    exists j', objects m' !! r' = Some j' /\ results j' = results j.
Proof.
  intros Hfind Hobj Hrun Hev.
  unfold handle_message in Hrun. rewrite bind_run in Hrun. unfold get at 1 in Hrun.
  rewrite Hfind in Hrun.
  assert (Hcancel : exists mc,
    notify_cancelled r m = (Returned tt, mc) /\
    forall r' j, objects m !! r' = Some j ->
      exists j', objects mc !! r' = Some j' /\ results j' = results j).
  { unfold notify_cancelled. mrun. rewrite Hobj.
    destruct (is_executing job); mrun; eexists; (split; [reflexivity|]); cbn.
    - apply keeps_results_alter_state.
    - eauto. }
  destruct (event message); [| done | |].
  - unfold notify_started, report_progress in Hrun. revert Hrun. mrun. rewrite Hobj.
    split_decide (state job = queued); mrun; intros [= <- <-]; cbn.
    + apply keeps_results_alter_state.
    + eauto.
  - destruct Hcancel as (mc & Hc & Hkeep).
    rewrite bind_run, Hc in Hrun. unfold report_progress, modify in Hrun.
    injection Hrun as <- <-. exact Hkeep.
  - destruct Hcancel as (mc & Hc & Hkeep).
    rewrite bind_run, Hc in Hrun.
    destruct (preserves_toggles observer_step fuel) as (Hrep & _).
    specialize (Hrep ("Server execution error: " +:+ msg_error message) mc).
    rewrite Hrun in Hrep. destruct Hrep as (_ & Ho & _). cbn in Ho.
    rewrite Ho. exact Hkeep.
Qed.

(** *** When the handler returns *)

(** With fuel for its four nested calls [report_error] returns; the
    queue, the job objects and the animation workspace are not
    touched. *)
Lemma report_error_returns (fuel : nat) (message : string) (m : Model) :
  exists m',
    report_error (4 + fuel) message m = (Returned tt, m') /\
    objects m' = objects m /\ jobs m' = jobs m /\ animation m' = animation m.
Proof.
  destruct m as [c d s l p e j o [a rec hr lr lrb kf ks ki kfs] an fs lg].
  destruct a, rec; eexists; (split; [vm_compute; reflexivity|]); cbn; done.
Qed.

Lemma live_handler_returns (fuel r : nat) (m : Model) (job : Job) :
  objects m !! r = Some job ->
  (kind job = live_preview -> results job <> [] -> is_recording (live m) = true ->
   is_Some (live_keyframes_folder (live m))) ->
  exists m',
    live_handle_job_finished (3 + fuel) r m = (Returned tt, m') /\
    objects m' = objects m /\ jobs m' = jobs m /\ animation m' = animation m.
Proof.
  intros Hobj Hrec.
  destruct m as [c d s l p e j o [a rec hr lr lrb kf ks ki kfs] an fs lg].
  destruct job as [jid k st pa rs ctl].
  destruct d as [ex fn da ct al ls nu].
  cbn in *.
  unfold live_handle_job_finished, live_set_result, _save_frame, image_save,
    generate_live, clear_error, live_import_animation, doc_import_animation, doc_new_layer.
  mrun. rewrite Hobj. mrun.
  destruct (decide (k = live_preview)) as [->|Hk];
    [|rewrite bool_decide_eq_false_2 by done; mrun; eexists; split; [reflexivity|done]].
  mrun.
  assert (Hfolder : rs <> [] -> rec = true -> exists folder, kf = Some folder).
  { intros H1 H2. destruct (Hrec eq_refl H1 H2) as [folder ->]. eauto. }
  clear Hrec.
  destruct rec, rs as [|img rs];
    try (destruct (Hfolder ltac:(discriminate) eq_refl) as [folder ->]);
    mrun; destruct a, da; mrun;
    try (split_decide (e ≠ "")); mrun;
    eexists; (split; [reflexivity|]); cbn; done.
Qed.

Lemma animation_handler_returns (fuel r : nat) (m : Model) (job : Job) :
  objects m !! r = Some job ->
  (kind job = animation_batch -> is_Some (anim_keyframes_folder (animation m))) ->
  exists m',
    animation_handle_job_finished (4 + fuel) r m = (Returned tt, m') /\
    objects m' = objects m /\ jobs m' = jobs m.
Proof.
  intros Hobj Hfolder.
  destruct (decide (kind job = animation_batch)) as [Hk|Hk].
  - destruct (Hfolder Hk) as [folder Hf].
    destruct (animation_batch_returns (4 + fuel) r job m folder Hobj Hk Hf)
      as (m' & Hrun).
    exists m'. split; [exact Hrun|].
    pose proof (preserves_animation_handle_job_finished observer_step (4 + fuel) r m) as H.
    rewrite Hrun in H. destruct H as (? & ? & _). done.
  - unfold animation_handle_job_finished. rewrite bind_run. unfold deref at 1. rewrite Hobj.
    rewrite (bool_decide_eq_false_2 _ Hk).
    destruct (bool_decide (kind job = animation_frame)); [|eexists; split; [reflexivity|done]].
    destruct (results job) as [|image rs]; [eexists; split; [reflexivity|done]|].
    rewrite bind_run. unfold get at 1.
    destruct (bool_decide _).
    + destruct (report_error_returns fuel "Generated frame does not match current time" m)
        as (m' & Hrun & ? & ? & _). eauto.
    + destruct (layers_find m (target_layer (animation m))).
      * eexists. split; [reflexivity|done].
      * destruct (report_error_returns fuel "Target layer not found" m)
          as (m' & Hrun & ? & ? & _). eauto.
Qed.

Lemma finished_prepare_returns (r : nat) (message : ClientMessage) (m : Model) (job : Job) :
  objects m !! r = Some job ->
  (kind job = control_layer -> control job <> None) ->
  (kind job = upscaling ->
   match images message with [] => results job | _ :: _ => images message end <> []) ->
  exists m1,
    finished_prepare r message m = (Returned tt, m1) /\
    live m1 = live m /\ animation m1 = animation m.
Proof.
  intros Hobj Hctl Hup.
  destruct m as [c d s l p e j o lv an fs lg].
  destruct job as [jid k st pa rs ctl]. cbn in *.
  unfold finished_prepare, set_results, add_control_layer, add_upscale_layer, assert,
    doc_insert_layer, doc_insert_vector_layer, doc_new_layer, doc_resize, doc_remove_layer.
  destruct k.
  - destruct (images message); repeat (progress (mrun; rewrite ?lookup_alter_eq, ?Hobj; cbn));
      eexists; (split; [reflexivity|done]).
  - destruct ctl as [[md lid]|]; [|exfalso; by apply Hctl].
    clear Hctl Hup.
    destruct (images message), md, (result message), rs;
      repeat (progress (mrun; rewrite ?lookup_alter_eq, ?Hobj; cbn));
      eexists; (split; [reflexivity|done]).
  - specialize (Hup eq_refl). clear Hctl.
    destruct (images message) as [|img imgs]; [destruct rs; [done|]|];
      destruct l; repeat (progress (mrun; rewrite ?lookup_alter_eq, ?Hobj; cbn));
      eexists; (split; [reflexivity|done]).
  - destruct (images message); repeat (progress (mrun; rewrite ?lookup_alter_eq, ?Hobj; cbn));
      eexists; (split; [reflexivity|done]).
  - destruct (images message); repeat (progress (mrun; rewrite ?lookup_alter_eq, ?Hobj; cbn));
      eexists; (split; [reflexivity|done]).
  - destruct (images message); repeat (progress (mrun; rewrite ?lookup_alter_eq, ?Hobj; cbn));
      eexists; (split; [reflexivity|done]).
Qed.

Lemma notify_finished_returns (fuel r : nat) (m : Model) (job : Job) :
  objects m !! r = Some job ->
  (kind job = live_preview -> results job <> [] -> is_recording (live m) = true ->
   is_Some (live_keyframes_folder (live m))) ->
  (kind job = animation_batch -> is_Some (anim_keyframes_folder (animation m))) ->
  exists m', notify_finished (4 + fuel) r m = (Returned tt, m').
Proof.
  intros Hobj Hlive Hanim. unfold notify_finished.
  rewrite bind_run. unfold queue_call, emit, modify. cbn.
  rewrite bind_run. unfold deref at 1. cbn. rewrite Hobj.
  destruct (is_executing job); [|eexists; reflexivity].
  rewrite bind_run. unfold assign, modify. cbn.
  rewrite bind_run. unfold deref at 1. cbn. rewrite lookup_alter_eq, Hobj. cbn.
  rewrite bind_run. unfold emit, modify. cbn.
  match goal with |- context [(_ ≫= _) ?m2] => set (ms := m2) end.
  assert (Hms : objects ms !! r = Some (with_state finished job))
    by (subst ms; cbn; by rewrite lookup_alter_eq, Hobj).
  destruct (live_handler_returns (1 + fuel) r ms (with_state finished job) Hms Hlive)
    as (m3 & Hrun3 & Ho3 & _ & Ha3).
  change (3 + (1 + fuel))%nat with (S (S (S (S fuel)))) in Hrun3.
  rewrite bind_run, Hrun3.
  assert (Hm3 : objects m3 !! r = Some (with_state finished job)) by (by rewrite Ho3).
  destruct (animation_handler_returns fuel r m3 (with_state finished job) Hm3)
    as (m4 & Hrun4 & _).
  { rewrite Ha3. exact Hanim. }
  exists m4. exact Hrun4.
Qed.

(** For a job that is not a diffusion job the handler returns, with
    fuel for the nested setters, unless one of its assertions fails. *)
Lemma handle_finished_returns (fuel r : nat) (message : ClientMessage) (m : Model)
  (job : Job) :
  objects m !! r = Some job ->
  kind job <> diffusion ->
  no_failed_assertion job message m ->
  exists m', handle_finished (4 + fuel) r message m = (Returned tt, m').
Proof.
  intros Hobj Hk (Hctl & Hup & Hlive & Hanim).
  unfold handle_finished.
  destruct (finished_prepare_returns r message m job Hobj Hctl Hup)
    as (m1 & Hrun1 & Hl1 & Ha1).
  destruct (finished_prepare_run r message m job (Returned tt) m1 Hobj Hrun1)
    as (_ & _ & _ & (j1 & Ho1 & _ & Hk1 & _ & Hr1) & _).
  assert (Hkind : kind j1 = kind job)
    by (rewrite Hk1; destruct (images message); reflexivity).
  assert (Hres : results j1 =
                 match images message with [] => results job | _ :: _ => images message end)
    by (rewrite Hr1; destruct (images message); reflexivity).
  rewrite bind_run, Hrun1.
  destruct (notify_finished_returns fuel r m1 j1 Ho1) as (m2 & Hrun2).
  { rewrite Hkind, Hres, Hl1. exact Hlive. }
  { rewrite Hkind, Ha1. exact Hanim. }
  rewrite bind_run, Hrun2.
  destruct (notify_finished_run (4 + fuel) r m1 j1 (Returned tt) m2 Ho1 Hrun2)
    as (_ & _ & Ho2 & _).
  assert (Hobj2 : exists j2, objects m2 !! r = Some j2 /\ kind j2 = kind job).
  { rewrite Ho2. destruct (is_executing j1).
    - rewrite lookup_alter_eq, Ho1. cbn. eauto.
    - eauto. }
  destruct Hobj2 as (j2 & Hobj2 & Hk2).
  destruct (finished_cleanup r m2) as [o3 m3] eqn:E3.
  destruct (finished_cleanup_run r m2 j2 o3 m3 Hobj2 E3) as (_ & _ & Hrem & _).
  destruct Hrem as (-> & _); [congruence|]. eauto.
Qed.

(** [jobs.find] looks at the queue and at the ids of its jobs only. *)
Lemma jobs_find_same_ids (m m' : Model) (id : string) :
  entries (jobs m') = entries (jobs m) ->
  (forall r, job_id <$> objects m' !! r = job_id <$> objects m !! r) ->
  jobs_find m' id = jobs_find m id.
Proof.
  intros He Hid. unfold jobs_find, queued_jobs. rewrite He. clear He.
  induction (entries (jobs m)) as [|r0 rs IH]; [reflexivity|].
  cbn. specialize (Hid r0).
  destruct (objects m' !! r0) as [j'|], (objects m !! r0) as [j|]; cbn in *;
    try discriminate; [|exact IH].
  injection Hid as Hid. rewrite Hid.
  destruct (bool_decide (job_id j = Some id)); [reflexivity|exact IH].
Qed.

(** The preview of a finished diffusion job that has a result and is
    the job its id finds. *)
Lemma finished_cleanup_returns (r : nat) (m : Model) (job : Job) :
  objects m !! r = Some job ->
  kind job = diffusion ->
  results job <> [] ->
  (forall id, job_id job = Some id -> jobs_find m id = Some r) ->
  exists m', finished_cleanup r m = (Returned tt, m').
Proof.
  intros Hobj Hk Hres Hfind.
  unfold finished_cleanup.
  rewrite bind_run. unfold deref at 1. rewrite Hobj.
  rewrite bind_run. unfold get at 1.
  rewrite (bool_decide_eq_false_2 (kind job ≠ diffusion)) by (intros H; done).
  destruct (auto_preview (settings (config m)) && bool_decide (layer m = None) && has_id job)
    eqn:Hcond; [|eexists; reflexivity].
  apply andb_true_iff in Hcond as [Hcond Hid].
  apply andb_true_iff in Hcond as [_ Hlayer].
  apply bool_decide_eq_true_1 in Hlayer.
  unfold has_id in Hid. destruct (job_id job) as [id|] eqn:Ejid; [|discriminate].
  cbn [default].
  unfold jobs_select.
  rewrite bind_run. unfold queue_call, emit, modify. cbn.
  rewrite bind_run. unfold get at 1. cbn.
  destruct (bool_decide (selection (jobs m) = Some (id, 0%nat))); [eexists; reflexivity|].
  rewrite bind_run. unfold modify_jobs, modify. cbn.
  unfold update_preview. rewrite bind_run. unfold get at 1. cbn.
  unfold show_preview. rewrite bind_run. unfold get at 1.
  match goal with |- context [jobs_find ?ms id] =>
    replace (jobs_find ms id) with (Some r)
      by (symmetry; rewrite <- (Hfind id eq_refl); by apply jobs_find_same_ids)
  end.
  rewrite bind_run. unfold deref at 1. cbn. rewrite Hobj.
  rewrite bind_run. rewrite Hlayer. cbn.
  rewrite bind_run. unfold get at 1. cbn. rewrite Hlayer.
  destruct (results job) as [|image rs] eqn:Eres; [done|]. cbn.
  eexists. reflexivity.
Qed.

(** A diffusion job whose message carries images: the handler returns;
    the preview, if any, shows the first of the images. *)
Lemma diffusion_finished_returns (fuel r : nat) (message : ClientMessage) (m : Model)
  (job : Job) :
  jobs_find m (msg_job_id message) = Some r ->
  objects m !! r = Some job ->
  kind job = diffusion ->
  images message <> [] ->
  exists m', handle_finished (4 + fuel) r message m = (Returned tt, m').
Proof.
  intros Hfind Hobj Hk Himg.
  destruct (jobs_find_Some m (msg_job_id message) r Hfind) as (_ & job' & Hobj' & Hid).
  rewrite Hobj in Hobj'. injection Hobj' as <-.
  unfold handle_finished.
  destruct (finished_prepare_returns r message m job Hobj) as (m1 & Hrun1 & _);
    [congruence..|].
  destruct (finished_prepare_run r message m job (Returned tt) m1 Hobj Hrun1)
    as (Hj1 & _ & _ & (j1 & Ho1 & Hid1 & Hk1 & _ & Hr1) & Hother1).
  assert (Hkind : kind j1 = diffusion)
    by (rewrite Hk1; destruct (images message); exact Hk).
  assert (Hres : results j1 = images message)
    by (rewrite Hr1; destruct (images message); [done|reflexivity]).
  assert (Hjid : job_id j1 = Some (msg_job_id message))
    by (rewrite Hid1; destruct (images message); exact Hid).
  rewrite bind_run, Hrun1.
  destruct (notify_finished_returns fuel r m1 j1 Ho1) as (m2 & Hrun2); [congruence..|].
  rewrite bind_run, Hrun2.
  destruct (notify_finished_run (4 + fuel) r m1 j1 (Returned tt) m2 Ho1 Hrun2)
    as (Hj2 & _ & Ho2 & _).
  assert (Hobj2 : exists j2, objects m2 !! r = Some j2 /\ kind j2 = diffusion /\
                    results j2 = images message /\ job_id j2 = Some (msg_job_id message)).
  { rewrite Ho2. destruct (is_executing j1).
    - rewrite lookup_alter_eq, Ho1. cbn. eauto.
    - eauto. }
  destruct Hobj2 as (j2 & Hobj2 & Hk2 & Hr2 & Hid2).
  apply (finished_cleanup_returns r m2 j2 Hobj2 Hk2); [congruence|].
  intros id Hid'. rewrite Hid2 in Hid'. injection Hid' as <-.
  rewrite <- Hfind. apply jobs_find_same_ids; [by rewrite Hj2, Hj1|].
  intros r0. destruct (decide (r0 = r)) as [->|Hne].
  - rewrite Hobj2, Hobj. cbn. congruence.
  - rewrite Ho2.
    assert (objects m1 !! r0 = objects m !! r0) as <- by (by apply Hother1).
    destruct (is_executing j1); [by rewrite lookup_alter_ne|done].
Qed.

(** The [finished] branch, whatever its outcome: the job object has
    the delivered images from the first call on; its state changes
    only in [notify_finished]; and unless the handler returns, no job
    leaves the queue. *)
Lemma handle_finished_end (fuel r : nat) (message : ClientMessage) (m : Model)
  (job : Job) (o : Outcome unit) (m' : Model) :
  objects m !! r = Some job ->
  handle_finished fuel r message m = (o, m') ->
  let delivered := match images message with
                   | [] => results job
                   | _ :: _ => images message
                   end in
  (exists job',
     objects m' !! r = Some job' /\ results job' = delivered /\
     kind job' = kind job /\
     (state job' = state job \/ is_executing job = true /\ state job' = finished) /\
     (o = Returned tt ->
      state job' = if is_executing job then finished else state job)) /\
  (o <> Returned tt ->
   entries (jobs m') = entries (jobs m) /\
   forall r', q_remove r' ∉ queue_calls (drop (length (log m)) (log m'))).
Proof.
  intros Hobj Hrun delivered.
  unfold handle_finished in Hrun. rewrite bind_run in Hrun.
  destruct (finished_prepare r message m) as [o1 m1] eqn:E1.
  destruct (finished_prepare_run r message m job o1 m1 Hobj E1)
    as (Hj1 & Hc1 & (evs1 & Hl1 & Hq1) & (j1 & Ho1 & _ & Hk1 & Hs1 & Hr1) & _).
  assert (Hdel : results j1 = delivered).
  { rewrite Hr1. subst delivered. destruct (images message); reflexivity. }
  assert (Hkind : kind j1 = kind job).
  { rewrite Hk1. destruct (images message); reflexivity. }
  assert (Hst : state j1 = state job).
  { rewrite Hs1. destruct (images message); reflexivity. }
  assert (Hex : is_executing j1 = is_executing job).
  { unfold is_executing. rewrite Hst. reflexivity. }
  clear Hk1 Hs1 Hr1.
  set (sent := match images message with
               | [] => []
               | _ :: _ => [JobsCall (q_set_results r (images message))]
               end) in *.
  assert (Hsent : forall r', q_remove r' ∉ queue_calls sent).
  { intros r' Hin. subst sent. destruct (images message); cbn in Hin.
    - by apply elem_of_nil in Hin.
    - apply list_elem_of_singleton in Hin. discriminate. }
  assert (Hdrop : forall (mx : Model) evs, log mx = log m ++ evs ->
            drop (length (log m)) (log mx) = evs).
  { intros mx evs ->. by rewrite drop_app_length. }
  destruct o1 as [[]|e|]; try (injection Hrun as <- <-).
  2,3: (split; [exists j1; repeat split; [done..|by left|intros; discriminate]|]);
       intros _; split; [by rewrite Hj1|];
       rewrite (Hdrop m1 _ Hl1), queue_calls_app, (queue_calls_observer evs1 Hq1), app_nil_r;
       exact Hsent.
  rewrite bind_run in Hrun.
  destruct (notify_finished fuel r m1) as [o2 m2] eqn:E2.
  destruct (notify_finished_run fuel r m1 j1 o2 m2 Ho1 E2)
    as (Hj2 & Hc2 & Ho2 & evs2 & Hl2 & Hq2).
  set (sig := if is_executing j1 then [JobFinishedSignal r (with_state finished j1)] else [])
    in *.
  assert (Hsigq : queue_calls sig = []).
  { subst sig. destruct (is_executing j1); reflexivity. }
  assert (Hobj2 : exists j2, objects m2 !! r = Some j2 /\ kind j2 = kind job /\
            results j2 = delivered /\
            state j2 = if is_executing job then finished else state job).
  { rewrite Ho2, Hex. destruct (is_executing job).
    - rewrite lookup_alter_eq, Ho1. cbn. eauto.
    - exists j1. repeat split; done. }
  destruct Hobj2 as (j2 & Hobj2 & Hk2 & Hr2 & Hs2).
  assert (Hjob : exists job',
     objects m2 !! r = Some job' /\ results job' = delivered /\
     kind job' = kind job /\
     (state job' = state job \/ is_executing job = true /\ state job' = finished) /\
     (state job' = if is_executing job then finished else state job)).
  { exists j2. repeat split; try done. rewrite Hs2.
    destruct (is_executing job); [by right|by left]. }
  assert (Hlog2 : log m2 = log m ++ sent ++ evs1 ++ [JobsCall (q_notify_finished r)] ++
                           sig ++ evs2).
  { rewrite Hl2, Hl1, <- !app_assoc. reflexivity. }
  assert (Hcalls2 : queue_calls (sent ++ evs1 ++ [JobsCall (q_notify_finished r)] ++
                                 sig ++ evs2)
                    = queue_calls sent ++ [q_notify_finished r]).
  { rewrite !queue_calls_app, (queue_calls_observer evs1 Hq1), Hsigq,
      (queue_calls_observer evs2 Hq2). cbn. reflexivity. }
  destruct o2 as [[]|e|]; try (injection Hrun as <- <-).
  2,3: (split; [destruct Hjob as (j' & ? & ? & ? & ? & ?); exists j';
                repeat split; [done..|intros; discriminate]|]);
       intros _; split; [by rewrite Hj2, Hj1|];
       rewrite (Hdrop m2 _ Hlog2), Hcalls2; intros r' Hin;
       apply elem_of_app in Hin as [Hin|Hin]; [by apply Hsent in Hin|];
       apply list_elem_of_singleton in Hin; discriminate.
  destruct (finished_cleanup_run r m2 j2 o m' Hobj2 Hrun) as (Ho3 & Hc3 & Hrem & Hsel).
  split.
  - destruct Hjob as (j' & Hj' & ? & ? & ? & ?). exists j'.
    rewrite Ho3. repeat split; done.
  - intros Hno.
    destruct (decide (kind job = diffusion)) as [Hk|Hk].
    + destruct Hsel as (He3 & evs3 & Hl3 & Hq3); [congruence|].
      split; [by rewrite He3, Hj2, Hj1|].
      assert (Hlog3 : log m' = log m ++ (sent ++ evs1 ++ [JobsCall (q_notify_finished r)] ++
                                         sig ++ evs2) ++ evs3).
      { rewrite Hl3, Hlog2, <- !app_assoc. reflexivity. }
      rewrite (Hdrop m' _ Hlog3), queue_calls_app, Hcalls2. intros r' Hin.
      apply elem_of_app in Hin as [Hin|Hin].
      * apply elem_of_app in Hin as [Hin|Hin]; [by apply Hsent in Hin|].
        apply list_elem_of_singleton in Hin. discriminate.
      * apply queue_calls_elem in Hin. rewrite Forall_forall in Hq3.
        apply Hq3 in Hin. destruct Hin as (H & _). by eapply H.
    + destruct Hrem as (-> & _); [congruence|]. done.
Qed.

(** An upscaling job that finishes without an image and has none:
    the assertion of [add_upscale_layer] fails before anything was
    changed. *)
Lemma upscale_without_image_raises (fuel r : nat) (message : ClientMessage) (m : Model)
  (job : Job) :
  objects m !! r = Some job ->
  kind job = upscaling -> images message = [] -> results job = [] ->
  handle_finished fuel r message m
  = (Raised (AssertionError "Upscaling job did not produce an image"), m).
Proof.
  intros Hobj Hkind Himg Hres.
  unfold handle_finished. rewrite bind_run.
  unfold finished_prepare. rewrite Himg.
  rewrite bind_run. unfold mret at 1, M_ret at 1. cbv beta iota.
  rewrite bind_run. unfold deref at 1. rewrite Hobj, Hkind.
  rewrite (bool_decide_eq_false_2 (upscaling = control_layer)) by discriminate.
  rewrite (bool_decide_eq_true_2 (upscaling = upscaling)) by reflexivity.
  rewrite bind_run. unfold add_upscale_layer.
  rewrite bind_run. unfold deref at 1. rewrite Hobj, Hkind, Hres.
  rewrite (bool_decide_eq_true_2 (upscaling = upscaling)) by reflexivity.
  reflexivity.
Qed.

(** C6, as stated, fails: an upscaling job that finishes without an
    image makes the handler raise before [notify_finished]; the job is
    not removed, and no call on the queue was made. *)
Lemma finished_upscale_without_image_stays :
  kind (job0 upscaling []) <> diffusion /\
  (handle_message 4 (finished_message []) upscale_model).1
  = Raised (AssertionError "Upscaling job did not produce an image") /\
  entries (jobs (handle_message 4 (finished_message []) upscale_model).2) = [0%nat] /\
  queue_calls (log (handle_message 4 (finished_message []) upscale_model).2) = [].
Proof. split; [discriminate|]. repeat split; vm_compute; reflexivity. Qed.

(** C6, amended.  In the [finished] branch of [handle_message]: a job
    of kind [diffusion] stays in the queue and no call removes a job;
    for a job of any other kind, when the handler returns, its calls
    on the queue are [set_results] (if images were delivered), then
    [notify_finished], then [remove], and the job is no longer in the
    queue; when the handler does not return, the queue is as it was,
    the job is still in it, and no call removed a job.  The handler
    does return for a job that is not a diffusion job, with fuel for
    the nested setters, unless one of its assertions fails; for an
    upscaling job without an image the assertion of
    [add_upscale_layer] fails before any call on the queue. *)
Theorem finished_removes_all_but_diffusion (fuel : nat) (message : ClientMessage)
  (m : Model) (r : nat) (job : Job) (o : Outcome unit) (m' : Model) :
  event message = ev_finished ->
  jobs_find m (msg_job_id message) = Some r ->
  objects m !! r = Some job ->
  handle_message fuel message m = (o, m') ->
  exists evs,
    log m' = log m ++ evs /\
    (kind job = diffusion ->
       entries (jobs m') = entries (jobs m) /\ r ∈ entries (jobs m') /\
       forall r', q_remove r' ∉ queue_calls evs) /\
    (kind job <> diffusion -> o = Returned tt ->
       (r ∉ entries (jobs m')) /\
       queue_calls evs =
       match images message with
       | [] => []
       | _ :: _ => [q_set_results r (images message)]
       end ++ [q_notify_finished r; q_remove r]) /\
    (o <> Returned tt ->
       entries (jobs m') = entries (jobs m) /\ r ∈ entries (jobs m') /\
       forall r', q_remove r' ∉ queue_calls evs) /\
    ((4 <= fuel)%nat -> kind job <> diffusion ->
     no_failed_assertion job message m -> o = Returned tt) /\
    (kind job = upscaling -> images message = [] -> results job = [] ->
     o = Raised (AssertionError "Upscaling job did not produce an image") /\
     queue_calls evs = []).
Proof.
  intros Hev Hfind Hobj Hrun.
  unfold handle_message in Hrun. rewrite bind_run in Hrun. unfold get at 1 in Hrun.
  rewrite Hfind, Hev in Hrun.
  destruct (handle_finished_run fuel r message m job o m' Hobj Hrun)
    as (evs & Hl & _ & _ & Hdiff & Hrem & _).
  destruct (handle_finished_end fuel r message m job o m' Hobj Hrun) as (_ & Hstay).
  assert (Hin : r ∈ entries (jobs m)) by (by apply jobs_find_Some in Hfind as [? _]).
  eexists. split; [exact Hl|]. split; [|split; [|split; [|split]]].
  - intros Hk. destruct (Hdiff Hk) as [He Hno]. split; [exact He|]. split.
    + by rewrite He.
    + intros r' Hr'. apply queue_calls_elem in Hr'.
      apply elem_of_app in Hr' as [Hr'|Hr']; [|by apply Hno in Hr'].
      destruct (images message); [by apply elem_of_nil in Hr'|].
      apply list_elem_of_singleton in Hr'. discriminate.
  - intros Hk Ho. destruct (Hrem Hk Ho) as [He Hq]. split.
    + rewrite He. intros Hr'. apply list_elem_of_filter in Hr' as [Hne _]. done.
    + rewrite queue_calls_app, Hq. destruct (images message); reflexivity.
  - intros Ho. destruct (Hstay Ho) as [He Hno]. split; [exact He|].
    split; [by rewrite He|].
    rewrite Hl, drop_app_length in Hno. exact Hno.
  - intros Hf Hk Hok.
    replace fuel with (4 + (fuel - 4))%nat in Hrun by lia.
    destruct (handle_finished_returns (fuel - 4) r message m job Hobj Hk Hok)
      as (m'' & Hret).
    congruence.
  - intros Hk Himg Hres.
    rewrite (upscale_without_image_raises fuel r message m job Hobj Hk Himg Hres) in Hrun.
    injection Hrun as <- <-. split; [reflexivity|].
    assert (Hnil : log m ++ [] = log m ++
                     (match images message with
                      | [] => []
                      | _ :: _ => [JobsCall (q_set_results r (images message))]
                      end ++ evs)) by (rewrite app_nil_r; exact Hl).
    apply app_inv_head in Hnil. rewrite <- Hnil. reflexivity.
Qed.

Lemma finished_removes_all_but_diffusion_witness :
  (0%nat ∉ entries (jobs upscale_done.2)) /\
  upscale_done.1 = Returned tt.
Proof.
  destruct (finished_removes_all_but_diffusion 4 (finished_message [Img 1])
              upscale_model 0 (job0 upscaling []) upscale_done.1 upscale_done.2)
    as (evs & _ & _ & Hrem & _).
  - reflexivity.
  - vm_compute. reflexivity.
  - reflexivity.
  - apply surjective_pairing.
  - split; [|vm_compute; reflexivity].
    apply Hrem; [discriminate | vm_compute; reflexivity].
Defined.

(** C2, as stated, fails: the results are there before the job is
    finished, and can be there in another state for good.  After
    lines 292-299 of the handler, where [add_upscale_layer] reads
    them, the job has its results and is still running; and a job
    that was cancelled before its [finished] message arrived has the
    delivered images as results and stays cancelled. *)
Lemma results_before_finished_state :
  (fun j => (state j, results j)) <$>
    objects (finished_prepare 0 (finished_message [Img 1]) upscale_model).2 !! 0%nat
  = Some (running, [Img 1]) /\
  (handle_message 4 (finished_message [Img 1])
     (with_job (mkJob (Some "job-0") diffusion cancelled
                  (mkParams "a cat" "" canvas 1%float 7 (0, 0, 0) "") [] None)
        model0)).1 = Returned tt /\
  (fun j => (state j, results j)) <$>
    objects (handle_message 4 (finished_message [Img 1])
               (with_job (mkJob (Some "job-0") diffusion cancelled
                            (mkParams "a cat" "" canvas 1%float 7 (0, 0, 0) "") [] None)
                  model0)).2 !! 0%nat
  = Some (cancelled, [Img 1]).
Proof. repeat split; vm_compute; reflexivity. Qed.

(** C2, amended.  When a [finished] message carries images,
    [set_results] is the first thing the handler does, before
    [notify_finished] and before anything else; every [job_finished]
    signal it then sends is for this job and shows it finished with
    the delivered images as results.  From that first call on the job
    has these results, whatever the outcome of the handler, while its
    state is the one it had until [notify_finished] changes it: when
    the handler returns, a job that was queued or running is finished
    and a job that was finished or cancelled is in the state it had.
    The handler does return, with fuel for the nested setters, for a
    diffusion job and for any job on whose way no assertion fails.  No
    other message changes the results of a job. *)
Theorem results_set_before_finished (fuel : nat) (message : ClientMessage)
  (m : Model) (r : nat) (job : Job) (o : Outcome unit) (m' : Model) :
  jobs_find m (msg_job_id message) = Some r ->
  objects m !! r = Some job ->
  handle_message fuel message m = (o, m') ->
  (event message <> ev_finished ->
   forall r' j, objects m !! r' = Some j ->
     exists j', objects m' !! r' = Some j' /\ results j' = results j) /\
  (event message = ev_finished -> images message <> [] ->
   exists evs,
     log m' = log m ++ JobsCall (q_set_results r (images message)) :: evs /\
     (forall r' imgs, JobsCall (q_set_results r' imgs) ∉ evs) /\
     (forall r' seen, JobFinishedSignal r' seen ∈ evs ->
        r' = r /\ state seen = finished /\ results seen = images message) /\
     (exists job',
        objects m' !! r = Some job' /\ results job' = images message /\
        (state job' = state job \/ is_executing job = true /\ state job' = finished) /\
        (o = Returned tt ->
         state job' = if is_executing job then finished else state job)) /\
     (o = Returned tt ->
        JobsCall (q_notify_finished r) ∈ evs /\
        (is_executing job = true -> exists seen, JobFinishedSignal r seen ∈ evs)) /\
     ((4 <= fuel)%nat ->
      kind job = diffusion \/ no_failed_assertion job message m ->
      o = Returned tt)).
Proof.
  intros Hfind Hobj Hrun. split.
  - intros Hev. by eapply other_messages_keep_results.
  - intros Hev Himg.
    unfold handle_message in Hrun. rewrite bind_run in Hrun. unfold get at 1 in Hrun.
    rewrite Hfind, Hev in Hrun.
    destruct (handle_finished_run fuel r message m job o m' Hobj Hrun)
      as (evs & Hl & Hsig & Hset & _ & _ & Hret).
    destruct (handle_finished_end fuel r message m job o m' Hobj Hrun)
      as ((job' & Hjob' & Hres' & _ & Hst' & Hfin') & _).
    assert (Hreturns : (4 <= fuel)%nat ->
              kind job = diffusion \/ no_failed_assertion job message m ->
              o = Returned tt).
    { intros Hf Hok.
      replace fuel with (4 + (fuel - 4))%nat in Hrun by lia.
      destruct (decide (kind job = diffusion)) as [Hk|Hk].
      - destruct (diffusion_finished_returns (fuel - 4) r message m job
                    Hfind Hobj Hk Himg) as (m'' & Hrun'').
        congruence.
      - destruct Hok as [Hok|Hok]; [done|].
        destruct (handle_finished_returns (fuel - 4) r message m job Hobj Hk Hok)
          as (m'' & Hrun'').
        congruence. }
    destruct (images message) as [|img imgs] eqn:Eimg; [done|].
    exists evs. split; [exact Hl|]. split; [exact Hset|]. split; [exact Hsig|].
    split; [exists job'; repeat split; assumption|].
    split; [|exact Hreturns].
    intros Ho. destruct (Hret Ho) as [Hn Hseen]. split; [exact Hn|].
    intros Hex. destruct (Hseen Hex) as (seen & _ & Hs & _). exists seen. exact Hs.
Qed.

Lemma results_set_before_finished_witness :
  exists job',
    objects diffusion_done.2 !! 0%nat = Some job' /\
    state job' = finished /\ results job' = [Img 1].
Proof.
  destruct (results_set_before_finished 4 (finished_message [Img 1])
              diffusion_model 0 (job0 diffusion []) diffusion_done.1 diffusion_done.2)
    as (_ & Hfin).
  - vm_compute. reflexivity.
  - reflexivity.
  - apply surjective_pairing.
  - destruct Hfin as (evs & _ & _ & _ & Hjob & _); [reflexivity | discriminate |].
    destruct Hjob as (job' & Ho & Hr & _ & Hs).
    exists job'. split; [exact Ho|]. split; [|exact Hr].
    rewrite Hs; [reflexivity|]. vm_compute. reflexivity.
Defined.

(** The handler on one job of each kind that leaves the queue. *)
Example finished_calls_by_kind :
  queue_calls (log upscale_done.2)
  = [q_set_results 0 [Img 1]; q_notify_finished 0; q_remove 0] /\
  queue_calls (log (handle_message 4 (finished_message [])
                      (with_job (job0 live_preview []) model0)).2)
  = [q_notify_finished 0; q_remove 0] /\
  queue_calls (log (handle_message 4 (finished_message [Img 1])
                      (with_job (job0 animation_frame []) model0)).2)
  = [q_set_results 0 [Img 1]; q_notify_finished 0; q_remove 0] /\
  queue_calls (log diffusion_done.2)
  = [q_set_results 0 [Img 1]; q_notify_finished 0; q_select "job-0" 0].
Proof. repeat split; vm_compute; reflexivity. Qed.

(** * Further properties *)

(** ** Recording in the live workspace: the frame files *)

(** The sample folders: the extension of the document is replaced. *)
Example with_suffix_samples :
  with_suffix "/tmp/cat.kra" ".live-frames" = "/tmp/cat.live-frames" /\
  with_suffix "/tmp/cat" ".animation" = "/tmp/cat.animation" /\
  with_suffix "/tmp/.cat" ".animation" = "/tmp/.cat.animation" /\
  with_suffix "/tmp/v1.2/cat" ".animation" = "/tmp/v1.2/cat.animation" /\
  with_suffix "/tmp/cat.tar.gz" ".animation" = "/tmp/cat.tar.animation" /\
  recording_folder model0 = "/tmp/cat.live-frames".
Proof. repeat split; vm_compute; reflexivity. Qed.

(** Different numbers have different decimal representations. *)
Lemma str_of_Z_inj : Inj eq eq str_of_Z.
Proof.
  intros x y H. unfold str_of_Z in H.
  assert (Hn : forall z, Z.to_int z <> Decimal.Pos Decimal.Nil /\
                         Z.to_int z <> Decimal.Neg Decimal.Nil).
  { intros [|p|p]; cbn; split; try discriminate;
      intros [= Hp]; exact (DecimalPos.Unsigned.to_uint_nonnil p Hp). }
  apply DecimalZ.to_int_inj.
  assert (Some (Z.to_int x) = Some (Z.to_int y)) as [= ->]; [|reflexivity].
  rewrite <- (DecimalString.NilZero.isi (Z.to_int x)) by apply Hn.
  rewrite <- (DecimalString.NilZero.isi (Z.to_int y)) by apply Hn.
  now rewrite H.
Qed.

Lemma append_length (s t : string) :
  String.length (s +:+ t) = (String.length s + String.length t)%nat.
Proof. induction s as [|c s IH]; simpl; [reflexivity | now rewrite IH]. Qed.

Lemma append_inj_r (t : string) : Inj eq eq (fun s => s +:+ t).
Proof.
  intros s1. induction s1 as [|c s1 IH]; intros [|c' s2] H.
  - reflexivity.
  - apply (f_equal String.length) in H.
    rewrite (append_length "" t), (append_length (String c' s2) t) in H.
    simpl in H. lia.
  - apply (f_equal String.length) in H.
    rewrite (append_length "" t), (append_length (String c s1) t) in H.
    simpl in H. lia.
  - injection H as -> H. f_equal. now apply IH.
Qed.

(** Frames of different indices go to different files. *)
Lemma live_frame_file_inj (folder : Path) : Inj eq eq (live_frame_file folder).
Proof.
  intros i j H. unfold live_frame_file, path_join in H.
  apply String.app_inj in H. apply (String.app_inj "/") in H.
  apply (String.app_inj "frame-") in H.
  apply append_inj_r in H. now apply str_of_Z_inj.
Qed.

(** [d] consecutive frame files that exist are [d] files among those
    that exist. *)
Lemma frames_bounded (folder : Path) (fs : list Path) (i : Z) (d : nat) :
  (forall j : nat, (j < d)%nat -> live_frame_file folder (i + Z.of_nat j) ∈ fs) ->
  (d <= length fs)%nat.
Proof.
  intros H.
  set (l := (fun j : nat => live_frame_file folder (i + Z.of_nat j)) <$> seq 0 d).
  assert (Hnd : NoDup l).
  { apply NoDup_fmap_2; [|apply NoDup_seq].
    intros a b E. apply live_frame_file_inj in E. lia. }
  assert (Hsub : l ⊆+ fs).
  { apply NoDup_submseteq; [exact Hnd|]. intros x Hx.
    apply list_elem_of_fmap in Hx as (j & -> & Hj).
    apply H. apply elem_of_seq in Hj. lia. }
  apply submseteq_length in Hsub. unfold l in Hsub.
  now rewrite length_fmap, length_seq in Hsub.
Qed.

(** The loop of [_start_recording] ends: it cannot pass more existing
    frame files than there are files.  It stops at the first index
    whose file does not exist. *)
Lemma skip_existing_frames_from (folder : Path) (fuel : nat) :
  forall (d : nat) (i : Z) (m : Model),
    keyframe_index (live m) = i + Z.of_nat d ->
    (forall j : nat, (j < d)%nat -> live_frame_file folder (i + Z.of_nat j) ∈ files m) ->
    (length (files m) < d + fuel)%nat ->
    exists k : nat,
      (d <= k)%nat /\
      skip_existing_frames fuel folder m
      = (Returned tt, set_live (set_keyframe_index (i + Z.of_nat k) (live m)) m) /\
      (live_frame_file folder (i + Z.of_nat k) ∉ files m) /\
      forall j : nat, (j < k)%nat -> live_frame_file folder (i + Z.of_nat j) ∈ files m.
Proof.
  induction fuel as [|fuel IH]; intros d i m Hidx Hseen Hfuel.
  - apply frames_bounded in Hseen. lia.
  - cbn [skip_existing_frames]. mrun. rewrite Hidx.
    split_decide (live_frame_file folder (i + Z.of_nat d) ∈ files m).
    + mrun.
      destruct (IH (S d) i (set_live (set_keyframe_index (keyframe_index (live m) + 1) (live m)) m))
        as (k & Hk & Hrun & Hfree & Hall).
      * cbn. lia.
      * cbn. intros j Hj. destruct (decide (j = d)) as [->|]; [exact Hdec|].
        apply Hseen. lia.
      * cbn. lia.
      * exists k. split; [lia|]. split; [|split; [exact Hfree|exact Hall]].
        rewrite Hrun. destruct m as [? ? ? ? ? ? ? ? [] ? ? ?]. reflexivity.
    + exists d. split; [lia|]. split; [|split; [exact Hdec|exact Hseen]].
      destruct m as [? ? ? ? ? ? ? ? [] ? ? ?]. cbn in *. now subst.
Qed.

(** [_start_recording] on a saved document. *)
Lemma start_recording_run (m : Model) :
  filename (doc m) <> "" ->
  exists k : nat,
    _start_recording m
    = (Returned (Some (recording_folder m)),
       set_log (log m ++ [Mkdir (recording_folder m)])
         (set_live
            (set_keyframe_start (keyframe_index (live m) + Z.of_nat k)
               (set_keyframe_index (keyframe_index (live m) + Z.of_nat k)
                  (set_live_keyframes_folder (Some (recording_folder m)) (live m)))) m)) /\
    (live_frame_file (recording_folder m) (keyframe_index (live m) + Z.of_nat k) ∉ files m) /\
    forall j : nat, (j < k)%nat ->
      live_frame_file (recording_folder m) (keyframe_index (live m) + Z.of_nat j) ∈ files m.
Proof.
  intros Hfile. unfold _start_recording.
  rewrite bind_run. unfold get at 1. cbv beta iota.
  rewrite (bool_decide_eq_true_2 _ Hfile).
  fold (recording_folder m).
  set (m1 := set_live (set_live_keyframes_folder (Some (recording_folder m)) (live m))
               (set_log (log m ++ [Mkdir (recording_folder m)]) m)).
  destruct (skip_existing_frames_from (recording_folder m) (S (length (files m))) 0
              (keyframe_index (live m)) m1) as (k & _ & Hrun & Hfree & Hall).
  - cbn. lia.
  - intros j Hj. lia.
  - cbn. lia.
  - exists k. split; [|split; [exact Hfree|exact Hall]].
    rewrite bind_run. unfold emit, modify at 1. cbv beta iota.
    rewrite bind_run. unfold modify_live at 1, modify at 1. cbv beta iota.
    rewrite bind_run.
    change (skip_existing_frames _ _ _)
      with (skip_existing_frames (S (length (files m))) (recording_folder m) m1).
    rewrite Hrun.
    destruct m as [? ? ? ? ? ? ? ? [] ? ? ?]. reflexivity.
Qed.

(** [_start_recording] on a document without a file name. *)
Lemma start_recording_unsaved (m : Model) :
  filename (doc m) = "" ->
  _start_recording m
  = (Returned None, set_live (set_live_keyframes_folder None (live m)) m).
Proof.
  intros Hfile. unfold _start_recording. mrun. reflexivity.
Qed.

(** ** The setters of the live workspace *)

(** The setters in closed form.  Turning the recording off turns
    the workspace off first (through [toggle]), and the frames are
    imported once. *)
Lemma toggle_record_off_run (fuel : nat) (m : Model) :
  toggle_record (3 + fuel) false m
  = if is_recording (live m)
    then live_import_animation (set_live (stopped (live m)) m)
    else (Returned tt, m).
Proof.
  destruct m as [c d s l p e j o [a rec hr lr lrb kf ks ki kfs] an fs lg].
  destruct a, rec; reflexivity.
Qed.

Lemma toggle_off_run (fuel : nat) (m : Model) :
  toggle (3 + fuel) false m
  = if is_active (live m)
    then if is_recording (live m)
         then live_import_animation (set_live (stopped (live m)) m)
         else (Returned tt, set_live (set_is_active false (live m)) m)
    else (Returned tt, m).
Proof.
  destruct m as [c d s l p e j o [a rec hr lr lrb kf ks ki kfs] an fs lg].
  destruct a, rec; reflexivity.
Qed.

(** [report_error] is the assignment of the error followed by
    [is_active = False]. *)
Lemma report_error_run (fuel : nat) (message : string) (m : Model) :
  report_error (4 + fuel) message m = toggle (3 + fuel) false (set_error message m).
Proof. reflexivity. Qed.

Lemma toggle_on_run (fuel : nat) (m : Model) :
  toggle (1 + fuel) true m
  = if is_active (live m) then (Returned tt, m)
    else generate_live (set_live (set_is_active true (live m)) m).
Proof.
  destruct m as [c d s l p e j o [a rec hr lr lrb kf ks ki kfs] an fs lg].
  destruct a; reflexivity.
Qed.

Lemma generate_live_run (m : Model) :
  generate_live m
  = (Returned tt, set_log (log m ++ [EventloopRun co_generate_live]) (set_error "" m)).
Proof.
  destruct m as [c d s l p e j o lv an fs lg].
  unfold generate_live, clear_error. mrun.
  split_decide (e ≠ ""); mrun; [reflexivity|].
  apply dec_stable in Hdec. now subst.
Qed.

Lemma live_import_animation_run (m : Model) :
  exists m',
    live_import_animation m = (Returned tt, m') /\
    live m' = set_live_keyframes [] (live m) /\
    log m' = log m ++
      [DocumentCall (import_animation (live_keyframes (live m)) (keyframe_start (live m)));
       DocumentCall (setName (next_uid (doc m))
         ("[Rec] " +:+ str_of_Z (keyframe_start (live m)) +:+ "-" +:+
          str_of_Z (keyframe_start (live m) + Z.of_nat (length (live_keyframes (live m))))
          +:+ ": " +:+ model_prompt (config m)))] /\
    error m' = error m /\ files m' = files m /\ jobs m' = jobs m /\
    objects m' = objects m /\ config m' = config m /\ progress m' = progress m /\
    layer m' = layer m /\ animation m' = animation m /\
    filename (doc m') = filename (doc m) /\ extent (doc m') = extent (doc m).
Proof.
  destruct m as [c [ex fn da ct al ls nu] s l p e j o [a rec hr lr lrb kf ks ki kfs] an fs lg].
  unfold live_import_animation, doc_import_animation, doc_new_layer. mrun.
  eexists. split; [reflexivity|]. cbn. rewrite <- app_assoc. repeat split.
Qed.

Lemma toggle_record_on_run (fuel : nat) (m : Model) :
  is_recording (live m) = false ->
  toggle_record (4 + fuel) true m
  = match _start_recording m with
    | (Returned (Some _), m1) =>
        toggle (3 + fuel) true (set_live (set_is_recording true (live m1)) m1)
    | (Returned None, m1) =>
        report_error (3 + fuel)
          "Cannot save recorded frames, document must be saved first!" m1
    | (Raised e, m1) => (Raised e, m1)
    | (Stuck, m1) => (Stuck, m1)
    end.
Proof.
  intros Hrec. cbn [toggle_record Nat.add].
  rewrite bind_run. unfold get at 1. cbv beta iota. rewrite Hrec.
  rewrite (bool_decide_eq_true_2 (false ≠ true)) by discriminate.
  rewrite bind_run. rewrite bind_run.
  destruct (_start_recording m) as [[[folder|]| |] m1]; try reflexivity.
  rewrite (bool_decide_eq_false_2 (Some folder = None)) by discriminate.
  unfold mret at 1, M_ret at 1. cbv beta iota.
  rewrite bind_run. unfold modify_live at 1, modify at 1. cbv beta iota.
  rewrite bind_run.
  destruct (toggle (S (S (S fuel))) true _) as [[[]| |] ?]; reflexivity.
Qed.

Lemma toggle_record_saved_run (fuel : nat) (m : Model) :
  filename (doc m) <> "" ->
  is_recording (live m) = false ->
  exists k : nat,
    toggle_record (4 + fuel) true m = (Returned tt, recording_started k m) /\
    (live_frame_file (recording_folder m) (keyframe_index (live m) + Z.of_nat k)
     ∉ files m) /\
    forall j : nat, (j < k)%nat ->
      live_frame_file (recording_folder m) (keyframe_index (live m) + Z.of_nat j)
      ∈ files m.
Proof.
  intros Hfile Hrec.
  destruct (start_recording_run m Hfile) as (k & Hstart & Hfree & Hall).
  exists k. split; [|split; [exact Hfree|exact Hall]].
  rewrite (toggle_record_on_run fuel m Hrec), Hstart.
  change (3 + fuel)%nat with (1 + (2 + fuel))%nat. rewrite toggle_on_run.
  destruct m as [c d s l p e j o [a rec hr lr lrb kf ks ki kfs] an fs lg].
  cbn in *. destruct a; [reflexivity|].
  rewrite generate_live_run. reflexivity.
Qed.

Lemma toggle_record_unsaved_run (fuel : nat) (m : Model) :
  filename (doc m) = "" ->
  is_recording (live m) = false ->
  toggle_record (4 + fuel) true m
  = (Returned tt,
     set_live (set_is_active false (set_live_keyframes_folder None (live m)))
       (set_error "Cannot save recorded frames, document must be saved first!" m)).
Proof.
  intros Hfile Hrec.
  rewrite (toggle_record_on_run fuel m Hrec), (start_recording_unsaved m Hfile).
  destruct m as [c d s l p e j o [a rec hr lr lrb kf ks ki kfs] an fs lg].
  cbn in Hrec. subst rec. destruct a; reflexivity.
Qed.

(** X1.  [toggle_record(True)] on a saved document, from a workspace
    that does not record: the call returns with the workspace
    recording and active, the folder set to the document's
    [.live-frames] folder, and [_keyframe_start] and [_keyframe_index]
    both at the first index, from the current one on, whose frame
    file does not exist yet; no file is written, and a live
    generation is handed to the event loop only if the workspace was
    not active before. *)
Theorem recording_starts_at_free_index (fuel : nat) (m : Model) :
  filename (doc m) <> "" ->
  is_recording (live m) = false ->
  exists (m' : Model) (k : nat),
    toggle_record (4 + fuel) true m = (Returned tt, m') /\
    is_recording (live m') = true /\ is_active (live m') = true /\
    live_keyframes_folder (live m') = Some (recording_folder m) /\
    keyframe_index (live m') = keyframe_index (live m) + Z.of_nat k /\
    keyframe_start (live m') = keyframe_index (live m') /\
    (live_frame_file (recording_folder m) (keyframe_index (live m')) ∉ files m') /\
    (forall j : nat, (j < k)%nat ->
       live_frame_file (recording_folder m) (keyframe_index (live m) + Z.of_nat j)
       ∈ files m) /\
    files m' = files m /\ live_keyframes (live m') = live_keyframes (live m) /\
    log m' = log m ++ Mkdir (recording_folder m) ::
               (if is_active (live m) then [] else [EventloopRun co_generate_live]).
Proof.
  intros Hfile Hrec.
  destruct (toggle_record_saved_run fuel m Hfile Hrec) as (k & Hrun & Hfree & Hall).
  exists (recording_started k m), k. split; [exact Hrun|].
  destruct m as [c d s l p e j o [a rec hr lr lrb kf ks ki kfs] an fs lg].
  unfold recording_started. cbn in *.
  destruct a; cbn; rewrite <- ?app_assoc; repeat split; auto.
Qed.

Lemma recording_starts_at_free_index_witness :
  exists (m' : Model) (k : nat),
    toggle_record 4 true model0 = (Returned tt, m') /\
    is_recording (live m') = true /\ is_active (live m') = true /\
    live_keyframes_folder (live m') = Some (recording_folder model0) /\
    keyframe_index (live m') = keyframe_index (live model0) + Z.of_nat k /\
    keyframe_start (live m') = keyframe_index (live m') /\
    (live_frame_file (recording_folder model0) (keyframe_index (live m')) ∉ files m') /\
    (forall j : nat, (j < k)%nat ->
       live_frame_file (recording_folder model0) (keyframe_index (live model0) + Z.of_nat j)
       ∈ files model0) /\
    files m' = files model0 /\ live_keyframes (live m') = live_keyframes (live model0) /\
    log m' = log model0 ++ Mkdir (recording_folder model0) ::
               (if is_active (live model0) then [] else [EventloopRun co_generate_live]).
Proof.
  apply (recording_starts_at_free_index 0 model0).
  - discriminate.
  - reflexivity.
Defined.

(** X2.  [toggle_record(True)] on a document that was never saved:
    the error "Cannot save recorded frames, document must be saved
    first!" is reported, the workspace neither records nor stays
    active, it has no folder, and nothing is written, logged or
    queued. *)
Theorem recording_refused_unsaved (fuel : nat) (m : Model) :
  filename (doc m) = "" ->
  is_recording (live m) = false ->
  exists m',
    toggle_record (4 + fuel) true m = (Returned tt, m') /\
    error m' = "Cannot save recorded frames, document must be saved first!" /\
    is_recording (live m') = false /\ is_active (live m') = false /\
    live_keyframes_folder (live m') = None /\
    files m' = files m /\ log m' = log m /\ doc m' = doc m /\
    jobs m' = jobs m /\ objects m' = objects m.
Proof.
  intros Hfile Hrec.
  rewrite (toggle_record_unsaved_run fuel m Hfile Hrec).
  eexists. split; [reflexivity|].
  destruct m as [c d s l p e j o [a rec hr lr lrb kf ks ki kfs] an fs lg].
  cbn in *. repeat split. exact Hrec.
Qed.

(** [toggle] returns and keeps the invariant; afterwards the
    workspace is active exactly if asked to. *)
Lemma toggle_keeps_live_wf (fuel : nat) (active : bool) (m : Model) :
  live_wf (live m) ->
  exists m',
    toggle (3 + fuel) active m = (Returned tt, m') /\ live_wf (live m') /\
    is_active (live m') = active /\ objects m' = objects m /\ jobs m' = jobs m.
Proof.
  intros Hwf. destruct active.
  - change (3 + fuel)%nat with (1 + (2 + fuel))%nat. rewrite toggle_on_run.
    destruct (is_active (live m)) eqn:Ha; [eauto 6|].
    rewrite generate_live_run. eexists. split; [reflexivity|].
    destruct m as [c d s l p e j o [a rec hr lr lrb kf ks ki kfs] an fs lg].
    unfold live_wf in *. cbn in *.
    split; [|repeat split].
    intros ->. destruct (Hwf eq_refl) as [? ?]. auto.
  - rewrite toggle_off_run.
    destruct (is_active (live m)) eqn:Ha; [|eauto 6].
    destruct (is_recording (live m)) eqn:Hr.
    + destruct (live_import_animation_run (set_live (stopped (live m)) m))
        as (m' & -> & Hl & _ & _ & _ & Hj & Ho & _).
      exists m'. split; [reflexivity|]. rewrite Hj, Ho.
      split; [|repeat split; rewrite Hl; reflexivity].
      rewrite Hl. intros H. discriminate H.
    + eexists. split; [reflexivity|].
      destruct m as [c d s l p e j o [a rec hr lr lrb kf ks ki kfs] an fs lg].
      cbn in *. subst. split; [|repeat split]. intros H. discriminate H.
Qed.



(** [set_result]: the result is stored, and saved as the next frame
    when the workspace records. *)
Lemma live_set_result_run (image : Image) (b : Bounds) (m : Model) :
  (is_recording (live m) = true -> is_Some (live_keyframes_folder (live m))) ->
  exists m',
    live_set_result image b m = (Returned tt, m') /\
    is_active (live m') = is_active (live m) /\
    is_recording (live m') = is_recording (live m) /\
    live_keyframes_folder (live m') = live_keyframes_folder (live m) /\
    keyframe_start (live m') = keyframe_start (live m) /\
    has_result (live m') = true /\
    live_result (live m') = Some image /\
    live_result_bounds (live m') = Some b /\
    doc m' = doc m /\ config m' = config m /\ error m' = error m /\
    jobs m' = jobs m /\ objects m' = objects m /\ animation m' = animation m /\
    layer m' = layer m /\ progress m' = progress m /\
    (is_recording (live m) = false ->
       keyframe_index (live m') = keyframe_index (live m) /\
       live_keyframes (live m') = live_keyframes (live m) /\
       files m' = files m /\ log m' = log m) /\
    (forall folder, is_recording (live m) = true ->
       live_keyframes_folder (live m) = Some folder ->
       let file := live_frame_file folder (keyframe_index (live m)) in
       keyframe_index (live m') = keyframe_index (live m) + 1 /\
       live_keyframes (live m') = live_keyframes (live m) ++ [file] /\
       files m' = files m ++ [file] /\
       log m' = log m ++ [ImageSave (recorded_image m image b) file]).
Proof.
  intros Hfolder.
  destruct m as [c d s l p e j o [a rec hr lr lrb kf ks ki kfs] an fs lg].
  cbn in Hfolder. unfold live_set_result, _save_frame, image_save, recorded_image.
  destruct rec.
  - destruct (Hfolder eq_refl) as [folder ->]. mrun.
    eexists. split; [reflexivity|]. cbn.
    repeat (split; [reflexivity|]). split; [discriminate|].
    intros folder' _ [= <-]. repeat split.
  - mrun. eexists. split; [reflexivity|]. cbn.
    repeat (split; [reflexivity|]). split; [repeat split|].
    intros folder' H. discriminate H.
Qed.

(** X4.  The slot of the live workspace for a finished job: from a
    workspace that records only while active and with a folder, it
    returns (the assertion of [_save_frame] does not fail) and leaves
    such a workspace; for a [live_preview] job the workspace stays
    active exactly if it was active and the document is the active
    one, and for a job of another kind nothing changes. *)
Theorem live_handler_keeps_invariant (fuel r : nat) (job : Job) (m : Model) :
  objects m !! r = Some job ->
  live_wf (live m) ->
  exists m',
    live_handle_job_finished (3 + fuel) r m = (Returned tt, m') /\
    live_wf (live m') /\
    (kind job = live_preview ->
       is_active (live m') = is_active (live m) && doc_is_active (doc m)) /\
    (kind job <> live_preview -> m' = m).
Proof.
  intros Hobj Hwf. unfold live_handle_job_finished.
  rewrite bind_run. unfold deref at 1. rewrite Hobj.
  split_decide (kind job = live_preview);
    [|exists m; split; [reflexivity|]; split; [exact Hwf|];
      split; [intros H; contradiction|reflexivity]].
  rewrite bind_run.
  assert (Hres : exists m1,
    match results job with
    | [] => mret ()
    | image :: _ => live_set_result image (bounds (params job))
    end m = (Returned tt, m1) /\
    is_active (live m1) = is_active (live m) /\
    is_recording (live m1) = is_recording (live m) /\
    live_keyframes_folder (live m1) = live_keyframes_folder (live m) /\
    doc m1 = doc m).
  { destruct (results job) as [|image rs].
    - exists m. repeat split.
    - destruct (live_set_result_run image (bounds (params job)) m)
        as (m1 & Hrun & Ha & Hr & Hf & _ & _ & _ & _ & Hd & _).
      + intros H. apply Hwf. exact H.
      + exists m1. repeat split; assumption. }
  destruct Hres as (m1 & -> & Ha & Hr & Hf & Hd).
  rewrite bind_run. unfold get at 1. cbv beta iota.
  rewrite bind_run.
  destruct (toggle_keeps_live_wf fuel (is_active (live m1) && doc_is_active (doc m1)) m1)
    as (m2 & -> & Hwf2 & Ha2 & _).
  { unfold live_wf. rewrite Hr, Ha, Hf. exact Hwf. }
  rewrite bind_run. unfold get at 1. cbv beta iota.
  rewrite Ha, Hd in Ha2. rewrite Ha2.
  destruct (is_active (live m) && doc_is_active (doc m)) eqn:Hb.
  - rewrite generate_live_run. eexists. split; [reflexivity|].
    destruct m2 as [c d s l p e j o lv an fs lg]. cbn in *.
    split; [exact Hwf2|]. split; [intros _; congruence|]. intros H. contradiction.
  - exists m2. split; [reflexivity|]. split; [exact Hwf2|].
    split; [intros _; congruence|]. intros H. contradiction.
Qed.

Lemma live_handler_keeps_invariant_witness :
  exists m',
    live_handle_job_finished 3 0 (live_model [Img 1]) = (Returned tt, m') /\
    live_wf (live m') /\
    (kind (job0 live_preview [Img 1]) = live_preview ->
       is_active (live m')
       = is_active (live (live_model [Img 1])) && doc_is_active (doc (live_model [Img 1]))) /\
    (kind (job0 live_preview [Img 1]) <> live_preview -> m' = live_model [Img 1]).
Proof.
  apply (live_handler_keeps_invariant 0 0 (job0 live_preview [Img 1]) (live_model [Img 1])).
  - reflexivity.
  - intros H. discriminate H.
Defined.

(** X5.  Stopping a recording, by [is_active = False] or by
    [is_recording = False]: both end in the same model; the recorded
    frames are imported once, at [_keyframe_start], the new layer is
    named "[Rec] start-end: prompt", both flags are off and the list
    of recorded frames is empty. *)
Theorem stop_recording_imports_frames (fuel : nat) (m : Model) :
  is_recording (live m) = true ->
  is_active (live m) = true ->
  exists m',
    toggle (3 + fuel) false m = (Returned tt, m') /\
    toggle_record (3 + fuel) false m = (Returned tt, m') /\
    live m' = set_live_keyframes [] (stopped (live m)) /\
    log m' = log m ++
      [DocumentCall (import_animation (live_keyframes (live m)) (keyframe_start (live m)));
       DocumentCall (setName (next_uid (doc m))
         ("[Rec] " +:+ str_of_Z (keyframe_start (live m)) +:+ "-" +:+
          str_of_Z (keyframe_start (live m) + Z.of_nat (length (live_keyframes (live m))))
          +:+ ": " +:+ model_prompt (config m)))] /\
    files m' = files m /\ error m' = error m.
Proof.
  intros Hrec Hact.
  rewrite toggle_off_run, toggle_record_off_run, Hrec, Hact.
  destruct (live_import_animation_run (set_live (stopped (live m)) m))
    as (m' & -> & Hl & Hlog & He & Hf & _).
  exists m'. split; [reflexivity|]. split; [reflexivity|].
  rewrite Hl, Hlog, He, Hf.
  destruct m as [c d s l p e j o [a rec hr lr lrb kf ks ki kfs] an fs lg].
  repeat split.
Qed.

Lemma stop_recording_imports_frames_witness :
  exists m',
    toggle 3 false (recording_started 0 model0) = (Returned tt, m') /\
    toggle_record 3 false (recording_started 0 model0) = (Returned tt, m') /\
    live m' = set_live_keyframes [] (stopped (live (recording_started 0 model0))) /\
    log m' = log (recording_started 0 model0) ++
      [DocumentCall (import_animation (live_keyframes (live (recording_started 0 model0)))
                       (keyframe_start (live (recording_started 0 model0))));
       DocumentCall (setName (next_uid (doc (recording_started 0 model0)))
         ("[Rec] " +:+ str_of_Z (keyframe_start (live (recording_started 0 model0))) +:+ "-" +:+
          str_of_Z (keyframe_start (live (recording_started 0 model0))
                    + Z.of_nat (length (live_keyframes (live (recording_started 0 model0)))))
          +:+ ": " +:+ model_prompt (config (recording_started 0 model0))))] /\
    files m' = files (recording_started 0 model0) /\
    error m' = error (recording_started 0 model0).
Proof.
  apply (stop_recording_imports_frames 0 (recording_started 0 model0)); reflexivity.
Defined.

Lemma recorded_files_S (folder : Path) (i : Z) (n : nat) :
  recorded_files folder i (S n)
  = live_frame_file folder i :: recorded_files folder (i + 1) n.
Proof.
  unfold recorded_files. cbn [seq fmap list_fmap]. f_equal.
  - f_equal. lia.
  - rewrite <- fmap_S_seq, <- list_fmap_compose.
    apply list_fmap_ext. intros _ j _. cbn. f_equal. lia.
Qed.

(** Results that arrive while the workspace records go to
    consecutive frame files. *)
Lemma set_result_each_recording (folder : Path) (rs : list (Image * Bounds)) :
  forall m : Model,
    is_recording (live m) = true ->
    live_keyframes_folder (live m) = Some folder ->
    exists m',
      set_result_each rs m = (Returned tt, m') /\
      is_active (live m') = is_active (live m) /\
      is_recording (live m') = true /\
      live_keyframes_folder (live m') = Some folder /\
      keyframe_start (live m') = keyframe_start (live m) /\
      keyframe_index (live m') = keyframe_index (live m) + Z.of_nat (length rs) /\
      live_keyframes (live m')
      = live_keyframes (live m) ++ recorded_files folder (keyframe_index (live m)) (length rs) /\
      files m' = files m ++ recorded_files folder (keyframe_index (live m)) (length rs) /\
      imported m' = imported m /\
      doc m' = doc m /\ config m' = config m /\ error m' = error m.
Proof.
  induction rs as [|[image b] rs IH]; intros m Hrec Hfolder.
  - exists m. split; [reflexivity|]. cbn. rewrite Z.add_0_r, !app_nil_r.
    repeat split; assumption.
  - cbn [set_result_each]. rewrite bind_run.
    destruct (live_set_result_run image b m)
      as (m1 & -> & Ha & Hr & Hf & Hs & _ & _ & _ & Hd & Hc & He & _ & _ & _ & _ & _ & _ & Hrecording).
    { rewrite Hfolder. eauto. }
    destruct (Hrecording folder Hrec Hfolder) as (Hi & Hk & Hfs & Hlog).
    destruct (IH m1) as (m' & Hrun & Ha' & Hr' & Hf' & Hs' & Hi' & Hk' & Hfs' & Himp & Hd' & Hc' & He').
    { congruence. }
    { congruence. }
    exists m'. split; [exact Hrun|].
    cbn [length].
    rewrite recorded_files_S, Ha', Hs', Hi', Hk', Hfs', Himp, Hd', Hc', He'.
    rewrite Hi, Hk, Hfs, (imported_app m m1 _ Hlog).
    rewrite <- !app_assoc. cbn.
    rewrite app_nil_r. repeat split; try assumption; try lia.
Qed.

(** Events that are not an import leave the list of imports as it
    is. *)
Lemma imported_other_events (m m' : Model) (evs : list Event) :
  log m' = log m ++ evs ->
  Forall (fun e => forall f st, e <> DocumentCall (import_animation f st)) evs ->
  imported m' = imported m.
Proof.
  intros Hlog Hevs. rewrite (imported_app m m' evs Hlog).
  rewrite <- (app_nil_r (imported m)) at 2. f_equal. clear Hlog.
  induction Hevs as [|e0 evs' He0 _ IH]; [reflexivity|].
  cbn. destruct e0 as [| | |[]| | | |]; try exact IH.
  exfalso. eapply He0. reflexivity.
Qed.

Lemma recording_started_live (k : nat) (m : Model) :
  is_recording (live (recording_started k m)) = true /\
  live_keyframes_folder (live (recording_started k m)) = Some (recording_folder m) /\
  keyframe_start (live (recording_started k m)) = keyframe_index (live m) + Z.of_nat k /\
  keyframe_index (live (recording_started k m)) = keyframe_index (live m) + Z.of_nat k /\
  live_keyframes (live (recording_started k m)) = live_keyframes (live m) /\
  files (recording_started k m) = files m /\
  imported (recording_started k m) = imported m.
Proof.
  assert (Himp : imported (recording_started k m) = imported m).
  { apply (imported_other_events m (recording_started k m)
             (Mkdir (recording_folder m) ::
              if is_active (live m) then [] else [EventloopRun co_generate_live])).
    - unfold recording_started. destruct (is_active (live m)); cbn;
        rewrite <- ?app_assoc; reflexivity.
    - destruct (is_active (live m)); repeat constructor; discriminate. }
  revert Himp. unfold recording_started.
  destruct m as [c d s l p e j o [a rec hr lr lrb kf ks ki kfs] an fs lg].
  cbn. destruct a; cbn; intros Himp; repeat split; exact Himp.
Qed.

(** X6.  A recording session on a saved document: start recording,
    receive results, stop recording.  The frames go to the files
    numbered from the first free index on, one per result and in the
    order of the results, and stopping imports exactly these files
    (after any frames left from before) at that index. *)
Theorem recording_session_imports_frames (fuel : nat) (rs : list (Image * Bounds))
  (m : Model) :
  filename (doc m) <> "" ->
  is_recording (live m) = false ->
  exists (k : nat) (m' : Model),
    (toggle_record (4 + fuel) true;;
     set_result_each rs;;
     toggle_record (4 + fuel) false) m = (Returned tt, m') /\
    let start := keyframe_index (live m) + Z.of_nat k in
    let frames := recorded_files (recording_folder m) start (length rs) in
    (live_frame_file (recording_folder m) start ∉ files m) /\
    (forall j : nat, (j < k)%nat ->
       live_frame_file (recording_folder m) (keyframe_index (live m) + Z.of_nat j)
       ∈ files m) /\
    imported m' = imported m ++ [(live_keyframes (live m) ++ frames, start)] /\
    files m' = files m ++ frames /\
    is_recording (live m') = false /\ is_active (live m') = false /\
    live_keyframes (live m') = [] /\
    keyframe_index (live m') = start + Z.of_nat (length rs).
Proof.
  intros Hfile Hrec.
  destruct (toggle_record_saved_run fuel m Hfile Hrec) as (k & Hstart & Hfree & Hall).
  rewrite bind_run, Hstart.
  set (m1 := recording_started k m).
  destruct (recording_started_live k m) as (Hr1 & Hf1 & Hs1 & Hi1 & Hk1 & Hfs1 & Himp1).
  fold m1 in Hr1, Hf1, Hs1, Hi1, Hk1, Hfs1, Himp1.
  destruct (set_result_each_recording (recording_folder m) rs m1 Hr1 Hf1)
    as (m2 & Hrun2 & Ha2 & Hr2 & Hf2 & Hs2 & Hi2 & Hk2 & Hfs2 & Himp2 & _).
  rewrite bind_run, Hrun2.
  change (4 + fuel)%nat with (3 + (1 + fuel))%nat.
  rewrite toggle_record_off_run, Hr2.
  destruct (live_import_animation_run (set_live (stopped (live m2)) m2))
    as (m3 & -> & Hl3 & Hlog3 & _ & Hfs3 & _).
  exists k, m3. split; [reflexivity|]. cbv zeta.
  split; [exact Hfree|]. split; [exact Hall|].
  rewrite (imported_app (set_live (stopped (live m2)) m2) m3 _ Hlog3), Hl3, Hfs3.
  change (imported (set_live (stopped (live m2)) m2)) with (imported m2).
  change (files (set_live (stopped (live m2)) m2)) with (files m2).
  rewrite Himp2, Himp1, Hfs2, Hfs1, Hi1.
  destruct m2 as [c d s l p e j o [a rec hr lr lrb kf ks ki kfs] an fs lg].
  cbn in *. subst. rewrite Hs1, Hk1.
  repeat split; rewrite ?Hi1; reflexivity.
Qed.

Lemma recording_session_imports_frames_witness :
  exists (k : nat) (m' : Model),
    (toggle_record 4 true;;
     set_result_each [(Img 1, canvas); (Img 2, canvas)];;
     toggle_record 4 false) model0 = (Returned tt, m') /\
    let start := keyframe_index (live model0) + Z.of_nat k in
    let frames := recorded_files (recording_folder model0) start 2 in
    (live_frame_file (recording_folder model0) start ∉ files model0) /\
    (forall j : nat, (j < k)%nat ->
       live_frame_file (recording_folder model0)
         (keyframe_index (live model0) + Z.of_nat j) ∈ files model0) /\
    imported m' = imported model0 ++ [(live_keyframes (live model0) ++ frames, start)] /\
    files m' = files model0 ++ frames /\
    is_recording (live m') = false /\ is_active (live m') = false /\
    live_keyframes (live m') = [] /\
    keyframe_index (live m') = start + 2.
Proof.
  apply (recording_session_imports_frames 0 [(Img 1, canvas); (Img 2, canvas)] model0).
  - discriminate.
  - reflexivity.
Defined.

(** Two frames are on disk already: the recording goes on at index 2. *)
Example recording_session_example :
  imported
    ((toggle_record 4 true;;
      set_result_each [(Img 1, canvas); (Img 2, mkBounds 0 0 64 64)];;
      toggle_record 4 false)
       (set_files ["/tmp/cat.live-frames/frame-0.webp";
                   "/tmp/cat.live-frames/frame-1.webp"] model0)).2
  = [(["/tmp/cat.live-frames/frame-2.webp";
       "/tmp/cat.live-frames/frame-3.webp"], 2)].
Proof. vm_compute. reflexivity. Qed.

Lemma recording_refused_unsaved_witness :
  exists m',
    toggle_record 4 true unsaved_model = (Returned tt, m') /\
    error m' = "Cannot save recorded frames, document must be saved first!" /\
    is_recording (live m') = false /\ is_active (live m') = false /\
    live_keyframes_folder (live m') = None /\
    files m' = files unsaved_model /\ log m' = log unsaved_model /\
    doc m' = doc unsaved_model /\
    jobs m' = jobs unsaved_model /\ objects m' = objects unsaved_model.
Proof.
  apply (recording_refused_unsaved 0 unsaved_model); reflexivity.
Defined.

(** ** Messages other than [finished] *)

(** What [report_error] does to the model. *)
Lemma report_error_effects (fuel : nat) (message : string) (m : Model) :
  exists m',
    report_error (4 + fuel) message m = (Returned tt, m') /\
    error m' = message /\
    is_active (live m') = false /\
    jobs m' = jobs m /\ objects m' = objects m /\ animation m' = animation m /\
    files m' = files m /\ progress m' = progress m /\ layer m' = layer m /\
    config m' = config m /\
    exists evs, log m' = log m ++ evs /\ Forall stop_event evs.
Proof.
  rewrite report_error_run, toggle_off_run.
  destruct m as [c d s l p e j o [a rec hr lr lrb kf ks ki kfs] an fs lg].
  cbn [live set_error is_active is_recording].
  destruct a; [destruct rec|].
  - match goal with |- context [live_import_animation ?x] =>
      destruct (live_import_animation_run x)
        as (m' & -> & Hl & Hlog & He & Hf & Hj & Ho & Hc & Hp & Hly & Han & _)
    end.
    exists m'. split; [reflexivity|]. rewrite Hl, He, Hf, Hj, Ho, Hc, Hp, Hly, Han.
    repeat (split; [reflexivity|]).
    eexists. split; [exact Hlog|]. repeat constructor.
  - eexists. split; [reflexivity|]. cbn. repeat (split; [reflexivity|]).
    exists []. split; [now rewrite app_nil_r|constructor].
  - eexists. split; [reflexivity|]. cbn. repeat (split; [reflexivity|]).
    exists []. split; [now rewrite app_nil_r|constructor].
Qed.

Lemma notify_started_run (r : nat) (job : Job) (m : Model) :
  objects m !! r = Some job ->
  notify_started r m
  = (Returned tt,
     set_objects (if bool_decide (state job = queued)
                  then alter (with_state running) r (objects m) else objects m)
       (set_log (log m ++ [JobsCall (q_notify_started r)]) m)).
Proof.
  intros Hobj. unfold notify_started. mrun. rewrite Hobj. cbn.
  destruct m as [c d s l p e j o lv an fs lg].
  destruct (bool_decide (state job = queued)); reflexivity.
Qed.

Lemma notify_cancelled_run (r : nat) (job : Job) (m : Model) :
  objects m !! r = Some job ->
  notify_cancelled r m
  = (Returned tt,
     set_objects (if is_executing job
                  then alter (with_state cancelled) r (objects m) else objects m)
       (set_log (log m ++ [JobsCall (q_notify_cancelled r)]) m)).
Proof.
  intros Hobj. unfold notify_cancelled. mrun. rewrite Hobj. cbn.
  destruct m as [c d s l p e j o lv an fs lg].
  destruct (is_executing job); reflexivity.
Qed.

Lemma lookup_alter_if (b : bool) (f : Job -> Job) (r : nat) (job : Job)
  (o : gmap nat Job) :
  o !! r = Some job ->
  (if b then alter f r o else o) !! r = Some (if b then f job else job) /\
  forall r', r' <> r -> (if b then alter f r o else o) !! r' = o !! r'.
Proof.
  intros Hobj. destruct b.
  - rewrite lookup_alter_eq, Hobj. split; [reflexivity|].
    intros r' Hr. now rewrite lookup_alter_ne.
  - split; [exact Hobj|reflexivity].
Qed.

(** X7.  A [progress] message for a job of the queue: the handler
    returns, the progress value is the one of the message whatever
    the state of the job, a queued job becomes running and a job in
    another state keeps it, and nothing else changes but the log. *)
Theorem progress_message_sets_progress (fuel : nat) (message : ClientMessage)
  (m : Model) (r : nat) (job : Job) :
  event message = ev_progress ->
  jobs_find m (msg_job_id message) = Some r ->
  objects m !! r = Some job ->
  exists m',
    handle_message fuel message m = (Returned tt, m') /\
    progress m' = msg_progress message /\
    objects m' !! r
    = Some (if bool_decide (state job = queued) then with_state running job else job) /\
    (forall r', r' <> r -> objects m' !! r' = objects m !! r') /\
    jobs m' = jobs m /\ error m' = error m /\ live m' = live m /\
    animation m' = animation m /\ doc m' = doc m /\ layer m' = layer m /\
    log m' = log m ++ [JobsCall (q_notify_started r)].
Proof.
  intros Hev Hfind Hobj. unfold handle_message.
  rewrite bind_run. unfold get at 1. cbv beta iota. rewrite Hfind, Hev.
  rewrite bind_run, (notify_started_run r job m Hobj).
  eexists. split; [reflexivity|].
  destruct (lookup_alter_if (bool_decide (state job = queued)) (with_state running)
              r job (objects m) Hobj) as [Hr Hother].
  destruct m as [c d s l p e j o lv an fs lg]. cbn in *.
  repeat split; assumption.
Qed.

Lemma progress_message_sets_progress_witness :
  exists m',
    handle_message 0 (mkMessage ev_progress "job-0" 0.5%float [] None "")
      (with_job (mkJob (Some "job-0") diffusion finished
                   (mkParams "a cat" "" canvas 1%float 7 (0, 0, 0) "") [Img 1] None)
         idle_model)
    = (Returned tt, m') /\
    progress m' = 0.5%float /\
    (state <$> objects m' !! 0%nat) = Some finished.
Proof.
  destruct (progress_message_sets_progress 0
              (mkMessage ev_progress "job-0" 0.5%float [] None "")
              (with_job (mkJob (Some "job-0") diffusion finished
                           (mkParams "a cat" "" canvas 1%float 7 (0, 0, 0) "") [Img 1] None)
                 idle_model)
              0%nat
              (mkJob (Some "job-0") diffusion finished
                 (mkParams "a cat" "" canvas 1%float 7 (0, 0, 0) "") [Img 1] None)
              eq_refl eq_refl eq_refl)
    as (m' & Hrun & Hp & Hjob & _).
  exists m'. split; [exact Hrun|]. split; [exact Hp|].
  rewrite Hjob. reflexivity.
Defined.

(** X8.  An [interrupted] message for a job of the queue: the
    handler returns, the progress value is 0, a queued or running job
    becomes cancelled and stays in the queue, and the error field and
    the workspaces are as before. *)
Theorem interrupted_message_cancels (fuel : nat) (message : ClientMessage)
  (m : Model) (r : nat) (job : Job) :
  event message = ev_interrupted ->
  jobs_find m (msg_job_id message) = Some r ->
  objects m !! r = Some job ->
  exists m',
    handle_message fuel message m = (Returned tt, m') /\
    progress m' = 0%float /\
    objects m' !! r
    = Some (if is_executing job then with_state cancelled job else job) /\
    (forall r', r' <> r -> objects m' !! r' = objects m !! r') /\
    jobs m' = jobs m /\ error m' = error m /\ live m' = live m /\
    animation m' = animation m /\ doc m' = doc m /\ layer m' = layer m /\
    log m' = log m ++ [JobsCall (q_notify_cancelled r)].
Proof.
  intros Hev Hfind Hobj. unfold handle_message.
  rewrite bind_run. unfold get at 1. cbv beta iota. rewrite Hfind, Hev.
  rewrite bind_run, (notify_cancelled_run r job m Hobj).
  eexists. split; [reflexivity|].
  destruct (lookup_alter_if (is_executing job) (with_state cancelled)
              r job (objects m) Hobj) as [Hr Hother].
  destruct m as [c d s l p e j o lv an fs lg]. cbn in *.
  repeat split; assumption.
Qed.

Lemma interrupted_message_cancels_witness :
  exists m',
    handle_message 0 (mkMessage ev_interrupted "job-0" 0%float [] None "") diffusion_model
    = (Returned tt, m') /\
    progress m' = 0%float /\
    (state <$> objects m' !! 0%nat) = Some cancelled /\
    entries (jobs m') = [0%nat].
Proof.
  destruct (interrupted_message_cancels 0
              (mkMessage ev_interrupted "job-0" 0%float [] None "") diffusion_model
              0%nat (job0 diffusion []) eq_refl eq_refl eq_refl)
    as (m' & Hrun & Hp & Hjob & _ & Hjobs & _).
  exists m'. split; [exact Hrun|]. split; [exact Hp|].
  rewrite Hjob, Hjobs. split; reflexivity.
Defined.

(** X9.  An [error] message for a job of the queue: the handler
    returns with the error field "Server execution error: " followed
    by the error of the message and with the live workspace
    inactive; a queued or running job becomes cancelled and stays in
    the queue, and the progress value is as before. *)
Theorem error_message_reports (fuel : nat) (message : ClientMessage)
  (m : Model) (r : nat) (job : Job) :
  event message = ev_error ->
  jobs_find m (msg_job_id message) = Some r ->
  objects m !! r = Some job ->
  exists m',
    handle_message (4 + fuel) message m = (Returned tt, m') /\
    error m' = "Server execution error: " +:+ msg_error message /\
    is_active (live m') = false /\
    objects m' !! r
    = Some (if is_executing job then with_state cancelled job else job) /\
    (forall r', r' <> r -> objects m' !! r' = objects m !! r') /\
    jobs m' = jobs m /\ progress m' = progress m /\ layer m' = layer m /\
    animation m' = animation m /\ files m' = files m /\
    exists evs,
      log m' = log m ++ JobsCall (q_notify_cancelled r) :: evs /\
      Forall stop_event evs.
Proof.
  intros Hev Hfind Hobj. unfold handle_message.
  rewrite bind_run. unfold get at 1. cbv beta iota. rewrite Hfind, Hev.
  rewrite bind_run, (notify_cancelled_run r job m Hobj).
  match goal with |- context [report_error _ ?msg ?x] =>
    destruct (report_error_effects fuel msg x)
      as (m' & -> & He & Ha & Hj & Ho & Han & Hf & Hp & Hl & _ & evs & Hlog & Hevs)
  end.
  exists m'. split; [reflexivity|].
  destruct (lookup_alter_if (is_executing job) (with_state cancelled)
              r job (objects m) Hobj) as [Hr Hother].
  rewrite He, Ha, Hj, Ho, Han, Hf, Hp, Hl, Hlog.
  destruct m as [c d s l p e j o lv an fs lg]. cbn in *.
  repeat (split; [first [reflexivity|assumption]|]).
  exists evs. rewrite <- app_assoc. split; [reflexivity|exact Hevs].
Qed.

Lemma error_message_reports_witness :
  exists m',
    handle_message 4 (mkMessage ev_error "job-0" 0%float [] None "out of memory")
      (live_model [])
    = (Returned tt, m') /\
    error m' = "Server execution error: out of memory" /\
    is_active (live m') = false /\
    (state <$> objects m' !! 0%nat) = Some cancelled.
Proof.
  destruct (error_message_reports 0
              (mkMessage ev_error "job-0" 0%float [] None "out of memory")
              (live_model []) 0%nat (job0 live_preview []) eq_refl eq_refl eq_refl)
    as (m' & Hrun & He & Ha & Hjob & _).
  exists m'. split; [exact Hrun|]. split; [exact He|]. split; [exact Ha|].
  rewrite Hjob. reflexivity.
Defined.

(** ** Single frames of an animation *)

Lemma stop_event_no_content (evs : list Event) :
  Forall stop_event evs ->
  forall l i b, DocumentCall (set_layer_content l i b) ∉ evs.
Proof.
  intros Hevs l i b Hin.
  rewrite Forall_forall in Hevs. apply Hevs in Hin. exact Hin.
Qed.

(** X10.  The slot of the animation workspace for an
    [animation_frame] job with a result: if the frame of the job is
    not the current time of the document, or the target layer is not
    in the document, the matching error is reported and no layer
    content is set; otherwise the only effect is one
    [set_layer_content] on the target layer, with the first result
    and the bounds of the job. *)
Theorem animation_frame_applied_or_reported (fuel r : nat) (job : Job) (m : Model)
  (image : Image) (rest : list Image) :
  objects m !! r = Some job ->
  kind job = animation_frame ->
  results job = image :: rest ->
  exists m',
    animation_handle_job_finished (4 + fuel) r m = (Returned tt, m') /\
    jobs m' = jobs m /\ objects m' = objects m /\ animation m' = animation m /\
    files m' = files m /\
    ((frame (params job)).1.1 <> current_time (doc m) ->
       error m' = "Generated frame does not match current time" /\
       is_active (live m') = false /\
       exists evs, log m' = log m ++ evs /\
         forall l i b, DocumentCall (set_layer_content l i b) ∉ evs) /\
    ((frame (params job)).1.1 = current_time (doc m) ->
       layers_find m (target_layer (animation m)) = None ->
       error m' = "Target layer not found" /\
       is_active (live m') = false /\
       exists evs, log m' = log m ++ evs /\
         forall l i b, DocumentCall (set_layer_content l i b) ∉ evs) /\
    (forall l,
       (frame (params job)).1.1 = current_time (doc m) ->
       layers_find m (target_layer (animation m)) = Some l ->
       m' = set_log (log m ++ [DocumentCall
               (set_layer_content (uid l) image (bounds (params job)))]) m).
Proof.
  intros Hobj Hkind Hres. unfold animation_handle_job_finished.
  rewrite bind_run. unfold deref at 1. rewrite Hobj, Hkind.
  rewrite (bool_decide_eq_false_2 (animation_frame = animation_batch)) by discriminate.
  rewrite (bool_decide_eq_true_2 (animation_frame = animation_frame)) by reflexivity.
  rewrite Hres. rewrite bind_run. unfold get at 1. cbv beta iota.
  split_decide ((frame (params job)).1.1 ≠ current_time (doc m)).
  - destruct (report_error_effects fuel "Generated frame does not match current time" m)
      as (m' & -> & He & Ha & Hj & Ho & Han & Hf & _ & _ & _ & evs & Hlog & Hevs).
    exists m'. split; [reflexivity|].
    repeat (split; [assumption|]).
    split; [|split]; [| intros H; contradiction | intros l H; contradiction].
    intros _. split; [exact He|]. split; [exact Ha|].
    exists evs. split; [exact Hlog|]. now apply stop_event_no_content.
  - apply dec_stable in Hdec.
    destruct (layers_find m (target_layer (animation m))) as [l|] eqn:Hfind.
    + eexists. split; [reflexivity|].
      destruct m as [c d s ly p e j o lv an fs lg]. cbn.
      repeat (split; [reflexivity|]).
      split; [|split]; [intros H; contradiction | intros _ H; discriminate H |].
      intros l' _ [= <-]. reflexivity.
    + destruct (report_error_effects fuel "Target layer not found" m)
        as (m' & -> & He & Ha & Hj & Ho & Han & Hf & _ & _ & _ & evs & Hlog & Hevs).
      exists m'. split; [reflexivity|].
      repeat (split; [assumption|]).
      split; [|split]; [intros H; contradiction | | intros l _ H; discriminate H].
      intros _ _. split; [exact He|]. split; [exact Ha|].
      exists evs. split; [exact Hlog|]. now apply stop_event_no_content.
Qed.

Lemma animation_frame_applied_or_reported_witness :
  exists m',
    animation_handle_job_finished 4 0 stale_frame_model = (Returned tt, m') /\
    error m' = "Generated frame does not match current time" /\
    log m' = log stale_frame_model.
Proof.
  destruct (animation_frame_applied_or_reported 0 0
              (mkJob (Some "job-0") animation_frame finished
                 (mkParams "a cat" "" canvas 1%float 7 (3, 0, 0) "") [Img 1] None)
              stale_frame_model (Img 1) [] eq_refl eq_refl eq_refl)
    as (m' & Hrun & _ & _ & _ & _ & Hstale & _).
  exists m'. split; [exact Hrun|].
  destruct (Hstale ltac:(discriminate)) as (He & _ & _).
  split; [exact He|].
  vm_compute in Hrun. injection Hrun as <-. reflexivity.
Defined.

(** ** The preview layer *)

Lemma find_is_Some {A} (f : A -> bool) (l : list A) (x : A) :
  x ∈ l -> f x = true -> is_Some (List.find f l).
Proof.
  induction l as [|y l IH]; intros Hin Hf.
  - by apply elem_of_nil in Hin.
  - cbn. destruct (f y) eqn:Hy; [eauto|].
    apply elem_of_cons in Hin as [->|Hin]; [congruence|]. now apply IH.
Qed.

(** [show_preview] when the preview layer is in the document. *)
Lemma show_preview_with_layer (id : string) (index : nat) (m : Model) (r : nat)
  (job : Job) (l : Layer) :
  jobs_find m id = Some r ->
  objects m !! r = Some job ->
  layer m = Some l ->
  layers_contain m l = true ->
  show_preview id index m
  = match results job !! index with
    | Some image =>
        (Returned tt,
         set_log (log m ++
           [DocumentCall (setName (uid l) ("[Preview] " +:+ prompt (params job)));
            DocumentCall (set_layer_content (uid l) image (bounds (params job)));
            DocumentCall (move_to_top (uid l))]) m)
    | None =>
        (Raised IndexError,
         set_log (log m ++
           [DocumentCall (setName (uid l) ("[Preview] " +:+ prompt (params job)))]) m)
    end.
Proof.
  intros Hfind Hobj Hlayer Hin. unfold show_preview.
  rewrite bind_run. unfold get at 1. cbv beta iota. rewrite Hfind.
  rewrite bind_run. unfold deref at 1. rewrite Hobj, Hlayer, Hin.
  rewrite bind_run. unfold mret at 1, M_ret at 1. cbv beta iota.
  rewrite bind_run. unfold get at 1. cbv beta iota. rewrite Hlayer.
  destruct m as [c d s ly p e j o lv an fs lg].
  destruct (results job !! index) as [image|]; mrun; rewrite <- ?app_assoc; reflexivity.
Qed.

(** [show_preview] when there is no preview layer, or the user has
    removed it. *)
Lemma show_preview_without_layer (id : string) (index : nat) (m : Model) (r : nat)
  (job : Job) :
  jobs_find m id = Some r ->
  objects m !! r = Some job ->
  (forall l, layer m = Some l -> layers_contain m l = false) ->
  show_preview id index m
  = match results job !! index with
    | Some image =>
        let l := mkLayer (next_uid (doc m)) (bounds (params job)) in
        (Returned tt,
         set_log (log m ++
           [DocumentCall (insert_layer ("[Preview] " +:+ prompt (params job)) image
                            (bounds (params job)) false);
            DocumentCall (setLocked (uid l) true)])
           (set_layer (Some l)
              (set_doc (set_doc_layers (layers (doc m) ++ [l]) (active_layer (doc m))
                          (S (next_uid (doc m))) (doc m)) m)))
    | None => (Raised IndexError, set_layer None m)
    end.
Proof.
  intros Hfind Hobj Hlayer. unfold show_preview.
  rewrite bind_run. unfold get at 1. cbv beta iota. rewrite Hfind.
  rewrite bind_run. unfold deref at 1. rewrite Hobj.
  destruct m as [c d s ly p e j o lv an fs lg]. cbn [layer] in *.
  destruct ly as [l|].
  - rewrite (Hlayer l eq_refl). unfold doc_insert_layer, doc_new_layer.
    destruct (results job !! index) as [image|] eqn:Hres; mrun; rewrite ?Hres;
      mrun; rewrite <- ?app_assoc; reflexivity.
  - unfold doc_insert_layer, doc_new_layer.
    destruct (results job !! index) as [image|] eqn:Hres; mrun; rewrite ?Hres;
      mrun; rewrite <- ?app_assoc; reflexivity.
Qed.

(** After a [show_preview] that returned there is a preview layer,
    and it is a layer of the document. *)
Lemma show_preview_returned (id : string) (index : nat) (m m' : Model) :
  show_preview id index m = (Returned tt, m') ->
  exists l, layer m' = Some l /\ layers_contain m' l = true.
Proof.
  intros Hrun.
  destruct (jobs_find m id) as [r|] eqn:Hfind.
  2:{ unfold show_preview in Hrun. rewrite bind_run in Hrun.
      unfold get at 1 in Hrun. cbv beta iota in Hrun. rewrite Hfind in Hrun.
      discriminate Hrun. }
  destruct (jobs_find_Some m id r Hfind) as (_ & job & Hobj & _).
  destruct (layer m) as [l|] eqn:Hlayer;
    [destruct (layers_contain m l) eqn:Hin|].
  - rewrite (show_preview_with_layer id index m r job l Hfind Hobj Hlayer Hin) in Hrun.
    destruct (results job !! index); [|discriminate Hrun].
    injection Hrun as <-. exists l.
    destruct m as [c d s ly p e j o lv an fs lg]. cbn in *. auto.
  - rewrite (show_preview_without_layer id index m r job Hfind Hobj) in Hrun.
    2:{ intros l' Hl'. rewrite Hlayer in Hl'. now injection Hl' as <-. }
    destruct (results job !! index); [|discriminate Hrun].
    injection Hrun as <-. eexists. split; [reflexivity|].
    unfold layers_contain. apply bool_decide_eq_true_2.
    unfold layers_find. cbn.
    eapply find_is_Some; [apply elem_of_app; right; apply list_elem_of_singleton; reflexivity|].
    cbn. now apply bool_decide_eq_true_2.
  - rewrite (show_preview_without_layer id index m r job Hfind Hobj) in Hrun.
    2:{ intros l' Hl'. rewrite Hlayer in Hl'. discriminate Hl'. }
    destruct (results job !! index); [|discriminate Hrun].
    injection Hrun as <-. eexists. split; [reflexivity|].
    unfold layers_contain. apply bool_decide_eq_true_2.
    unfold layers_find. cbn.
    eapply find_is_Some; [apply elem_of_app; right; apply list_elem_of_singleton; reflexivity|].
    cbn. now apply bool_decide_eq_true_2.
Qed.

(** X11.  At most one preview layer: after a [show_preview] that
    returned, a second [show_preview], for whatever job and index and
    with whatever outcome, inserts no layer, leaves the document's
    layers as they are and keeps the same preview layer. *)
Theorem preview_layer_is_reused (id id' : string) (index index' : nat)
  (m m1 m2 : Model) (o : Outcome unit) :
  show_preview id index m = (Returned tt, m1) ->
  show_preview id' index' m1 = (o, m2) ->
  doc m2 = doc m1 /\ layer m2 = layer m1 /\
  exists evs, log m2 = log m1 ++ evs /\ Forall no_insertion evs.
Proof.
  intros Hfirst Hsecond.
  destruct (show_preview_returned id index m m1 Hfirst) as (l & Hlayer & Hin).
  destruct (jobs_find m1 id') as [r|] eqn:Hfind.
  - destruct (jobs_find_Some m1 id' r Hfind) as (_ & job & Hobj & _).
    rewrite (show_preview_with_layer id' index' m1 r job l Hfind Hobj Hlayer Hin)
      in Hsecond.
    destruct m1 as [c d s ly p e j o1 lv an fs lg].
    destruct (results job !! index'); injection Hsecond as <- <-; cbn;
      (split; [reflexivity|]); (split; [reflexivity|]);
      eexists; (split; [reflexivity|]); repeat constructor.
  - unfold show_preview in Hsecond. rewrite bind_run in Hsecond.
    unfold get at 1 in Hsecond. cbv beta iota in Hsecond. rewrite Hfind in Hsecond.
    injection Hsecond as <- <-. split; [reflexivity|]. split; [reflexivity|].
    exists []. split; [now rewrite app_nil_r|constructor].
Qed.

Lemma preview_layer_is_reused_witness :
  exists m1 m2,
    show_preview "job-0" 0 (with_job (job0 diffusion [Img 1; Img 2]) model0)
    = (Returned tt, m1) /\
    show_preview "job-0" 1 m1 = (Returned tt, m2) /\
    doc m2 = doc m1 /\ layer m2 = layer m1.
Proof.
  eexists _, _. split; [vm_compute; reflexivity|]. split; [vm_compute; reflexivity|].
  destruct (preview_layer_is_reused "job-0" "job-0" 0 1
              (with_job (job0 diffusion [Img 1; Img 2]) model0) _ _ (Returned tt)
              ltac:(vm_compute; reflexivity) ltac:(vm_compute; reflexivity))
    as (Hd & Hl & _).
  split; [exact Hd|exact Hl].
Defined.

(** X12.  [show_preview] with an index beyond the results of the
    job raises IndexError.  Document, queue and jobs are as before;
    if a preview layer was there it has been renamed already, and if
    there was none (or the user had removed it) nothing was inserted
    and nothing logged. *)
Theorem show_preview_bad_index (id : string) (index : nat) (m : Model) (r : nat)
  (job : Job) :
  jobs_find m id = Some r ->
  objects m !! r = Some job ->
  (length (results job) <= index)%nat ->
  exists m',
    show_preview id index m = (Raised IndexError, m') /\
    doc m' = doc m /\ jobs m' = jobs m /\ objects m' = objects m /\
    (forall l, layer m = Some l -> layers_contain m l = true ->
       layer m' = Some l /\
       log m' = log m ++
         [DocumentCall (setName (uid l) ("[Preview] " +:+ prompt (params job)))]) /\
    ((forall l, layer m = Some l -> layers_contain m l = false) ->
       layer m' = None /\ log m' = log m).
Proof.
  intros Hfind Hobj Hlen.
  assert (Hres : results job !! index = None) by now apply lookup_ge_None_2.
  destruct (layer m) as [l|] eqn:Hlayer;
    [destruct (layers_contain m l) eqn:Hin|].
  - rewrite (show_preview_with_layer id index m r job l Hfind Hobj Hlayer Hin), Hres.
    eexists. split; [reflexivity|].
    destruct m as [c d s ly p e j o lv an fs lg]. cbn in *.
    repeat (split; [reflexivity|]). split.
    + intros l' [= <-] _. split; [assumption|reflexivity].
    + intros H. rewrite (H l eq_refl) in Hin. discriminate Hin.
  - rewrite (show_preview_without_layer id index m r job Hfind Hobj), Hres.
    2:{ intros l' Hl'. rewrite Hlayer in Hl'. now injection Hl' as <-. }
    eexists. split; [reflexivity|].
    destruct m as [c d s ly p e j o lv an fs lg]. cbn in *.
    repeat (split; [reflexivity|]). split.
    + intros l' Hl' H. injection Hl' as Hl'. subst l'. rewrite H in Hin. discriminate Hin.
    + intros _. split; reflexivity.
  - rewrite (show_preview_without_layer id index m r job Hfind Hobj), Hres.
    2:{ intros l' Hl'. rewrite Hlayer in Hl'. discriminate Hl'. }
    eexists. split; [reflexivity|].
    destruct m as [c d s ly p e j o lv an fs lg]. cbn in *.
    repeat (split; [reflexivity|]). split.
    + intros l' H. discriminate H.
    + intros _. split; reflexivity.
Qed.

Lemma show_preview_bad_index_witness :
  exists m',
    show_preview "job-0" 0 diffusion_model = (Raised IndexError, m') /\
    doc m' = doc diffusion_model.
Proof.
  destruct (show_preview_bad_index "job-0" 0 diffusion_model 0 (job0 diffusion [])
              eq_refl eq_refl ltac:(cbn; lia))
    as (m' & Hrun & Hd & _).
  exists m'. split; [exact Hrun|exact Hd].
Defined.

(** ** The context of a custom inpaint, by case *)

(** [CustomInpaint.get_context] never changes the model, and
    its value by case: [None] without a mask or when the mode is not
    [custom]; otherwise the bounds of the mask, the whole canvas, or,
    for [layer_bounds], bounds that cover both the mask and the layer
    when the layer is found and [None] when it is not; [None] for the
    context [automatic]. *)
Theorem get_context_by_case (self : CustomInpaint) (mask : option Mask) (m : Model) :
  exists result,
    get_context self mask m = (Returned result, m) /\
    (mask = None \/ ci_mode self <> custom -> result = None) /\
    (forall k, mask = Some k -> ci_mode self = custom ->
       match ci_context self with
       | ctx_automatic => result = None
       | ctx_mask_bounds => result = Some (mask_bounds k)
       | ctx_entire_image => result = Some (Bounds_of_extent (extent (doc m)))
       | ctx_layer_bounds =>
           match layers_find m (context_layer_id self) with
           | Some l =>
               exists b, result = Some b /\
                 covers b (mask_bounds k) /\ covers b (layer_bounds l)
           | None => result = None
           end
       end).
Proof.
  destruct self as [md cx lid]. unfold get_context. cbn [ci_mode ci_context context_layer_id].
  rewrite bind_run. unfold get at 1. cbv beta iota.
  destruct mask as [k|].
  2:{ exists None. split; [reflexivity|]. split; [reflexivity|]. intros k H. discriminate H. }
  split_decide (md ≠ custom).
  { exists None. split; [reflexivity|]. split; [reflexivity|]. intros k' _ H. contradiction. }
  apply dec_stable in Hdec. subst md.
  destruct cx; decide_bools.
  - exists None. split; [reflexivity|].
    split; [intros [H|H]; [discriminate H|contradiction]|]. intros k' _ _. reflexivity.
  - eexists. split; [reflexivity|].
    split; [intros [H|H]; [discriminate H|contradiction]|]. intros k' [= <-] _. reflexivity.
  - eexists. split; [reflexivity|].
    split; [intros [H|H]; [discriminate H|contradiction]|]. intros k' _ _. reflexivity.
  - destruct (layers_find m lid) as [l|].
    + eexists. split; [reflexivity|].
      split; [intros [H|H]; [discriminate H|contradiction]|]. intros k' [= <-] _.
      eexists. split; [reflexivity|].
      unfold covers, Bounds_expand. cbn. repeat split; lia.
    + exists None. split; [reflexivity|].
      split; [intros [H|H]; [discriminate H|contradiction]|]. intros k' _ _. reflexivity.
Qed.

(** ** Cancelling *)

Lemma filter_ext_elem {A} (P Q : A -> Prop) `{!forall x, Decision (P x)}
  `{!forall x, Decision (Q x)} (l : list A) :
  (forall x, x ∈ l -> (P x <-> Q x)) -> filter P l = filter Q l.
Proof.
  induction l as [|a l IH]; intros Hl; [reflexivity|].
  rewrite !filter_cons.
  assert (Ha : P a <-> Q a) by (apply Hl; left).
  rewrite IH by (intros x Hx; apply Hl; right; exact Hx).
  destruct (decide (P a)), (decide (Q a)); tauto.
Qed.

Lemma filter_id {A} (P : A -> Prop) `{!forall x, Decision (P x)} (l : list A) :
  (forall x, x ∈ l -> P x) -> filter P l = l.
Proof.
  induction l as [|a l IH]; intros Hl; [reflexivity|].
  rewrite filter_cons_True by (apply Hl; left).
  f_equal. apply IH. intros x Hx. apply Hl. right. exact Hx.
Qed.

Lemma filter_not_elem_cons (r : nat) (rs en : list nat) :
  filter (fun x => x ∉ rs) (filter (fun r' => r' ≠ r) en)
  = filter (fun x => x ∉ r :: rs) en.
Proof.
  rewrite list_filter_filter. apply filter_ext_elem. intros x _.
  rewrite elem_of_cons. split.
  - intros [H1 H2] [->|H]; [apply H2; reflexivity|contradiction].
  - intros H. split; [intros Hx; apply H; right; exact Hx|].
    intros ->. apply H. left. reflexivity.
Qed.

(** Removing some jobs from the queue, one after the other. *)
Lemma remove_each_run (rs : list nat) :
  forall m,
    remove_each rs m
    = (Returned tt,
       set_log (log m ++ (JobsCall ∘ q_remove <$> rs))
         (set_jobs (mkQueue (filter (fun r => r ∉ rs) (entries (jobs m)))
                      (selection (jobs m)) (next_ref (jobs m))) m)).
Proof.
  induction rs as [|r rs IH]; intros m.
  - cbn [remove_each fmap list_fmap]. rewrite app_nil_r.
    rewrite filter_id by (intros x _ H; by apply elem_of_nil in H).
    destruct m as [c d s l p e [en sel nr] o lv an fs lg]. reflexivity.
  - cbn [remove_each]. rewrite bind_run. unfold jobs_remove at 1.
    rewrite bind_run. unfold queue_call, emit, modify at 1. cbv beta iota.
    unfold modify_jobs, modify at 1. cbv beta iota. rewrite IH.
    destruct m as [c d s l p e [en sel nr] o lv an fs lg].
    cbn [log jobs entries selection next_ref set_log set_jobs].
    rewrite filter_not_elem_cons, <- app_assoc. reflexivity.
Qed.

(** The jobs of the queue after some references have left it. *)
Lemma queued_jobs_filter (P : nat -> Prop) `{!forall r, Decision (P r)} (m : Model)
  (q : JobQueue) :
  entries q = filter P (entries (jobs m)) ->
  queued_jobs (set_jobs q m) = filter (fun rj => P rj.1) (queued_jobs m).
Proof.
  intros Hq. unfold queued_jobs. destruct m as [c d s l p e [en sel nr] o lv an fs lg].
  cbn [jobs set_jobs objects entries] in *. rewrite Hq. clear Hq.
  induction en as [|r en IH]; [reflexivity|].
  rewrite filter_cons.
  destruct (decide (P r)) as [HP|HP]; cbn [omap list_omap];
    destruct (o !! r) as [job|]; cbn [fmap option_fmap option_map];
    rewrite ?filter_cons; cbn [fst]; rewrite ?IH.
  - rewrite decide_True by exact HP. reflexivity.
  - reflexivity.
  - rewrite decide_False by exact HP. reflexivity.
  - reflexivity.
Qed.

Lemma queued_jobs_lookup (m : Model) (r : nat) (job : Job) :
  (r, job) ∈ queued_jobs m -> objects m !! r = Some job.
Proof.
  unfold queued_jobs. intros H. apply list_elem_of_omap in H as (r' & _ & H).
  destruct (objects m !! r') as [job'|] eqn:Hobj; [|discriminate H].
  cbn in H. now injection H as -> ->.
Qed.

Lemma any_executing_elem (m : Model) :
  any_executing m = true <-> exists rj, rj ∈ queued_jobs m /\ is_executing rj.2 = true.
Proof.
  unfold any_executing. rewrite existsb_exists.
  split; intros (rj & H1 & H2); exists rj; (split; [|exact H2]);
    now apply list_elem_of_In.
Qed.

Lemma queue_calls_removals (rs : list nat) :
  queue_calls (JobsCall ∘ q_remove <$> rs) = q_remove <$> rs.
Proof. induction rs as [|r rs IH]; [reflexivity|]. cbn. now rewrite <- IH. Qed.

(** The first half of [cancel]: dropping the queued jobs. *)
Lemma cancel_queued_run (m : Model) :
  let to_remove := (filter (fun rj => state rj.2 = queued) (queued_jobs m)).*1 in
  exists cleared m1,
    (m ← get;
     let to_remove := (filter (fun rj => state rj.2 = queued) (queued_jobs m)).*1 in
     if bool_decide (0 < length to_remove)%nat
     then remove_each to_remove;; mret [clear_queue]
     else mret []) m = (Returned cleared, m1) /\
    objects m1 = objects m /\
    log m1 = log m ++ (JobsCall ∘ q_remove <$> to_remove) /\
    queued_jobs m1 = filter (fun rj => state rj.2 <> queued) (queued_jobs m) /\
    (cleared = [] \/ cleared = [clear_queue]) /\
    (cleared = [clear_queue] <-> exists rj, rj ∈ queued_jobs m /\ state rj.2 = queued).
Proof.
  intros to_remove.
  rewrite bind_run. unfold get at 1. cbv beta iota zeta. fold to_remove.
  assert (Hrem : forall r job, (r, job) ∈ queued_jobs m ->
                   (r ∈ to_remove <-> state job = queued)).
  { intros r job Hin. unfold to_remove. rewrite list_elem_of_fmap. split.
    - intros ([r' job'] & Hr & Hin'). cbn in Hr. subst r'.
      apply list_elem_of_filter in Hin' as [Hq Hin']. cbn in Hq.
      apply queued_jobs_lookup in Hin, Hin'. congruence.
    - intros Hq. exists (r, job). split; [reflexivity|].
      apply list_elem_of_filter. split; [exact Hq|exact Hin]. }
  assert (Hnil : to_remove = [] <->
                 ~ exists rj, rj ∈ queued_jobs m /\ state rj.2 = queued).
  { unfold to_remove. split.
    - intros H (rj & Hin & Hq). apply fmap_nil_inv in H.
      assert (Hx : rj ∈ filter (fun rj => state rj.2 = queued) (queued_jobs m))
        by (apply list_elem_of_filter; split; assumption).
      rewrite H in Hx. by apply elem_of_nil in Hx.
    - intros H. destruct (filter _ _) as [|rj l] eqn:Hf; [reflexivity|].
      exfalso. apply H. exists rj.
      assert (Hx : rj ∈ filter (fun rj => state rj.2 = queued) (queued_jobs m))
        by (rewrite Hf; left).
      apply list_elem_of_filter in Hx as [Hq Hin]. split; assumption. }
  destruct to_remove as [|r rs] eqn:Hto.
  - exists [], m. split; [reflexivity|]. split; [reflexivity|].
    split; [cbn; now rewrite app_nil_r|].
    split; [|split; [left; reflexivity|]].
    + symmetry. apply filter_id. intros [r job] Hin Hq.
      apply (proj1 Hnil eq_refl). exists (r, job). split; assumption.
    + split; [discriminate|]. intros H. exfalso. exact (proj1 Hnil eq_refl H).
  - rewrite (bool_decide_eq_true_2 (0 < length (r :: rs))%nat) by (cbn; lia).
    rewrite bind_run, remove_each_run.
    eexists _, _. split; [reflexivity|].
    split; [destruct m as [c d s l p e [en sel nr] o lv an fs lg]; reflexivity|].
    split; [destruct m as [c d s l p e [en sel nr] o lv an fs lg]; reflexivity|].
    split; [|split; [right; reflexivity|]].
    + change (queued_jobs (set_log _ ?x)) with (queued_jobs x).
      rewrite (queued_jobs_filter (fun r0 => r0 ∉ r :: rs)) by reflexivity.
      apply filter_ext_elem. intros [r0 job] Hin. cbn.
      rewrite (Hrem r0 job Hin). reflexivity.
    + split; [|reflexivity]. intros _.
      assert (Hr : r ∈ to_remove) by (rewrite Hto; left).
      unfold to_remove in Hr. apply list_elem_of_fmap in Hr as (rj & _ & Hin).
      apply list_elem_of_filter in Hin as [Hq Hin]. exists rj. split; assumption.
Qed.

(** X13.  [Model.cancel]: no job object changes; without [queued]
    the model is untouched; with [queued] exactly the jobs in state
    queued leave the queue, in queue order, and the others stay in
    order.  The queue of the backend is cleared exactly if [queued]
    is set and a job was queued, and the backend is interrupted
    exactly if [active] is set and a job is running, or is queued and
    was not removed: queued jobs that were just removed never cause
    an interrupt. *)
Theorem cancel_removes_queued_jobs (active queued_jobs_too : bool) (m : Model) :
  exists calls m',
    cancel active queued_jobs_too m = (Returned calls, m') /\
    objects m' = objects m /\
    (queued_jobs_too = false -> m' = m) /\
    (queued_jobs_too = true ->
       queued_jobs m' = filter (fun rj => state rj.2 <> queued) (queued_jobs m) /\
       queue_calls (drop (length (log m)) (log m'))
       = q_remove <$> (filter (fun rj => state rj.2 = queued) (queued_jobs m)).*1) /\
    (clear_queue ∈ calls <->
       queued_jobs_too = true /\
       exists rj, rj ∈ queued_jobs m /\ state rj.2 = queued) /\
    (interrupt ∈ calls <->
       active = true /\
       exists rj, rj ∈ queued_jobs m /\
         (state rj.2 = running \/ (queued_jobs_too = false /\ state rj.2 = queued))).
Proof.
  destruct queued_jobs_too.
  - destruct (cancel_queued_run m) as (cleared & m1 & Hrun & Ho & Hlog & Hq & Hc & Hcq).
    assert (Hcancel : cancel active true m
                      = (Returned (if active && any_executing m1
                                   then cleared ++ [interrupt] else cleared), m1)).
    { unfold cancel. rewrite bind_run. cbv zeta in Hrun. cbv iota zeta.
      rewrite Hrun. rewrite bind_run. unfold get at 1. cbv beta iota.
      destruct (active && any_executing m1); reflexivity. }
    assert (Hany : any_executing m1 = true <->
                   exists rj, rj ∈ queued_jobs m /\ state rj.2 = running).
    { rewrite any_executing_elem, Hq. split.
      - intros (rj & Hin & Hex). apply list_elem_of_filter in Hin as [Hnq Hin].
        exists rj. split; [exact Hin|]. unfold is_executing in Hex.
        apply orb_true_iff in Hex as [Hex|Hex]; apply bool_decide_eq_true_1 in Hex;
          [contradiction|exact Hex].
      - intros (rj & Hin & Hst). exists rj. split.
        + apply list_elem_of_filter. split; [congruence|exact Hin].
        + unfold is_executing. rewrite Hst. reflexivity. }
    exists (if active && any_executing m1 then cleared ++ [interrupt] else cleared), m1.
    split; [exact Hcancel|].
    split; [exact Ho|]. split; [discriminate|].
    split; [intros _; split; [exact Hq|]|split].
    + rewrite Hlog, drop_app_length. apply queue_calls_removals.
    + rewrite <- Hcq.
      destruct (active && any_executing m1), Hc as [->| ->];
        rewrite ?elem_of_app, ?list_elem_of_singleton, ?elem_of_nil; split;
        try tauto; try (intros [_ H]; discriminate H); try (intros [[]|H]; discriminate H).
    + destruct active; cbn [andb].
      * destruct (any_executing m1) eqn:Hex.
        -- rewrite elem_of_app, list_elem_of_singleton. split.
           ++ intros _. split; [reflexivity|].
              destruct (proj1 Hany eq_refl) as (rj & Hin & Hst). eauto.
           ++ intros _. right. reflexivity.
        -- split.
           ++ intros H. exfalso. destruct Hc as [->| ->].
              ** by apply elem_of_nil in H.
              ** apply list_elem_of_singleton in H. discriminate H.
           ++ intros [_ (rj & Hin & [Hst|[H _]])]; [|discriminate H].
              assert (Hft : false = true) by (apply Hany; eauto). discriminate Hft.
      * split; [|intros [H _]; discriminate H].
        intros H. exfalso. destruct Hc as [->| ->].
        -- by apply elem_of_nil in H.
        -- apply list_elem_of_singleton in H. discriminate H.
  - exists (if active && any_executing m then [interrupt] else []), m.
    split; [unfold cancel; rewrite bind_run; unfold mret at 1, M_ret at 1;
            cbv beta iota; rewrite bind_run; unfold get at 1; cbv beta iota;
            destruct (active && any_executing m); reflexivity|].
    split; [reflexivity|]. split; [reflexivity|]. split; [discriminate|].
    split.
    + split; [|intros [H _]; discriminate H].
      intros H. exfalso. destruct (active && any_executing m).
      * apply list_elem_of_singleton in H. discriminate H.
      * by apply elem_of_nil in H.
    + destruct active; cbn [andb].
      * destruct (any_executing m) eqn:Hex.
        -- rewrite list_elem_of_singleton. split; [|reflexivity]. intros _.
           split; [reflexivity|].
           apply any_executing_elem in Hex as (rj & Hin & Hex).
           exists rj. split; [exact Hin|]. unfold is_executing in Hex.
           apply orb_true_iff in Hex as [Hex|Hex]; apply bool_decide_eq_true_1 in Hex; auto.
        -- split; [intros H; by apply elem_of_nil in H|].
           intros [_ (rj & Hin & Hst)]. exfalso.
           assert (any_executing m = true); [|congruence].
           apply any_executing_elem. exists rj. split; [exact Hin|].
           unfold is_executing.
           destruct Hst as [->|[_ ->]]; reflexivity.
      * split; [intros H; by apply elem_of_nil in H|intros [H _]; discriminate H].
Qed.

Example cancel_queued_example :
  (cancel false true busy_model).1 = Returned [clear_queue] /\
  entries (jobs (cancel false true busy_model).2) = [0%nat] /\
  (cancel true true busy_model).1 = Returned [clear_queue; interrupt] /\
  (cancel true true (cancel false true busy_model).2).1 = Returned [interrupt] /\
  (cancel true true (with_job (with_state queued (job0 diffusion [])) model0)).1
  = Returned [clear_queue].
Proof. vm_compute. repeat split. Qed.

(** ** Failures of the backend *)

(** X14.  [_report_errors] never raises: the value of the
    coroutine is passed on, and an exception of the coroutine becomes
    the error field, with the live workspace inactive and the queue
    and the jobs as the coroutine left them. *)
Theorem report_errors_catches (A : Type) (fuel : nat) (describe : Exn -> string)
  (coro : M A) (m : Model) :
  match coro m with
  | (Returned a, m1) =>
      _report_errors (4 + fuel) describe coro m = (Returned (Some a), m1)
  | (Raised e, m1) =>
      exists m',
        _report_errors (4 + fuel) describe coro m = (Returned None, m') /\
        error m' = describe e /\ is_active (live m') = false /\
        jobs m' = jobs m1 /\ objects m' = objects m1 /\ progress m' = progress m1
  | (Stuck, m1) => _report_errors (4 + fuel) describe coro m = (Stuck, m1)
  end.
Proof.
  unfold _report_errors.
  destruct (coro m) as [[a|e|] m1]; [reflexivity| |reflexivity].
  rewrite bind_run.
  destruct (report_error_effects fuel (describe e) m1)
    as (m' & -> & He & Ha & Hj & Ho & _ & _ & Hp & _).
  exists m'. repeat split; assumption.
Qed.

(** The loop of [_generate] when the backend refuses the call for the
    job number [k]. *)
Lemma generate_loop_fails (k : nat) :
  forall (todo : nat) (i : Z) kd pos neg b input s result m,
    (k < todo)%nat ->
    (forall n, (n < k)%nat -> is_Some (enqueue_reply (config m) (sent m + n)%nat)) ->
    enqueue_reply (config m) (sent m + k)%nat = None ->
    exists m',
      generate_loop todo i kd pos neg b input s result m = (Raised NetworkError, m') /\
      config m' = config m /\
      entries (jobs m') = entries (jobs m) ++ seq (next_ref (jobs m)) (S k) /\
      (forall r, (r < next_ref (jobs m))%nat -> objects m' !! r = objects m !! r) /\
      (forall n, (n < k)%nat ->
         exists job, objects m' !! (next_ref (jobs m) + n)%nat = Some job /\
                     is_Some (job_id job)) /\
      exists job,
        objects m' !! (next_ref (jobs m) + k)%nat = Some job /\
        job_id job = None /\ state job = queued /\ kind job = kd.
Proof.
  induction k as [|k IH]; intros todo i kd pos neg b input s result m Hk Hrep Hnone.
  - destruct todo as [|todo]; [lia|]. cbn [generate_loop].
    destruct (generate_turn kd pos neg b (mkInput (text input) (Some s) (inpaint input)) s m)
      as (m1 & Hrun & Hc & _ & _ & Hj & Ho & _).
    rewrite Hrun. rewrite Nat.add_0_r in Hnone. rewrite Hnone.
    exists m1. split; [reflexivity|]. split; [exact Hc|].
    rewrite Hj, Ho, Hnone. cbn [entries seq].
    split; [reflexivity|]. split; [|split].
    + intros r Hr. rewrite lookup_insert_ne by lia. reflexivity.
    + intros n Hn. lia.
    + eexists. rewrite Nat.add_0_r, lookup_insert_eq. split; [reflexivity|].
      repeat split.
  - destruct todo as [|todo]; [lia|]. cbn [generate_loop].
    destruct (generate_turn kd pos neg b (mkInput (text input) (Some s) (inpaint input)) s m)
      as (m1 & Hrun & Hc & _ & Hs & Hj & Ho & _).
    rewrite Hrun.
    destruct (Hrep 0%nat ltac:(lia)) as [id Hid]. rewrite Nat.add_0_r in Hid.
    rewrite Hid. rewrite bind_run. unfold get at 1. cbv beta iota.
    destruct (IH todo (i + 1) kd pos neg b input
                (mkSampling (s_strength s)
                   (s_seed s + (i + 1) * batch_size (settings (config m1))))
                (result ++ [next_ref (jobs m)]) m1)
      as (m' & Hrun' & Hc' & He' & Hold' & Hids' & job & Hjob & Hnoid & Hst & Hkd).
    + lia.
    + intros n Hn. rewrite Hc, Hs.
      replace (S (sent m) + n)%nat with (sent m + S n)%nat by lia. apply Hrep. lia.
    + rewrite Hc, Hs. replace (S (sent m) + k)%nat with (sent m + S k)%nat by lia.
      exact Hnone.
    + exists m'. split; [exact Hrun'|]. split; [congruence|].
      rewrite Hj in He', Hold', Hids', Hjob. cbn [entries next_ref] in *.
      split; [|split; [|split]].
      * rewrite He', <- app_assoc. reflexivity.
      * intros r Hr. rewrite Hold' by lia. rewrite Ho, lookup_insert_ne by lia.
        reflexivity.
      * intros [|n] Hn.
        -- rewrite Nat.add_0_r, Hold' by lia. rewrite Ho, lookup_insert_eq, Hid.
           eexists. split; [reflexivity|]. cbn. eauto.
        -- replace (next_ref (jobs m) + S n)%nat with (S (next_ref (jobs m)) + n)%nat by lia.
           apply Hids'. lia.
      * exists job.
        replace (next_ref (jobs m) + S k)%nat with (S (next_ref (jobs m)) + k)%nat by lia.
        repeat split; assumption.
Qed.

(** X15.  When the backend refuses the call for job number [k] of a
    batch, [_generate] under [_report_errors] returns [None] with the
    error reported and the live workspace inactive; the jobs 0..k are
    in the queue, and job [k] is there in state queued and without an
    id, so that no message of the backend finds it. *)
Theorem failed_enqueue_leaves_job_without_id (fuel : nat) (describe : Exn -> string)
  (input : WorkflowInput) (b : Bounds) (count : Z) (is_live : bool) (m : Model)
  (t : TextInput) (s : SamplingInput) (k : nat) :
  text input = Some t ->
  sampling input = Some s ->
  (k < Z.to_nat count)%nat ->
  (forall n, (n < k)%nat -> is_Some (enqueue_reply (config m) (sent m + n)%nat)) ->
  enqueue_reply (config m) (sent m + k)%nat = None ->
  exists m',
    _report_errors (4 + fuel) describe (_generate input b count is_live) m
    = (Returned None, m') /\
    error m' = describe NetworkError /\
    is_active (live m') = false /\
    entries (jobs m') = entries (jobs m) ++ seq (next_ref (jobs m)) (S k) /\
    exists job,
      objects m' !! (next_ref (jobs m) + k)%nat = Some job /\
      job_id job = None /\ state job = queued /\
      kind job = (if is_live then live_preview else diffusion) /\
      forall id, jobs_find m' id <> Some (next_ref (jobs m) + k)%nat.
Proof.
  intros Ht Hs Hk Hrep Hnone.
  assert (Hgen : exists m1,
    _generate input b count is_live m = (Raised NetworkError, m1) /\
    entries (jobs m1) = entries (jobs m) ++ seq (next_ref (jobs m)) (S k) /\
    exists job,
      objects m1 !! (next_ref (jobs m) + k)%nat = Some job /\
      job_id job = None /\ state job = queued /\
      kind job = (if is_live then live_preview else diffusion)).
  { unfold _generate.
    destruct (inpaint input) as [ip|];
      cbn [text sampling]; rewrite Ht, Hs; cbn [ensure];
      rewrite bind_run; unfold mret at 1, M_ret at 1; cbv beta iota;
      rewrite bind_run; unfold mret at 1, M_ret at 1; cbv beta iota;
      match goal with |- context [generate_loop ?todo ?i ?kd ?pos ?neg ?b' ?inp ?s' ?res m] =>
        destruct (generate_loop_fails k todo i kd pos neg b' inp s' res m Hk Hrep Hnone)
          as (m1 & Hrun & _ & He & _ & _ & job & Hjob & Hnoid & Hst & Hkd)
      end; exists m1; (split; [exact Hrun|]); (split; [exact He|]);
      exists job; repeat split; assumption. }
  destruct Hgen as (m1 & Hrun & He & job & Hjob & Hnoid & Hst & Hkd).
  unfold _report_errors. rewrite Hrun, bind_run.
  destruct (report_error_effects fuel (describe NetworkError) m1)
    as (m' & -> & Herr & Hact & Hj & Ho & _).
  exists m'. split; [reflexivity|]. split; [exact Herr|]. split; [exact Hact|].
  rewrite Hj, Ho. split; [exact He|].
  exists job. repeat split; try assumption.
  intros id Hfind. apply jobs_find_Some in Hfind as (_ & job' & Hjob' & Hid).
  rewrite Ho, Hjob in Hjob'. injection Hjob' as <-. congruence.
Qed.

Lemma failed_enqueue_leaves_job_without_id_witness :
  exists m',
    _report_errors 4 (fun _ => "Connection refused [url=http://localhost, code=-1]")
      (_generate (input0 10) canvas 3 false) flaky_model
    = (Returned None, m') /\
    error m' = "Connection refused [url=http://localhost, code=-1]" /\
    entries (jobs m') = [0; 1]%nat /\
    (job_id <$> objects m' !! 1%nat) = Some None.
Proof.
  destruct (failed_enqueue_leaves_job_without_id 0
              (fun _ => "Connection refused [url=http://localhost, code=-1]")
              (input0 10) canvas 3 false flaky_model
              (mkText "a cat" "") (mkSampling 1%float 10) 1)
    as (m' & Hrun & He & _ & Hentries & job & Hjob & Hid & _).
  - reflexivity.
  - reflexivity.
  - cbn. lia.
  - intros [|n] Hn; [eexists; reflexivity|lia].
  - reflexivity.
  - exists m'. split; [exact Hrun|]. split; [exact He|]. split; [exact Hentries|].
    cbn in Hjob. rewrite Hjob. cbn. now rewrite Hid.
Defined.

(** ** Finished jobs and the document *)

(** Selecting a result that was not selected shows it. *)
Lemma jobs_select_new_run (id : string) (index : nat) (m : Model) :
  selection (jobs m) <> Some (id, index) ->
  jobs_select id index m
  = show_preview id index
      (set_jobs (mkQueue (entries (jobs m)) (Some (id, index)) (next_ref (jobs m)))
         (set_log (log m ++ [JobsCall (q_select id index)]) m)).
Proof.
  intros Hsel. unfold jobs_select.
  rewrite bind_run. unfold queue_call, emit, modify at 1. cbv beta iota.
  rewrite bind_run. unfold get at 1. cbv beta iota.
  destruct m as [c d s l p e [en sel nr] o lv an fs lg]. cbn in Hsel.
  cbn [jobs set_log selection].
  rewrite (bool_decide_eq_false_2 (sel = Some (id, index))) by exact Hsel.
  rewrite bind_run. unfold modify_jobs, modify at 1. cbv beta iota.
  unfold update_preview. rewrite bind_run. unfold get at 1. cbv beta iota.
  reflexivity.
Qed.

(** [jobs.select] of a pair that is selected already: the call is
    made and nothing else. *)
Lemma jobs_select_same_run (id : string) (index : nat) (m : Model) :
  selection (jobs m) = Some (id, index) ->
  jobs_select id index m
  = (Returned tt, set_log (log m ++ [JobsCall (q_select id index)]) m).
Proof.
  intros Hsel. unfold jobs_select.
  rewrite bind_run. unfold queue_call, emit, modify at 1. cbv beta iota.
  rewrite bind_run. unfold get at 1. cbv beta iota.
  destruct m as [c d s l p e [en sel nr] o lv an fs lg]. cbn in Hsel.
  cbn [jobs set_log selection].
  rewrite (bool_decide_eq_true_2 (sel = Some (id, index))) by exact Hsel.
  reflexivity.
Qed.

(** X16.  What the [finished] branch does for a diffusion job after
    [notify_finished] (model.py 301-304).  With auto-preview off, or
    a preview layer at hand, or a job without id, nothing happens.
    Otherwise [jobs.select(job.id, 0)] is called.  If (id, 0) is
    selected already, this call is all.  If the selection changes
    and the id finds this job in the queue, the first result is
    shown: one layer "[Preview] prompt" with the first result is
    inserted at the bounds of the job, not made active, and locked;
    the job stays in the queue.  A job without results, one that
    finished without images, makes [show_preview] raise IndexError:
    no layer is inserted, and the selection has changed. *)
Theorem finished_diffusion_preview (r : nat) (m : Model) (job : Job) :
  objects m !! r = Some job ->
  kind job = diffusion ->
  (auto_preview (settings (config m)) = false \/ layer m <> None \/ has_id job = false ->
   finished_cleanup r m = (Returned tt, m)) /\
  (forall id,
     auto_preview (settings (config m)) = true -> layer m = None ->
     job_id job = Some id -> id <> "" ->
     (selection (jobs m) = Some (id, 0%nat) ->
      finished_cleanup r m
      = (Returned tt, set_log (log m ++ [JobsCall (q_select id 0)]) m)) /\
     (selection (jobs m) <> Some (id, 0%nat) -> jobs_find m id = Some r ->
      (results job = [] ->
       exists m',
         finished_cleanup r m = (Raised IndexError, m') /\
         layer m' = None /\ doc m' = doc m /\
         selection (jobs m') = Some (id, 0%nat) /\
         entries (jobs m') = entries (jobs m) /\ objects m' = objects m /\
         log m' = log m ++ [JobsCall (q_select id 0)]) /\
      (forall image rest, results job = image :: rest ->
       let l := mkLayer (next_uid (doc m)) (bounds (params job)) in
       exists m',
         finished_cleanup r m = (Returned tt, m') /\
         layer m' = Some l /\
         selection (jobs m') = Some (id, 0%nat) /\
         entries (jobs m') = entries (jobs m) /\ objects m' = objects m /\
         layers (doc m') = layers (doc m) ++ [l] /\
         active_layer (doc m') = active_layer (doc m) /\
         log m' = log m ++
           [JobsCall (q_select id 0);
            DocumentCall (insert_layer ("[Preview] " +:+ prompt (params job)) image
                            (bounds (params job)) false);
            DocumentCall (setLocked (uid l) true)]))).
Proof.
  intros Hobj Hkind. split.
  - intros Hno. unfold finished_cleanup.
    rewrite bind_run. unfold deref at 1. rewrite Hobj.
    rewrite bind_run. unfold get at 1. cbv beta iota. rewrite Hkind.
    rewrite (bool_decide_eq_false_2 (diffusion ≠ diffusion)) by (intros H; now apply H).
    destruct Hno as [-> | [Hl | ->]]; [reflexivity| |].
    + rewrite (bool_decide_eq_false_2 (layer m = None)) by exact Hl.
      now rewrite andb_false_r.
    + now rewrite andb_false_r.
  - intros id Hauto Hlayer Hid Hne.
    assert (Hrun : finished_cleanup r m = jobs_select id 0 m).
    { unfold finished_cleanup.
      rewrite bind_run. unfold deref at 1. rewrite Hobj.
      rewrite bind_run. unfold get at 1. cbv beta iota. rewrite Hkind.
      rewrite (bool_decide_eq_false_2 (diffusion ≠ diffusion)) by (intros H; now apply H).
      rewrite Hauto, (bool_decide_eq_true_2 (layer m = None)) by exact Hlayer.
      unfold has_id. rewrite Hid, (bool_decide_eq_true_2 (id ≠ "")) by exact Hne.
      cbn [andb]. change (default "" (Some id)) with id. reflexivity. }
    rewrite Hrun. split.
    + intros Hsel. apply jobs_select_same_run, Hsel.
    + intros Hsel Hfind.
      rewrite (jobs_select_new_run id 0 m Hsel).
      rewrite (show_preview_without_layer id 0 _ r job).
      2:{ destruct m as [c d s ly p e [en sel nr] o lv an fs lg]. exact Hfind. }
      2:{ destruct m as [c d s ly p e [en sel nr] o lv an fs lg]. exact Hobj. }
      2:{ destruct m as [c d s ly p e [en sel nr] o lv an fs lg]. cbn in *. subst ly.
          intros l' H. discriminate H. }
      split.
      * intros Hres. rewrite Hres. cbn [lookup list_lookup].
        destruct m as [c d s ly p e [en sel nr] o lv an fs lg]. cbn in *. subst ly.
        eexists. split; [reflexivity|]. cbn. repeat split.
      * intros image rest Hres l. rewrite Hres. cbn [lookup list_lookup].
        destruct m as [c d s ly p e [en sel nr] o lv an fs lg]. cbn in *. subst ly.
        eexists. split; [reflexivity|]. cbn.
        rewrite <- app_assoc. repeat split.
Qed.

Lemma finished_diffusion_preview_witness :
  exists m',
    finished_cleanup 0 (with_job (mkJob (Some "job-0") diffusion finished
                                    (mkParams "a cat" "" canvas 1%float 7 (0, 0, 0) "")
                                    [Img 1; Img 2] None) model0)
    = (Returned tt, m') /\
    layer m' = Some (mkLayer 1 canvas) /\
    selection (jobs m') = Some ("job-0", 0%nat).
Proof.
  destruct (finished_diffusion_preview 0
              (with_job (mkJob (Some "job-0") diffusion finished
                           (mkParams "a cat" "" canvas 1%float 7 (0, 0, 0) "")
                           [Img 1; Img 2] None) model0)
              (mkJob (Some "job-0") diffusion finished
                 (mkParams "a cat" "" canvas 1%float 7 (0, 0, 0) "") [Img 1; Img 2] None)
              eq_refl eq_refl) as [_ Hshow].
  destruct (Hshow "job-0" eq_refl eq_refl eq_refl ltac:(discriminate)) as [_ Hnew].
  destruct (Hnew ltac:(discriminate) eq_refl) as [_ Hinsert].
  destruct (Hinsert (Img 1) [Img 2] eq_refl) as (m' & Hrun & Hl & Hs & _).
  exists m'. split; [exact Hrun|]. split; [exact Hl|exact Hs].
Defined.

(** The whole handler on a diffusion job that finishes without an
    image. *)
Example finished_diffusion_without_image :
  (handle_message 4 (finished_message []) diffusion_model).1 = Raised IndexError /\
  layer (handle_message 4 (finished_message []) diffusion_model).2 = None /\
  selection (jobs (handle_message 4 (finished_message []) diffusion_model).2)
  = Some ("job-0", 0%nat).
Proof. repeat split; vm_compute; reflexivity. Qed.

(** X17.  An upscaling job.  A [finished] message without images
    for a job without results makes [handle_message] raise the
    AssertionError "Upscaling job did not produce an image" with the
    model untouched: the job is not finished and stays in the queue.
    With a result, [add_upscale_layer] removes the preview layer if
    there is one, resizes the document to the extent of the job's
    bounds and inserts the first result as the active layer; no
    preview layer is left. *)
Theorem upscale_result_replaces_document (fuel r : nat) (m : Model) (job : Job)
  (message : ClientMessage) :
  objects m !! r = Some job ->
  kind job = upscaling ->
  (event message = ev_finished -> jobs_find m (msg_job_id message) = Some r ->
   images message = [] -> results job = [] ->
   handle_message fuel message m
   = (Raised (AssertionError "Upscaling job did not produce an image"), m)) /\
  (forall image rest, results job = image :: rest ->
     let l := mkLayer (next_uid (doc m)) (bounds (params job)) in
     let kept := match layer m with
                 | Some p => filter (fun l' => uid l' ≠ uid p) (layers (doc m))
                 | None => layers (doc m)
                 end in
     exists m',
       add_upscale_layer r m = (Returned tt, m') /\
       layer m' = None /\
       extent (doc m') = bounds_extent (bounds (params job)) /\
       layers (doc m') = kept ++ [l] /\
       active_layer (doc m') = l /\
       jobs m' = jobs m /\ objects m' = objects m /\
       log m' = log m ++
         match layer m with
         | Some p => [DocumentCall (remove_layer (uid p))]
         | None => []
         end ++
         [DocumentCall (resize (bounds_extent (bounds (params job))));
          DocumentCall (insert_layer (prompt (params job)) image
                          (bounds (params job)) true)]).
Proof.
  intros Hobj Hkind. split.
  - intros Hev Hfind Himg Hres. unfold handle_message.
    rewrite bind_run. unfold get at 1. cbv beta iota. rewrite Hfind, Hev.
    unfold handle_finished. rewrite bind_run.
    unfold finished_prepare. rewrite Himg.
    rewrite bind_run. unfold mret at 1, M_ret at 1. cbv beta iota.
    rewrite bind_run. unfold deref at 1. rewrite Hobj, Hkind.
    rewrite (bool_decide_eq_false_2 (upscaling = control_layer)) by discriminate.
    rewrite (bool_decide_eq_true_2 (upscaling = upscaling)) by reflexivity.
    rewrite bind_run. unfold add_upscale_layer.
    rewrite bind_run. unfold deref at 1. rewrite Hobj, Hkind, Hres.
    rewrite (bool_decide_eq_true_2 (upscaling = upscaling)) by reflexivity.
    reflexivity.
  - intros image rest Hres l kept. subst l kept.
    unfold add_upscale_layer.
    rewrite bind_run. unfold deref at 1. rewrite Hobj, Hkind, Hres.
    rewrite (bool_decide_eq_true_2 (upscaling = upscaling)) by reflexivity.
    destruct m as [c [ex fn da ct al ls nu] s ly p e j o lv an fs lg].
    unfold doc_remove_layer, doc_resize, doc_insert_layer, doc_new_layer.
    destruct ly as [pl|]; mrun; (eexists; split; [reflexivity|]); cbn;
      rewrite <- ?app_assoc; repeat split.
Qed.

Lemma upscale_result_replaces_document_witness :
  handle_message 4 (finished_message []) upscale_model
  = (Raised (AssertionError "Upscaling job did not produce an image"), upscale_model).
Proof.
  destruct (upscale_result_replaces_document 4 0 upscale_model (job0 upscaling [])
              (finished_message []) eq_refl eq_refl) as [Hraise _].
  exact (Hraise eq_refl eq_refl eq_refl eq_refl).
Defined.

(** ** The jobs of a batch *)

(** Every job the loop of [_generate] adds carries the prompts, the
    bounds and the strength it was called with. *)
Lemma generate_loop_params (todo : nat) :
  forall (i : Z) kd pos neg b input s result m o m',
    (forall r, (next_ref (jobs m) <= r)%nat -> objects m !! r = None) ->
    generate_loop todo i kd pos neg b input s result m = (o, m') ->
    (next_ref (jobs m) <= next_ref (jobs m'))%nat /\
    (forall r, (next_ref (jobs m') <= r)%nat -> objects m' !! r = None) /\
    (forall r, (r < next_ref (jobs m))%nat -> objects m' !! r = objects m !! r) /\
    forall r job, (next_ref (jobs m) <= r)%nat -> objects m' !! r = Some job ->
      kind job = kd /\ prompt (params job) = pos /\ negative_prompt (params job) = neg /\
      bounds (params job) = b /\ strength (params job) = s_strength s /\
      results job = [] /\ state job = queued.
Proof.
  induction todo as [|todo IH]; intros i kd pos neg b input s result m o m' Hfresh Hrun.
  - cbn in Hrun. injection Hrun as <- <-.
    split; [lia|]. split; [exact Hfresh|]. split; [reflexivity|].
    intros r job Hr Hjob. rewrite Hfresh in Hjob by exact Hr. discriminate Hjob.
  - cbn [generate_loop] in Hrun.
    destruct (generate_turn kd pos neg b (mkInput (text input) (Some s) (inpaint input)) s m)
      as (m1 & Hturn & Hc & _ & _ & Hj & Ho & _).
    rewrite Hturn in Hrun.
    assert (H1 : (forall r, (next_ref (jobs m1) <= r)%nat -> objects m1 !! r = None) /\
                 (forall r, (r < next_ref (jobs m))%nat -> objects m1 !! r = objects m !! r) /\
                 forall r job, (next_ref (jobs m) <= r)%nat -> objects m1 !! r = Some job ->
                   kind job = kd /\ prompt (params job) = pos /\
                   negative_prompt (params job) = neg /\
                   bounds (params job) = b /\ strength (params job) = s_strength s /\
                   results job = [] /\ state job = queued).
    { rewrite Hj, Ho. cbn [next_ref]. split; [|split].
      - intros r Hr. rewrite lookup_insert_ne by lia. apply Hfresh. lia.
      - intros r Hr. rewrite lookup_insert_ne by lia. reflexivity.
      - intros r job Hr Hjob.
        destruct (decide (r = next_ref (jobs m))) as [->|Hne].
        + rewrite lookup_insert_eq in Hjob. injection Hjob as <-. repeat split.
        + rewrite lookup_insert_ne in Hjob by congruence.
          rewrite Hfresh in Hjob by lia. discriminate Hjob. }
    destruct H1 as (Hfresh1 & Hold1 & Hnew1).
    assert (Hn1 : next_ref (jobs m1) = S (next_ref (jobs m))) by (rewrite Hj; reflexivity).
    destruct (enqueue_reply (config m) (sent m)) as [id|].
    + rewrite bind_run in Hrun. unfold get at 1 in Hrun. cbv beta iota in Hrun.
      destruct (IH _ _ _ _ _ _ _ _ _ _ _ Hfresh1 Hrun) as (Hle & Hfresh' & Hold' & Hnew').
      split; [lia|]. split; [exact Hfresh'|]. split.
      * intros r Hr. rewrite Hold' by lia. apply Hold1. exact Hr.
      * intros r job Hr Hjob.
        destruct (decide (next_ref (jobs m1) <= r)%nat) as [Hge|Hlt].
        -- destruct (Hnew' r job Hge Hjob) as (? & ? & ? & ? & ? & ? & ?).
           repeat split; assumption.
        -- rewrite Hold' in Hjob by lia. exact (Hnew1 r job Hr Hjob).
    + injection Hrun as <- <-.
      split; [lia|]. split; [exact Hfresh1|]. split; [exact Hold1|exact Hnew1].
Qed.

(** X18.  Whatever the outcome of [_generate], the jobs that were
    there are untouched, and every job it added is queued, without
    results, of kind [live_preview] or [diffusion] as asked, with the
    prompts of the input and the strength of its sampling, and with
    the bounds where the result goes: the target bounds of the
    inpaint parameters if there are any (the absolute bounds of the
    mask), else the bounds given. *)
Theorem generated_jobs_carry_target_bounds (input : WorkflowInput) (b : Bounds)
  (count : Z) (is_live : bool) (m m' : Model) (o : Outcome (list nat)) :
  (forall r, (next_ref (jobs m) <= r)%nat -> objects m !! r = None) ->
  _generate input b count is_live m = (o, m') ->
  (forall r, (r < next_ref (jobs m))%nat -> objects m' !! r = objects m !! r) /\
  forall r job, (next_ref (jobs m) <= r)%nat -> objects m' !! r = Some job ->
    bounds (params job)
    = match inpaint input with
      | Some ip => target_bounds ip
      | None => b
      end /\
    kind job = (if is_live then live_preview else diffusion) /\
    Some (prompt (params job)) = positive <$> text input /\
    Some (negative_prompt (params job)) = negative <$> text input /\
    Some (strength (params job)) = s_strength <$> sampling input /\
    state job = queued /\ results job = [].
Proof.
  intros Hfresh Hrun. unfold _generate in Hrun.
  assert (Hnone : forall o0 : Outcome (list nat),
    (o0, m) = (o, m') ->
    (forall r, (r < next_ref (jobs m))%nat -> objects m' !! r = objects m !! r) /\
    forall r job, (next_ref (jobs m) <= r)%nat -> objects m' !! r = Some job -> False).
  { intros o0 [= <- <-]. split; [reflexivity|].
    intros r job Hr Hjob. rewrite Hfresh in Hjob by exact Hr. discriminate Hjob. }
  destruct (inpaint input) as [ip|] eqn:Hip; cbn [text sampling inpaint] in Hrun;
    (destruct (text input) as [t|] eqn:Ht;
     [|destruct (Hnone _ Hrun) as [Hold Hno]; split; [exact Hold|];
       intros r job Hr Hjob; destruct (Hno r job Hr Hjob)]);
    cbn [ensure] in Hrun; rewrite bind_run in Hrun;
    unfold mret at 1, M_ret at 1 in Hrun; cbv beta iota in Hrun;
    (destruct (sampling input) as [s|] eqn:Hs;
     [|destruct (Hnone _ Hrun) as [Hold Hno]; split; [exact Hold|];
       intros r job Hr Hjob; destruct (Hno r job Hr Hjob)]);
    cbn [ensure] in Hrun; rewrite bind_run in Hrun;
    unfold mret at 1, M_ret at 1 in Hrun; cbv beta iota in Hrun;
    destruct (generate_loop_params _ _ _ _ _ _ _ _ _ _ _ _ Hfresh Hrun)
      as (_ & _ & Hold & Hnew);
    (split; [exact Hold|]); intros r job Hr Hjob;
    destruct (Hnew r job Hr Hjob) as (Hk & Hp & Hn & Hb & Hst & Hres & Hq);
    cbn; rewrite Hk, Hp, Hn, Hb, Hst; repeat split; assumption.
Qed.

Lemma generated_jobs_carry_target_bounds_witness :
  exists job,
    objects (_generate (mkInput (Some (mkText "a cat" "")) (Some (mkSampling 1%float 10))
                          (Some (mkInpaint (mkBounds 64 64 128 128))))
               canvas 2 false model0).2 !! 1%nat = Some job /\
    bounds (params job) = mkBounds 64 64 128 128.
Proof.
  destruct (generated_jobs_carry_target_bounds
              (mkInput (Some (mkText "a cat" "")) (Some (mkSampling 1%float 10))
                 (Some (mkInpaint (mkBounds 64 64 128 128))))
              canvas 2 false model0 _ _ ltac:(intros r' _; reflexivity)
              ltac:(apply surjective_pairing)) as [_ Hnew].
  match goal with |- exists job, ?o !! _ = _ /\ _ =>
    destruct (o !! 1%nat) as [job|] eqn:Hjob; [|vm_compute in Hjob; discriminate Hjob]
  end.
  exists job. split; [reflexivity|].
  apply (Hnew 1%nat job); [cbn; lia|exact Hjob].
Defined.

(** ** The plugin updater *)

Section UpdatesFacts.
Import Updates.

Ltac urun :=
  repeat (progress (unfold mbind, U_bind, mret, U_ret, this, update, perform,
                      Updates.raise, answer, failing; cbn)).

(** X19.  [AutoUpdate.__init__] makes no request, whatever
    [enabled] is: [_is_enabled] is assigned directly, the state is
    still [disabled] when the constructor calls [check], and [_check]
    returns at once in that state.  The new object has no package,
    and its [latest_version] is the empty string.  Its version is the
    argument, or [__version__] when the argument is [None] or empty,
    and [is_available] is true when this version is not empty. *)
Theorem init_never_checks (env : Env) (defaults : Defaults) (enabled : bool)
  (dir : option Path) (current api : option string) :
  exists a,
    __init__ env defaults enabled dir current api = (Ok tt, mkWorld a []) /\
    state a = disabled /\ _is_enabled a = enabled /\
    latest_version a = Some "" /\ error a = "" /\ _package a = None /\
    plugin_dir a = match dir with
                   | Some folder => folder
                   | None => package_dir defaults
                   end /\
    current_version a = match current with
                        | Some v => if bool_decide (v = "") then __version__ defaults else v
                        | None => __version__ defaults
                        end /\
    api_url a = match api with
                | Some u => if bool_decide (u = "") then default_api_url defaults else u
                | None => default_api_url defaults
                end /\
    is_available a = bool_decide (current_version a ≠ "") /\
    forall env', check env' (mkWorld a []) = (Ok tt, mkWorld a []).
Proof.
  assert (Hor : forall (v : option string) (other : string),
            or_else v other = match v with
                              | Some s => if bool_decide (s = "") then other else s
                              | None => other
                              end).
  { intros [v|] other; [|reflexivity]. unfold or_else, truthy. cbn [default].
    destruct (decide (v = "")) as [->|Hv]; [reflexivity|].
    rewrite (bool_decide_eq_true_2 (v ≠ "")), (bool_decide_eq_false_2 (v = "")) by done.
    reflexivity. }
  eexists. split.
  - unfold __init__. cbn [_is_enabled]. destruct enabled; reflexivity.
  - cbn [state _is_enabled latest_version error _package plugin_dir current_version
           api_url].
    do 5 (split; [reflexivity|]).
    split; [destruct dir; reflexivity|].
    split; [apply Hor|]. split; [apply Hor|].
    split; [|intros env'; reflexivity].
    unfold is_available. cbn [latest_version current_version].
    apply bool_decide_ext. split; intros H E; apply H; congruence.
Qed.

(** The constructor on the empty string as version: the object takes
    [__version__]. *)
Example init_with_empty_version :
  current_version
    (self (__init__ env0 (mkDefaults "/plugin" "1.15.0" "https://api") true None
             (Some "") None).2) = "1.15.0" /\
  is_available
    (self (__init__ env0 (mkDefaults "/plugin" "1.15.0" "https://api") true None
             (Some "") None).2) = true /\
  effects (__init__ env0 (mkDefaults "/plugin" "1.15.0" "https://api") true None
             (Some "") None).2 = [].
Proof. repeat split; vm_compute; reflexivity. Qed.

(** In the states [disabled] and [restart_required] [check]
    does nothing at all; assigning [is_enabled] makes no request
    either and sets the state to [unknown] or [disabled]. *)
Theorem check_skipped (env : Env) (w : World) :
  state (self w) = disabled \/ state (self w) = restart_required ->
  check env w = (Ok tt, w) /\
  forall value w', set_is_enabled value w = (Ok tt, w') ->
    effects w' = effects w /\
    state (self w') = (if value then unknown else disabled).
Proof.
  intros Hst. split.
  - destruct w as [a effs]. cbn in Hst. unfold check, _handle_errors, _check. urun.
    destruct Hst as [-> | ->]; reflexivity.
  - intros value w'. destruct w as [a effs]. unfold set_is_enabled. urun.
    destruct value; intros [= <-]; split; reflexivity.
Qed.

Lemma check_skipped_witness :
  check (mkEnv (fun _ => inl "offline") (fun _ => inl "offline") (fun _ => "") "/tmp/u"
           None None)
    (mkWorld (mkAutoUpdate restart_required (Some "1.15.0") "" true "/plugin" "1.15.0"
                "https://api" None None) [])
  = (Ok tt, mkWorld (mkAutoUpdate restart_required (Some "1.15.0") "" true "/plugin"
                       "1.15.0" "https://api" None None) []).
Proof.
  apply (check_skipped
           (mkEnv (fun _ => inl "offline") (fun _ => inl "offline") (fun _ => "") "/tmp/u"
              None None)
           (mkWorld (mkAutoUpdate restart_required (Some "1.15.0") "" true "/plugin"
                       "1.15.0" "https://api" None None) [])).
  right. reflexivity.
Defined.

(** X20.  [check] in any other state sends exactly one request
    and returns, whatever the server answers, in the state [latest],
    [available] or [failed]: [latest] exactly if the server names the
    current version, [available] exactly if it names another,
    non-empty, version together with a url and a sha256, and then the
    package holds these three and [is_available] is true; in the
    state [failed] the error is not empty, otherwise it is as
    before. *)
Theorem check_outcome (env : Env) (w : World) :
  state (self w) <> disabled ->
  state (self w) <> restart_required ->
  let request := check_request (self w) in
  let current := current_version (self w) in
  exists a',
    check env w = (Ok tt, mkWorld a' (effects w ++ [NetGet request])) /\
    (state a' = latest \/ state a' = available \/ state a' = failed) /\
    current_version a' = current /\ plugin_dir a' = plugin_dir (self w) /\
    _is_enabled a' = _is_enabled (self w) /\
    (state a' = latest <->
       exists r, get_reply env request = inr r /\
                 r !! "version" = Some current /\ current <> "") /\
    (state a' = available <->
       exists r v u h,
         get_reply env request = inr r /\ r !! "version" = Some v /\
         v <> "" /\ v <> current /\ r !! "url" = Some u /\ r !! "sha256" = Some h) /\
    (state a' = available ->
       exists r v u h,
         get_reply env request = inr r /\
         r !! "version" = Some v /\ r !! "url" = Some u /\ r !! "sha256" = Some h /\
         latest_version a' = Some v /\ _package a' = Some (mkPackage v u h) /\
         is_available a' = true) /\
    (state a' = failed -> error a' <> "") /\
    (state a' <> failed -> error a' = error (self w)).
Proof.
  intros Hd Hr request current.
  destruct w as [a effs]. cbn in Hd, Hr. subst request current. cbn [self effects].
  unfold check, _handle_errors, _check. urun.
  rewrite (bool_decide_eq_false_2 (state a ∈ [disabled; restart_required])).
  2:{ rewrite !elem_of_cons, elem_of_nil. tauto. }
  destruct (get_reply env (check_request a)) as [msg|r] eqn:Hreply; urun.
  { eexists. split; [reflexivity|]. cbn.
    split; [auto|]. repeat (split; [reflexivity|]).
    split; [split; [discriminate|intros (r & H & _); discriminate H]|].
    split; [split; [discriminate|intros (r & v & u & h & H & _); discriminate H]|].
    split; [discriminate|]. split; [discriminate|]. intros H. contradiction. }
  destruct (r !! "version") as [v|] eqn:Hv; cbn [truthy negb].
  2:{ eexists. split; [reflexivity|]. cbn.
      split; [auto|]. repeat (split; [reflexivity|]).
      split; [split; [discriminate|intros (r' & [= <-] & H & _); congruence]|].
      split; [split; [discriminate|
                      intros (r' & v & u & h & [= <-] & H & _); congruence]|].
      split; [discriminate|]. split; [discriminate|]. intros H. contradiction. }
  split_decide (v ≠ ""); cbn [negb].
  2:{ apply dec_stable in Hdec. subst v.
      eexists. split; [reflexivity|]. cbn.
      split; [auto|]. repeat (split; [reflexivity|]).
      split; [split; [discriminate|intros (r' & [= <-] & H & H'); congruence]|].
      split; [split; [discriminate|
                      intros (r' & v & u & h & [= <-] & H & H' & _); congruence]|].
      split; [discriminate|]. split; [discriminate|]. intros H. contradiction. }
  split_decide (Some v = Some (current_version a)).
  { injection Hdec0 as ->.
    eexists. split; [reflexivity|]. cbn.
    split; [auto|]. repeat (split; [reflexivity|]).
    split; [split; [intros _; eauto|reflexivity]|].
    split; [split; [discriminate|
                    intros (r' & v & u & h & [= <-] & H & _ & H' & _); congruence]|].
    split; [discriminate|]. split; [discriminate|]. reflexivity. }
  assert (Hne : v <> current_version a) by congruence.
  destruct (r !! "url") as [u|] eqn:Hu; [destruct (r !! "sha256") as [h|] eqn:Hh|].
  - eexists. split; [reflexivity|]. cbn.
    split; [auto|]. repeat (split; [reflexivity|]).
    split; [split; [discriminate|intros (r' & [= <-] & H & _); congruence]|].
    split; [split; [intros _; exists r, v, u, h; auto 10|reflexivity]|].
    split; [intros _; exists r, v, u, h; repeat split; try assumption;
            now apply bool_decide_eq_true_2|].
    split; [discriminate|]. reflexivity.
  - eexists. split; [reflexivity|]. cbn.
    split; [auto|]. repeat (split; [reflexivity|]).
    split; [split; [discriminate|intros (r' & [= <-] & H & _); congruence]|].
    split; [split; [discriminate|
                    intros (r' & v' & u' & h' & [= <-] & _ & _ & _ & _ & H); congruence]|].
    split; [discriminate|]. split; [discriminate|]. intros H. contradiction.
  - eexists. split; [reflexivity|]. cbn.
    split; [auto|]. repeat (split; [reflexivity|]).
    split; [split; [discriminate|intros (r' & [= <-] & H & _); congruence]|].
    split; [split; [discriminate|
                    intros (r' & v' & u' & h' & [= <-] & _ & _ & _ & H & _); congruence]|].
    split; [discriminate|]. split; [discriminate|]. intros H. contradiction.
Qed.

Lemma check_outcome_witness :
  state (self (check env0 updater0).2) = available /\
  _package (self (check env0 updater0).2)
  = Some (mkPackage "1.16.0" "https://dl/1.16.0.zip" "abc").
Proof.
  destruct (check_outcome env0 updater0 ltac:(discriminate) ltac:(discriminate))
    as (a' & Hrun & _).
  rewrite Hrun. vm_compute in Hrun. injection Hrun as <-. split; reflexivity.
Defined.

(** X21.  [run] always returns, in the state [restart_required] or
    [failed].  [restart_required] means that the package was
    downloaded, its digest matched, it was unpacked and copied, in
    that order, and the current version is now the latest one, so
    that [is_available] is false and a later [check] does nothing.
    [failed] leaves the current version as it was, with an error
    "Failed to update plugin: ...".  Nothing is copied into the
    plugin directory unless the digest of the download is the one of
    the package, and without a package or a latest version nothing is
    requested at all. *)
Theorem run_outcome (env : Env) (w : World) :
  exists a' effs,
    run env w = (Ok tt, mkWorld a' (effects w ++ effs)) /\
    (state a' = restart_required \/ state a' = failed) /\
    plugin_dir a' = plugin_dir (self w) /\
    latest_version a' = latest_version (self w) /\
    (state a' = restart_required ->
       exists p v data,
         _package (self w) = Some p /\ latest_version (self w) = Some v /\
         download_reply env (url p) = inr data /\
         sha256_hexdigest env data = sha256 p /\
         current_version a' = v /\ is_available a' = false /\
         effs = install_effects env (self w) p data /\
         forall env', check env' (mkWorld a' (effects w ++ effs))
                      = (Ok tt, mkWorld a' (effects w ++ effs))) /\
    (state a' = failed ->
       current_version a' = current_version (self w) /\
       exists reason, error a' = "Failed to update plugin: " +:+ reason) /\
    (forall source target, CopyTree source target ∈ effs ->
       target = plugin_dir (self w) /\
       exists p data,
         _package (self w) = Some p /\
         download_reply env (url p) = inr data /\
         sha256_hexdigest env data = sha256 p) /\
    (_package (self w) = None \/ truthy (latest_version (self w)) = false ->
       effs = []).
Proof.
  destruct w as [a effs0]. cbn [self effects].
  unfold run, _handle_errors, _run. urun.
  destruct (truthy (latest_version a)) eqn:Htruthy.
  2:{ urun. exists (set_state failed (set_error "Failed to update plugin: " a)), [].
      rewrite app_nil_r. split; [reflexivity|]. cbn.
      split; [auto|]. split; [reflexivity|]. split; [reflexivity|].
      split; [discriminate|]. split; [intros _; split; [reflexivity|exists ""; reflexivity]|].
      split; [intros ? ? H; by apply elem_of_nil in H|]. reflexivity. }
  destruct (_package a) as [p|] eqn:Hp.
  2:{ urun. exists (set_state failed (set_error "Failed to update plugin: " a)), [].
      rewrite app_nil_r. split; [reflexivity|]. cbn.
      split; [auto|]. split; [reflexivity|]. split; [reflexivity|].
      split; [discriminate|]. split; [intros _; split; [reflexivity|exists ""; reflexivity]|].
      split; [intros ? ? H; by apply elem_of_nil in H|]. reflexivity. }
  destruct (latest_version a) as [v|] eqn:Hv; [|discriminate Htruthy].
  urun.
  destruct (download_reply env (url p)) as [msg|data] eqn:Hdl; urun.
  { eexists _, [_; _]. rewrite <- app_assoc. split; [reflexivity|]. cbn.
    rewrite Hv. split; [auto|]. split; [reflexivity|]. split; [reflexivity|].
    split; [discriminate|]. split; [intros _; split; [reflexivity|eauto]|].
    split; [|intros [H|H]; discriminate H].
    intros ? ? H. rewrite !elem_of_cons, elem_of_nil in H.
    destruct H as [H|[H|[]]]; discriminate H. }
  split_decide (sha256_hexdigest env data ≠ sha256 p); urun.
  { eexists _, [_; _]. rewrite <- app_assoc. split; [reflexivity|]. cbn.
    rewrite Hv. split; [auto|]. split; [reflexivity|]. split; [reflexivity|].
    split; [discriminate|]. split; [intros _; split; [reflexivity|eauto]|].
    split; [|intros [H|H]; discriminate H].
    intros ? ? H. rewrite !elem_of_cons, elem_of_nil in H.
    destruct H as [H|[H|[]]]; discriminate H. }
  apply dec_stable in Hdec.
  destruct (extract_error env) as [msg|] eqn:Hex; urun.
  { eexists _, [_; _; _; _]. rewrite <- !app_assoc. split; [reflexivity|]. cbn.
    rewrite Hv. split; [auto|]. split; [reflexivity|]. split; [reflexivity|].
    split; [discriminate|]. split; [intros _; split; [reflexivity|eauto]|].
    split; [|intros [H|H]; discriminate H].
    intros ? ? H. rewrite !elem_of_cons, elem_of_nil in H.
    destruct H as [H|[H|[H|[H|[]]]]]; discriminate H. }
  destruct (copytree_error env) as [msg|] eqn:Hcp; urun.
  { eexists _, [_; _; _; _; _]. rewrite <- !app_assoc. split; [reflexivity|]. cbn.
    rewrite Hv. split; [auto|]. split; [reflexivity|]. split; [reflexivity|].
    split; [discriminate|]. split; [intros _; split; [reflexivity|eauto]|].
    split; [|intros [H|H]; discriminate H].
    intros ? ? H. rewrite !elem_of_cons, elem_of_nil in H.
    destruct H as [H|[H|[H|[H|[H|[]]]]]]; try discriminate H.
    injection H as -> ->. split; [reflexivity|]. eauto. }
  eexists _, (install_effects env a p data). unfold install_effects.
  rewrite <- !app_assoc, Hv. split; [reflexivity|]. cbn.
  rewrite Hv. split; [auto|]. split; [reflexivity|]. split; [reflexivity|].
  split; [|split; [discriminate|split; [|intros [H|H]; discriminate H]]].
  - intros _. exists p, v, data. repeat split; try assumption.
    unfold is_available. cbn. rewrite Hv.
    apply bool_decide_eq_false_2. intros H. apply H. reflexivity.
  - intros ? ? H. rewrite !elem_of_cons, elem_of_nil in H.
    destruct H as [H|[H|[H|[H|[H|[]]]]]]; try discriminate H.
    injection H as -> ->. split; [reflexivity|]. eauto.
Qed.

(** Checking and then updating, with the sample server: the package
    of version 1.16.0 is installed into the plugin directory. *)
Example check_then_run :
  (run env0 (check env0 updater0).2).2
  = mkWorld (mkAutoUpdate restart_required (Some "1.16.0") "" true "/plugin" "1.16.0"
               "https://api"
               (Some (mkPackage "1.16.0" "https://dl/1.16.0.zip" "abc")) (Some "/tmp/u"))
      [NetGet "https://api/plugin/latest?version=1.15.0";
       MakeTempDir "/tmp/u"; NetDownload "https://dl/1.16.0.zip";
       WriteBytes "/tmp/u/krita_ai_diffusion-1.16.0.zip" "zip-data";
       ExtractAll "/tmp/u/krita_ai_diffusion-1.16.0.zip" "/tmp/u/krita_ai_diffusion-1.16.0";
       CopyTree "/tmp/u/krita_ai_diffusion-1.16.0" "/plugin"].
Proof. vm_compute. reflexivity. Qed.
End UpdatesFacts.
